(** * pycoin-framework: the heartbeat scheduler and the WebSocket client

    A shallow embedding of [utils/heartbeat.py], [utils/websocket.py] and
    of the message dispatch of
    [exchange/binance/binance_spot_websocket.py], with the properties of
    the connection life cycle, the reconnect backoff, the periodic tasks
    and the subscription dispatch stated over it.

    Python integers are [Z]; a Python [dict] whose iteration order is
    observable is an insertion-ordered association list; the
    [_subscriptions] dict, which is only looked up, is a [gmap].  Python
    exceptions are the [Raise] results of a small error type. *)

From stdpp Require Import base numbers strings pretty list gmap.
From Stdlib Require Import ZArith Lia.

Local Open Scope string_scope.
Local Open Scope list_scope.
Local Open Scope Z_scope.
Set Warnings "-register-all".

(** ** Python values, exceptions and the shared trace *)

(** The exceptions the modelled code raises or catches.  All of them
    derive from Python's [Exception]. *)
Inductive exn : Type :=
| ValueError
| ZeroDivisionError
| TypeError
| RuntimeError
| NotImplementedError
| JSONDecodeError
| ClientError        (* aiohttp.ClientError *)
| OtherException.    (* any other subclass of Exception *)

Inductive result (A : Type) : Type :=
| Ok (a : A)
| Raise (e : exn).
Arguments Ok {A} a.
Arguments Raise {A} e.

Definition is_ok {A} (r : result A) : bool :=
  match r with Ok _ => true | Raise _ => false end.

(** What [json.loads] produces, also used for the positional and keyword
    arguments captured by the scheduler. *)
Inductive json : Type :=
| JNull
| JBool (b : bool)
| JInt (z : Z)
| JFloat (repr : string)
| JStr (s : string)
| JArr (items : list json)
| JObj (fields : list (string * json)).

Inductive Level : Type := DEBUG | INFO | WARNING | ERROR.

(** A Python callable as the scheduler and the registry see it: its
    [__name__], and whether evaluating the call expression raises. *)
Record Callback : Type := mkCallback {
  cb_name : string;
  cb_raises : bool
}.

Inductive ConnectionState : Type :=
| DISCONNECTED | CONNECTING | CONNECTED | RECONNECTING | CLOSED.

(** The observable actions of the modelled code, in program order. *)
Inductive Event : Type :=
| EvLog (lvl : Level) (site : string)
| EvCall (task_id : string) (func : Callback)   (* func( *args, **kwargs) *)
| EvCreateTask (task_id : string) (func : Callback)   (* loop.create_task *)
| EvCallLater (delay : Z)
| EvState (s : ConnectionState)       (* an assignment to [self._state] *)
| EvSleep (seconds : Z)               (* asyncio.sleep *)
| EvWsConnect (ok : bool)             (* session.ws_connect issued *)
| EvOnConnect
| EvOnDisconnect
| EvSpawn (coroutine : string)        (* asyncio.create_task *)
| EvSendJson (payload : json)
| EvSendStr (text : string)
| EvWsClose
| EvSessionClose
| EvProcess (data : json)
| EvProcessBinary
| EvInvoke (func : Callback) (arg : json).

Global Instance exn_eq_dec : EqDecision exn.
Proof. solve_decision. Defined.
Global Instance Level_eq_dec : EqDecision Level.
Proof. solve_decision. Defined.
Global Instance ConnectionState_eq_dec : EqDecision ConnectionState.
Proof. solve_decision. Defined.
Global Instance Callback_eq_dec : EqDecision Callback.
Proof. solve_decision. Defined.

(** ** Insertion-ordered dictionaries *)

Module PyDict.
Section Dict.
Context {V : Type}.

Fixpoint get (k : string) (d : list (string * V)) : option V :=
  match d with
  | [] => None
  | (k', v) :: d' => if decide (k = k') then Some v else get k d'
  end.

(** [d[k] = v]: an existing key keeps its position, a new key goes last. *)
Fixpoint set_item (k : string) (v : V) (d : list (string * V)) : list (string * V) :=
  match d with
  | [] => [(k, v)]
  | (k', v') :: d' =>
      if decide (k = k') then (k, v) :: d' else (k', v') :: set_item k v d'
  end.

(** [d.pop(k)] for a key that may be absent. *)
Fixpoint pop (k : string) (d : list (string * V)) : list (string * V) :=
  match d with
  | [] => []
  | (k', v') :: d' =>
      if decide (k = k') then d' else (k', v') :: pop k d'
  end.

Definition mem (k : string) (d : list (string * V)) : bool :=
  match get k d with Some _ => true | None => false end.

Definition keys (d : list (string * V)) : list string := d.*1.
End Dict.
End PyDict.

(** ** utils/tools.py: [get_uuid1] *)

(** [uuid.uuid1()] reads the clock and the node id of the host.  The
    source of identifiers is a parameter of the model: the [n]-th call in
    the process returns [uuid_of n]. *)
Record UuidGen : Type := mkUuidGen {
  uuid_of : nat → string;
  uuid_next : nat
}.

Definition get_uuid1 (g : UuidGen) : string * UuidGen :=
  (uuid_of g (uuid_next g), mkUuidGen (uuid_of g) (S (uuid_next g))).

(** ** utils/heartbeat.py: class [HeartBeat] *)

Module HeartBeat.

Record Task : Type := mkTask {
  func : Callback;
  interval : Z;
  args : list json;
  kwargs : list (string * json)
}.

Record t : Type := mkHeartBeat {
  _count : Z;
  _interval : Z;
  _is_running : bool;
  _tasks : list (string * Task);
  _print_interval : Z;
  _broadcast_interval : Z
}.

Definition with_count (c : Z) (self : t) : t :=
  mkHeartBeat c (_interval self) (_is_running self) (_tasks self)
              (_print_interval self) (_broadcast_interval self).
Definition with_is_running (b : bool) (self : t) : t :=
  mkHeartBeat (_count self) (_interval self) b (_tasks self)
              (_print_interval self) (_broadcast_interval self).
Definition with_tasks (d : list (string * Task)) (self : t) : t :=
  mkHeartBeat (_count self) (_interval self) (_is_running self) d
              (_print_interval self) (_broadcast_interval self).

(** [__init__]: [heartbeat_config] is what
    [settings.get_heartbeat_config()] returned. *)
Definition __init__ (heartbeat_config : list (string * Z)) : t :=
  {| _count := 0;
     _interval := 1;
     _is_running := false;
     _tasks := [];
     _print_interval := default 0 (PyDict.get "interval" heartbeat_config);
     _broadcast_interval := default 0 (PyDict.get "broadcast" heartbeat_config) |}.

Definition count (self : t) : Z := _count self.
Definition is_running (self : t) : bool := _is_running self.

(** Python's [a % b] on integers: floored, [ZeroDivisionError] at 0. *)
Definition py_mod (a b : Z) : result Z :=
  if decide (b = 0) then Raise ZeroDivisionError else Ok (a `mod` b).

(** The loop of [_execute_tasks] over [self._tasks.items()].  The
    modulus is outside the [try], so a zero interval aborts the loop;
    a failing launch is caught and logged. *)
Fixpoint execute_items (count : Z) (items : list (string * Task))
  : result unit * list Event :=
  match items with
  | [] => (Ok tt, [])
  | (task_id, task) :: rest =>
      match py_mod count (interval task) with
      | Raise e => (Raise e, [])
      | Ok r =>
          if decide (r ≠ 0) then execute_items count rest
          else
            let launch :=
              EvCall task_id (func task) ::
              (if cb_raises (func task)
               then [EvLog ERROR "execute heartbeat task failed"]
               else [EvCreateTask task_id (func task)]) in
            let '(res, evs) := execute_items count rest in
            (res, launch ++ evs)
      end
  end.

Definition _execute_tasks (self : t) : result unit * list Event :=
  execute_items (_count self) (_tasks self).

Definition _broadcast_alive (self : t) : list Event :=
  [EvLog DEBUG "alive broadcast"].

(** [ticker]: one activation.  The last event of a completed
    activation is the [call_later] that schedules the next one. *)
Definition ticker (self : t) : result unit * t * list Event :=
  if negb (_is_running self) then (Ok tt, self, [])
  else
    let self := with_count (_count self + 1) self in
    let ev_print :=
      if decide (0 < _print_interval self
                 ∧ _count self `mod` _print_interval self = 0)
      then [EvLog INFO "heartbeat"] else [] in
    match _execute_tasks self with
    | (Raise e, evs) => (Raise e, self, ev_print ++ evs)
    | (Ok _, evs) =>
        let ev_bcast :=
          if decide (0 < _broadcast_interval self
                     ∧ _count self `mod` _broadcast_interval self = 0)
          then _broadcast_alive self else [] in
        (Ok tt, self,
         ev_print ++ evs ++ ev_bcast ++ [EvCallLater (_interval self)])
    end.

Definition start (self : t) : result unit * t * list Event :=
  if _is_running self
  then (Ok tt, self, [EvLog WARNING "heartbeat already running"])
  else
    let self := with_is_running true self in
    let self := with_count 0 self in
    let '(res, self, evs) := ticker self in
    (res, self, EvLog INFO "heartbeat started" :: evs).

Definition stop (self : t) : t * list Event :=
  (with_is_running false self, [EvLog INFO "heartbeat stopped"]).

Definition register (func : Callback) (interval : Z)
    (args : list json) (kwargs : list (string * json))
    (self : t) (g : UuidGen)
  : result string * t * UuidGen * list Event :=
  if decide (interval ≤ 0) then (Raise ValueError, self, g, [])
  else
    let '(task_id, g) := get_uuid1 g in
    let self :=
      with_tasks (PyDict.set_item task_id
                    (mkTask func interval args kwargs) (_tasks self)) self in
    (Ok task_id, self, g, [EvLog INFO "register heartbeat task"]).

Definition unregister (task_id : string) (self : t) : bool * t * list Event :=
  if PyDict.mem task_id (_tasks self)
  then (true, with_tasks (PyDict.pop task_id (_tasks self)) self,
        [EvLog INFO "unregister heartbeat task"])
  else (false, self, [EvLog WARNING "task does not exist"]).

Definition get_task_count (self : t) : Z := Z.of_nat (length (_tasks self)).

Definition clear_tasks (self : t) : t * list Event :=
  (with_tasks [] self, [EvLog INFO "cleared heartbeat tasks"]).

(** Successive activations: what the event loop does with the
    [call_later] handles, one activation after the other, stopping on
    an uncaught exception.  Each activation contributes its events. *)
Fixpoint run_ticks (n : nat) (self : t) : t * list (list Event) :=
  match n with
  | O => (self, [])
  | S n' =>
      match ticker self with
      | (Ok _, self', evs) =>
          let '(final, rest) := run_ticks n' self' in (final, evs :: rest)
      | (Raise _, self', evs) => (self', [evs])
      end
  end.

(** [start()] followed by [n] further activations. *)
Definition start_and_run (n : nat) (self : t) : t * list (list Event) :=
  match start self with
  | (Ok _, self', evs) =>
      let '(final, rest) := run_ticks n self' in (final, evs :: rest)
  | (Raise _, self', evs) => (self', [evs])
  end.

(** How many times the callback of [task_id] was invoked, and how
    many times it was handed to the event loop, in a list of events. *)
Definition is_call_of (task_id : string) (ev : Event) : bool :=
  match ev with
  | EvCall i _ => bool_decide (i = task_id)
  | _ => false
  end.

Definition is_launch_of (task_id : string) (ev : Event) : bool :=
  match ev with
  | EvCreateTask i _ => bool_decide (i = task_id)
  | _ => false
  end.

Definition calls (task_id : string) (evs : list Event) : nat :=
  length (List.filter (is_call_of task_id) evs).

Definition launches (task_id : string) (evs : list Event) : nat :=
  length (List.filter (is_launch_of task_id) evs).

Definition total_calls (task_id : string) (ticks : list (list Event)) : nat :=
  sum_list (calls task_id <$> ticks).

Definition total_launches (task_id : string) (ticks : list (list Event)) : nat :=
  sum_list (launches task_id <$> ticks).

(** The invariant of the task table: [register] is its only writer of
    entries, so keys are distinct and intervals positive. *)
Definition wf (self : t) : Prop :=
  NoDup (PyDict.keys (_tasks self))
  ∧ Forall (λ kv, 0 < interval kv.2) (_tasks self).


(** The scenario of the specification: tasks A (every 3 ticks) and B
    (every 5 ticks) on a fresh scheduler, then [start()] and fourteen
    further activations, fifteen in all. *)
Definition scenario_A3_B5 (cfg : list (string * Z)) (g : UuidGen)
    (A B : Callback) :=
  let hb0 := __init__ cfg in
  let '(ra, hb1, g1, _) := register A 3 [] [] hb0 g in
  let '(rb, hb2, g2, _) := register B 5 [] [] hb1 g1 in
  (ra, rb, start_and_run 14 hb2).

End HeartBeat.

(** Concrete inputs used to run the scheduler. *)
Module Sample.
Definition gen : UuidGen := mkUuidGen (λ n, "task-" +:+ pretty n) 0.
Definition cb_A : Callback := mkCallback "task_a" false.
Definition cb_B : Callback := mkCallback "task_b" false.
Definition hb_A3 : HeartBeat.t :=
  HeartBeat.mkHeartBeat 2 1 true
    [("task-0", HeartBeat.mkTask cb_A 3 [] [])] 0 0.
End Sample.

(** ** utils/websocket.py: the data of [WebSocketClient] *)

(** An [aiohttp.ClientWebSocketResponse] and an [aiohttp.ClientSession],
    as far as the client looks at them: their [closed] flag. *)
Record Ws : Type := mkWs { closed : bool }.
Record ClientSession : Type := mkSession { session_closed : bool }.

(** The values [self.heartbeat_msg] can hold. *)
Inductive pyval : Type :=
| PyNone
| PyStr (s : string)
| PyDict (d : list (string * json))
| PyCallable (f : Callback).

Definition truthy (v : pyval) : bool :=
  match v with
  | PyNone => false
  | PyStr s => negb (bool_decide (s = ""))
  | PyDict d => negb (bool_decide (d = []))
  | PyCallable _ => true
  end.

(** [if task_id:] on an [Optional[str]]. *)
Definition truthy_id (o : option string) : option string :=
  match o with
  | Some s => if decide (s = "") then None else Some s
  | None => None
  end.

Record WebSocketClient : Type := mkClient {
  _url : string;
  _check_conn_interval : Z;
  _send_hb_interval : Z;
  _auto_reconnect : bool;
  _max_reconnect_attempts : Z;
  _session : option ClientSession;
  _ws : option Ws;
  _state : ConnectionState;
  _reconnect_count : Z;
  heartbeat_msg : pyval;
  _check_task_id : option string;
  _heartbeat_task_id : option string
}.

(** [__init__]; headers and proxy are passed through to the transport
    and are not part of the model. *)
Definition WebSocketClient__init__ (url : string)
    (check_conn_interval send_hb_interval : Z) (auto_reconnect : bool)
    (max_reconnect_attempts : Z) : WebSocketClient :=
  {| _url := url;
     _check_conn_interval := check_conn_interval;
     _send_hb_interval := send_hb_interval;
     _auto_reconnect := auto_reconnect;
     _max_reconnect_attempts := max_reconnect_attempts;
     _session := None;
     _ws := None;
     _state := DISCONNECTED;
     _reconnect_count := 0;
     heartbeat_msg := PyNone;
     _check_task_id := None;
     _heartbeat_task_id := None |}.

Definition with_session (x : option ClientSession) (c : WebSocketClient) :=
  mkClient (_url c) (_check_conn_interval c) (_send_hb_interval c)
    (_auto_reconnect c) (_max_reconnect_attempts c) x (_ws c) (_state c)
    (_reconnect_count c) (heartbeat_msg c) (_check_task_id c)
    (_heartbeat_task_id c).
Definition with_ws (x : option Ws) (c : WebSocketClient) :=
  mkClient (_url c) (_check_conn_interval c) (_send_hb_interval c)
    (_auto_reconnect c) (_max_reconnect_attempts c) (_session c) x (_state c)
    (_reconnect_count c) (heartbeat_msg c) (_check_task_id c)
    (_heartbeat_task_id c).
Definition with_state (x : ConnectionState) (c : WebSocketClient) :=
  mkClient (_url c) (_check_conn_interval c) (_send_hb_interval c)
    (_auto_reconnect c) (_max_reconnect_attempts c) (_session c) (_ws c) x
    (_reconnect_count c) (heartbeat_msg c) (_check_task_id c)
    (_heartbeat_task_id c).
Definition with_reconnect_count (x : Z) (c : WebSocketClient) :=
  mkClient (_url c) (_check_conn_interval c) (_send_hb_interval c)
    (_auto_reconnect c) (_max_reconnect_attempts c) (_session c) (_ws c)
    (_state c) x (heartbeat_msg c) (_check_task_id c) (_heartbeat_task_id c).
Definition with_heartbeat_msg (x : pyval) (c : WebSocketClient) :=
  mkClient (_url c) (_check_conn_interval c) (_send_hb_interval c)
    (_auto_reconnect c) (_max_reconnect_attempts c) (_session c) (_ws c)
    (_state c) (_reconnect_count c) x (_check_task_id c)
    (_heartbeat_task_id c).
Definition with_check_task_id (x : option string) (c : WebSocketClient) :=
  mkClient (_url c) (_check_conn_interval c) (_send_hb_interval c)
    (_auto_reconnect c) (_max_reconnect_attempts c) (_session c) (_ws c)
    (_state c) (_reconnect_count c) (heartbeat_msg c) x
    (_heartbeat_task_id c).
Definition with_heartbeat_task_id (x : option string) (c : WebSocketClient) :=
  mkClient (_url c) (_check_conn_interval c) (_send_hb_interval c)
    (_auto_reconnect c) (_max_reconnect_attempts c) (_session c) (_ws c)
    (_state c) (_reconnect_count c) (heartbeat_msg c) (_check_task_id c) x.

(** ** Coroutines *)

(** What the coroutines of one client can read and write: the client,
    the [_subscriptions] dict that the Binance adapter adds to it, and
    the process-wide [heartbeat] object with the identifier source. *)
Record Sys : Type := mkSys {
  client : WebSocketClient;
  _subscriptions : gmap string Callback;
  heartbeat : HeartBeat.t;
  uuids : UuidGen
}.

Definition with_client (c : WebSocketClient) (s : Sys) : Sys :=
  mkSys c (_subscriptions s) (heartbeat s) (uuids s).
Definition with_heartbeat (h : HeartBeat.t) (g : UuidGen) (s : Sys) : Sys :=
  mkSys (client s) (_subscriptions s) h g.

(** The operations a coroutine awaits, each a point at which other
    coroutines may run. *)
Inductive Awaitable : Type :=
| AwSleep (seconds : Z)               (* asyncio.sleep *)
| AwReceive                           (* the next frame of [async for] *)
| AwOnConnect
| AwOnDisconnect
| AwProcess (data : json)
| AwProcessBinary
| AwCallback (cb : Callback) (arg : json)
| AwWsSendJson (payload : json)
| AwWsSendStr (text : string)
| AwWsClose
| AwSessionClose.

(** An [async def] body: straight-line code over [Sys] between awaits.
    [Throw] is a raised exception, [AwaitConnect] the handshake
    [session.ws_connect(...)], which yields the new socket. *)
Inductive Co (A : Type) : Type :=
| Ret (a : A)
| Throw (e : exn)
| Get (k : Sys → Co A)
| Put (s : Sys) (k : Co A)
| Emit (ev : Event) (k : Co A)
| Await (a : Awaitable) (k : result unit → Co A)
| AwaitConnect (k : result Ws → Co A).
Arguments Ret {A} a.
Arguments Throw {A} e.
Arguments Get {A} k.
Arguments Put {A} s k.
Arguments Emit {A} ev k.
Arguments Await {A} a k.
Arguments AwaitConnect {A} k.

Fixpoint bind {A B} (m : Co A) (f : A → Co B) : Co B :=
  match m with
  | Ret a => f a
  | Throw e => Throw e
  | Get k => Get (λ s, bind (k s) f)
  | Put s k => Put s (bind k f)
  | Emit ev k => Emit ev (bind k f)
  | Await a k => Await a (λ r, bind (k r) f)
  | AwaitConnect k => AwaitConnect (λ r, bind (k r) f)
  end.

Global Instance Co_ret : MRet Co := @Ret.
Global Instance Co_bind : MBind Co := λ A B f m, bind m f.

(** [try: body except Exception as e: handler e]. *)
Fixpoint try_except {A} (body : Co A) (handler : exn → Co A) : Co A :=
  match body with
  | Ret a => Ret a
  | Throw e => handler e
  | Get k => Get (λ s, try_except (k s) handler)
  | Put s k => Put s (try_except k handler)
  | Emit ev k => Emit ev (try_except k handler)
  | Await a k => Await a (λ r, try_except (k r) handler)
  | AwaitConnect k => AwaitConnect (λ r, try_except (k r) handler)
  end.

Definition of_result {A} (r : result A) : Co A :=
  match r with Ok a => Ret a | Raise e => Throw e end.

Definition await (a : Awaitable) : Co unit := Await a of_result.
Definition await_ws_connect : Co Ws := AwaitConnect of_result.
Definition get_self : Co WebSocketClient := Get (λ s, Ret (client s)).
Definition modify_self (f : WebSocketClient → WebSocketClient) : Co unit :=
  Get (λ s, Put (with_client (f (client s)) s) (Ret tt)).
Definition log (lvl : Level) (site : string) : Co unit :=
  Emit (EvLog lvl site) (Ret tt).
Definition emits (evs : list Event) : Co unit :=
  foldr (λ ev k, Emit ev k) (Ret tt) evs.
Definition set_state (st : ConnectionState) : Co unit :=
  modify_self (with_state st);; Emit (EvState st) (Ret tt).
Definition create_task (coroutine : string) : Co unit :=
  Emit (EvSpawn coroutine) (Ret tt).

(** *** Running coroutines *)

(** What the environment does at one await: the coroutines that run to
    completion while the awaiting one is suspended, and whether the
    awaited operation raises. *)
Record Step : Type := mkStep {
  interrupt : list (Co unit);
  connect_raises : option exn;
  hook_raises : option exn;
  send_raises : option exn;
  close_raises : option exn
}.

Definition quiet : Step := mkStep [] None None None None.

Record Cfg : Type := mkCfg {
  sys : Sys;
  trace : list Event;
  clock : nat       (* number of awaits issued so far *)
}.

Definition with_sys (s : Sys) (c : Cfg) : Cfg := mkCfg s (trace c) (clock c).
Definition emit (ev : Event) (c : Cfg) : Cfg :=
  mkCfg (sys c) (trace c ++ [ev]) (clock c).
Definition tick (c : Cfg) : Cfg := mkCfg (sys c) (trace c) (S (clock c)).

Definition outcome (o : option exn) : result unit :=
  match o with None => Ok tt | Some e => Raise e end.

(** Issuing an awaited operation: what is observable of it. *)
Definition issue (a : Awaitable) (st : Step) (c : Cfg) : Cfg :=
  match a with
  | AwSleep t => emit (EvSleep t) c
  | AwReceive => c
  | AwOnConnect => emit EvOnConnect c
  | AwOnDisconnect => emit EvOnDisconnect c
  | AwProcess data => emit (EvProcess data) c
  | AwProcessBinary => emit EvProcessBinary c
  | AwCallback cb arg => emit (EvInvoke cb arg) c
  | AwWsSendJson payload =>
      if send_raises st is None then emit (EvSendJson payload) c else c
  | AwWsSendStr text =>
      if send_raises st is None then emit (EvSendStr text) c else c
  | AwWsClose => emit EvWsClose c
  | AwSessionClose => emit EvSessionClose c
  end.

(** Its completion: the result handed back to the coroutine, and the
    effect on the transport objects. *)
Definition complete (a : Awaitable) (st : Step) (c : Cfg) : Cfg * result unit :=
  match a with
  | AwSleep _ | AwReceive => (c, Ok tt)
  | AwOnConnect | AwOnDisconnect | AwProcess _ | AwProcessBinary =>
      (c, outcome (hook_raises st))
  | AwCallback cb _ =>
      (c, if cb_raises cb then Raise OtherException else Ok tt)
  | AwWsSendJson _ | AwWsSendStr _ => (c, outcome (send_raises st))
  | AwWsClose =>
      match close_raises st with
      | Some e => (c, Raise e)
      | None =>
          let s := sys c in
          (with_sys (with_client (with_ws ((λ _, mkWs true) <$> _ws (client s))
                                          (client s)) s) c, Ok tt)
      end
  | AwSessionClose =>
      match close_raises st with
      | Some e => (c, Raise e)
      | None =>
          let s := sys c in
          (with_sys (with_client
                       (with_session ((λ _, mkSession true) <$> _session (client s))
                                     (client s)) s) c, Ok tt)
      end
  end.

(** [session.ws_connect]: aiohttp refuses a closed session with
    [RuntimeError]; otherwise the environment decides. *)
Definition handshake (st : Step) (c : Cfg) : result Ws :=
  match _session (client (sys c)) with
  | Some s =>
      if session_closed s then Raise RuntimeError
      else match connect_raises st with
           | None => Ok (mkWs false)
           | Some e => Raise e
           end
  | None => Raise OtherException
  end.

Section Run.
Context (env : nat → Step).
(** [others st c]: the configuration after the coroutines that run
    during the await. *)
Context (others : Step → Cfg → Cfg).

Fixpoint run {A} (p : Co A) (c : Cfg) : Cfg * result A :=
  match p with
  | Ret a => (c, Ok a)
  | Throw e => (c, Raise e)
  | Get k => run (k (sys c)) c
  | Put s k => run k (with_sys s c)
  | Emit ev k => run k (emit ev c)
  | Await a k =>
      let st := env (clock c) in
      let c := others st (tick (issue a st c)) in
      let '(c, r) := complete a st c in
      run (k r) c
  | AwaitConnect k =>
      let st := env (clock c) in
      let r := handshake st c in
      let c := others st (tick (emit (EvWsConnect (is_ok r)) c)) in
      run (k r) c
  end.
End Run.

(** A coroutine running alone, and a coroutine during whose awaits the
    coroutines named by the environment run. *)
Definition exec0 {A} (env : nat → Step) : Co A → Cfg → Cfg * result A :=
  run env (λ _ c, c).

Definition interleave (env : nat → Step) (st : Step) (c : Cfg) : Cfg :=
  foldl (λ c p, (exec0 env p c).1) c (interrupt st).

Definition exec {A} (env : nat → Step) : Co A → Cfg → Cfg * result A :=
  run env (interleave env).

(** The events a run added to the trace. *)
Definition new_events (before after : Cfg) : list Event :=
  drop (length (trace before)) (trace after).

Definition states (evs : list Event) : list ConnectionState :=
  omap (λ ev, match ev with EvState s => Some s | _ => None end) evs.

Definition connect_attempts (evs : list Event) : nat :=
  length (List.filter (λ ev, match ev with EvWsConnect _ => true | _ => false end) evs).

Definition is_send (ev : Event) : bool :=
  match ev with EvSendJson _ | EvSendStr _ => true | _ => false end.

(** ** utils/websocket.py: the methods of [WebSocketClient] *)

(** The frames the socket delivers to [async for msg in self._ws]:
    [WSMsgType.TEXT], [BINARY], [CLOSED], [ERROR], any other type, or a
    read that raises. *)
Inductive WSMsg : Type :=
| MsgText (data : string)
| MsgBinary
| MsgClosed
| MsgError
| MsgOther
| MsgReadRaises (e : exn).

Module WebSocketClient.

Definition state (self : WebSocketClient) : ConnectionState := _state self.

Definition is_connected (self : WebSocketClient) : bool :=
  bool_decide (_state self = CONNECTED)
  && match _ws self with
     | Some ws => negb (closed ws)
     | None => false
     end.

Definition connect : Co bool :=
  self ← get_self;
  if bool_decide (_state self = CONNECTING ∨ _state self = CONNECTED)
  then
    log WARNING "already connecting or connected";;
    mret false
  else
    set_state CONNECTING;;
    log INFO "connecting";;
    try_except
      (self ← get_self;
       (if _session self is None
        then modify_self (with_session (Some (mkSession false)))
        else mret tt);;
       ws ← await_ws_connect;
       modify_self (with_ws (Some ws));;
       set_state CONNECTED;;
       modify_self (with_reconnect_count 0);;
       log INFO "connected";;
       await AwOnConnect;;
       create_task "_receive_loop";;
       mret true)
      (λ e,
         match e with
         | ClientError =>
             set_state DISCONNECTED;;
             log ERROR "connect failed";;
             mret false
         | _ =>
             set_state DISCONNECTED;;
             log ERROR "connect exception";;
             mret false
         end).

Definition heartbeat_unregister (task_id : string) : Co bool :=
  Get (λ s,
    let '(found, h, evs) := HeartBeat.unregister task_id (heartbeat s) in
    Put (with_heartbeat h (uuids s) s) (emits evs;; mret found)).

Definition heartbeat_register (func : Callback) (interval : Z) : Co string :=
  Get (λ s,
    let '(res, h, g, evs) :=
      HeartBeat.register func interval [] [] (heartbeat s) (uuids s) in
    Put (with_heartbeat h g s) (emits evs;; of_result res)).

Definition disconnect : Co unit :=
  log INFO "disconnecting";;
  set_state CLOSED;;
  self ← get_self;
  (if truthy_id (_check_task_id self) is Some task_id
   then heartbeat_unregister task_id;;
        modify_self (with_check_task_id None)
   else mret tt);;
  self ← get_self;
  (if truthy_id (_heartbeat_task_id self) is Some task_id
   then heartbeat_unregister task_id;;
        modify_self (with_heartbeat_task_id None)
   else mret tt);;
  self ← get_self;
  (match _ws self with
   | Some ws => if closed ws then mret tt else await AwWsClose
   | None => mret tt
   end);;
  self ← get_self;
  (match _session self with
   | Some s => if session_closed s then mret tt else await AwSessionClose
   | None => mret tt
   end);;
  log INFO "disconnected".

Definition start : Co unit :=
  self ← get_self;
  task_id ← heartbeat_register (mkCallback "_check_connection" false)
                               (_check_conn_interval self);
  modify_self (with_check_task_id (Some task_id));;
  log INFO "registered connection check task";;
  self ← get_self;
  task_id ← heartbeat_register (mkCallback "_send_heartbeat" false)
                               (_send_hb_interval self);
  modify_self (with_heartbeat_task_id (Some task_id));;
  log INFO "registered heartbeat send task";;
  create_task "connect".

Definition _reconnect : Co unit :=
  self ← get_self;
  if bool_decide (_state self = RECONNECTING) then mret tt
  else if bool_decide (0 < _max_reconnect_attempts self
                       ∧ _max_reconnect_attempts self ≤ _reconnect_count self)
  then log ERROR "max reconnect attempts reached"
  else
    set_state RECONNECTING;;
    modify_self (λ self, with_reconnect_count (_reconnect_count self + 1) self);;
    self ← get_self;
    let wait_time := Z.min (_reconnect_count self * 2) 30 in
    log INFO "will reconnect after wait";;
    await (AwSleep wait_time);;
    connect;;
    mret tt.

Definition _handle_disconnect : Co unit :=
  self ← get_self;
  if bool_decide (_state self = CLOSED) then mret tt
  else
    set_state DISCONNECTED;;
    await AwOnDisconnect;;
    self ← get_self;
    if _auto_reconnect self then _reconnect else mret tt.

(** [json.loads(data)] returns a value or raises: [JSONDecodeError] is
    caught by the inner [try] and the raw string is used instead; any
    other exception reaches the outer [except], which logs it, and
    [process] is not called. *)
Definition _handle_text_message (loads : string → result json)
    (data : string) : Co unit :=
  try_except
    (parsed_data ← match loads data with
                   | Ok value => mret value
                   | Raise JSONDecodeError => mret (JStr data)
                   | Raise e => Throw e
                   end;
     await (AwProcess parsed_data))
    (λ e, log ERROR "text message handling failed").

Definition _handle_binary_message : Co unit :=
  try_except
    (await AwProcessBinary)
    (λ e, log ERROR "binary message handling failed").

(** The body of [async for msg in self._ws]; [CLOSED] and [ERROR]
    frames [break] after the disconnect handling. *)
Fixpoint receive_frames (loads : string → result json)
    (msgs : list WSMsg) : Co unit :=
  match msgs with
  | [] => mret tt
  | msg :: rest =>
      await AwReceive;;
      match msg with
      | MsgReadRaises e => Throw e
      | MsgText data =>
          _handle_text_message loads data;; receive_frames loads rest
      | MsgBinary =>
          _handle_binary_message;; receive_frames loads rest
      | MsgClosed =>
          log WARNING "websocket closed";; _handle_disconnect
      | MsgError =>
          log ERROR "websocket error";; _handle_disconnect
      | MsgOther =>
          log WARNING "unknown message type";; receive_frames loads rest
      end
  end.

Definition _receive_loop (loads : string → result json)
    (msgs : list WSMsg) : Co unit :=
  try_except
    (receive_frames loads msgs)
    (λ e, log ERROR "receive loop exception";; _handle_disconnect).

Definition _check_connection : Co unit :=
  self ← get_self;
  match _ws self with
  | None => log DEBUG "websocket not initialised"
  | Some ws =>
      if closed ws && bool_decide (_state self = CONNECTED)
      then log WARNING "detected closed websocket";; _handle_disconnect
      else mret tt
  end.

Definition _send_heartbeat : Co unit :=
  self ← get_self;
  if negb (is_connected self) || negb (truthy (heartbeat_msg self))
  then mret tt
  else
    try_except
      (match heartbeat_msg self with
       | PyDict d =>
           await (AwWsSendJson (JObj d));;
           log DEBUG "sent heartbeat (JSON)"
       | PyStr s =>
           await (AwWsSendStr s);;
           log DEBUG "sent heartbeat (Text)"
       | _ => log WARNING "unsupported heartbeat message type"
       end)
      (λ e, log ERROR "send heartbeat failed").

Definition send_json (data : json) : Co bool :=
  self ← get_self;
  if negb (is_connected self)
  then log WARNING "not connected, cannot send";; mret false
  else
    try_except
      (await (AwWsSendJson data);;
       log DEBUG "sent JSON message";;
       mret true)
      (λ e, log ERROR "send JSON message failed";; mret false).

Definition send_text (text : string) : Co bool :=
  self ← get_self;
  if negb (is_connected self)
  then log WARNING "not connected, cannot send";; mret false
  else
    try_except
      (await (AwWsSendStr text);;
       log DEBUG "sent text message";;
       mret true)
      (λ e, log ERROR "send text message failed";; mret false).

(** The hooks of the base class. *)
Definition on_connect : Co unit := mret tt.
Definition on_disconnect : Co unit := mret tt.
Definition process (data : json) : Co unit := Throw NotImplementedError.
Definition process_binary : Co unit :=
  log WARNING "binary message received but not handled".

End WebSocketClient.

(** ** exchange/binance/binance_spot_websocket.py: [process] *)

Module BinanceSpotWebSocketBase.

(** [key in self._subscriptions] for a decoded JSON value: lists and
    objects are unhashable, other non-strings are never keys. *)
Definition contains (subs : gmap string Callback) (key : json) : result bool :=
  match key with
  | JStr s => Ok (bool_decide (is_Some (subs !! s)))
  | JArr _ | JObj _ => Raise TypeError
  | _ => Ok false
  end.

Definition lookup (subs : gmap string Callback) (key : json) : option Callback :=
  match key with
  | JStr s => subs !! s
  | _ => None
  end.

(** The registry holds callables only (every writer stores under
    [if callback:]), and callables are truthy: the inner [if callback:]
    always passes. *)
Definition invoke (cb : Callback) (arg : json) (site : string) : Co unit :=
  try_except (await (AwCallback cb arg)) (λ e, log ERROR site).

(** [if isinstance(message, str): message = json.loads(message)];
    [None] stands for [JSONDecodeError]. *)
Definition decode (loads : string → option json) (message : json) : option json :=
  match message with
  | JStr s => loads s
  | _ => Some message
  end.

Definition process (loads : string → option json) (message : json) : Co unit :=
  try_except
    (match decode loads message with
     | None => log WARNING "cannot parse message"
     | Some (JObj fields) =>
         if PyDict.mem "result" fields && PyDict.mem "id" fields then
           (if PyDict.get "result" fields is Some JNull
            then log INFO "subscription request succeeded"
            else log ERROR "subscription request failed")
         else if PyDict.mem "error" fields then
           log ERROR "received error message"
         else if PyDict.mem "stream" fields && PyDict.mem "data" fields then
           let stream_name := default JNull (PyDict.get "stream" fields) in
           let data := default JNull (PyDict.get "data" fields) in
           s ← Get Ret;
           present ← of_result (contains (_subscriptions s) stream_name);
           if present : bool then
             match lookup (_subscriptions s) stream_name with
             | Some callback =>
                 invoke callback data "callback failed for stream"
             | None => mret tt
             end
           else log DEBUG "data for a stream nobody subscribed to"
         else if PyDict.mem "e" fields then
           s ← Get Ret;
           match _subscriptions s !! "default" with
           | Some callback =>
               invoke callback (JObj fields) "callback failed"
           | None => mret tt
           end
         else mret tt
     | Some _ => log WARNING "message is not a dict"
     end)
    (λ e, log ERROR "message processing failed").

(** The frames [process] hands to the registry: a combined-stream data
    frame that is neither a subscription response nor an error message
    is routed by its [stream] field, with its [data] field as payload. *)
Definition routed (fields : list (string * json)) : option (json * json) :=
  if PyDict.mem "result" fields && PyDict.mem "id" fields then None
  else if PyDict.mem "error" fields then None
  else match PyDict.get "stream" fields, PyDict.get "data" fields with
       | Some stream_name, Some data => Some (stream_name, data)
       | _, _ => None
       end.


End BinanceSpotWebSocketBase.

(** ** Scenarios *)

(** The callbacks the scheduler fires on a client: each runs to
    completion as a task of its own. *)
Inductive Scheduled : Type := CheckConnection | SendHeartbeat.

Definition scheduled (t : Scheduled) : Co unit :=
  match t with
  | CheckConnection => WebSocketClient._check_connection
  | SendHeartbeat => WebSocketClient._send_heartbeat
  end.

Definition run_scheduled (env : nat → Step) (ts : list Scheduled) (c : Cfg) : Cfg :=
  foldl (λ c t, (exec env (scheduled t) c).1) c ts.

Module Scenario.

(** A client that [start()] connected: both periodic tasks registered
    on the scheduler, session and socket open. *)
Definition tasks : HeartBeat.t :=
  HeartBeat.mkHeartBeat 0 1 true
    [("task-0", HeartBeat.mkTask (mkCallback "_check_connection" false) 10 [] []);
     ("task-1", HeartBeat.mkTask (mkCallback "_send_heartbeat" false) 10 [] [])]
    0 0.

Definition connected (max_reconnect_attempts : Z) (msg : pyval) : Cfg :=
  mkCfg
    (mkSys
       (mkClient "wss://example" 10 10 true max_reconnect_attempts
                 (Some (mkSession false)) (Some (mkWs false)) CONNECTED 0
                 msg (Some "task-0") (Some "task-1"))
       ∅ tasks (mkUuidGen (uuid_of Sample.gen) 2))
    [] 0.

(** The same client after the socket dropped and [attempts] reconnect
    attempts failed. *)
Definition dropped (max_reconnect_attempts attempts : Z) : Cfg :=
  mkCfg
    (mkSys
       (mkClient "wss://example" 10 10 true max_reconnect_attempts
                 (Some (mkSession false)) (Some (mkWs true)) DISCONNECTED
                 attempts PyNone (Some "task-0") (Some "task-1"))
       ∅ tasks (mkUuidGen (uuid_of Sample.gen) 2))
    [] 0.

Definition no_json : string → option json := λ _, None.

(** The same for the receive loop: [json.loads] raises
    [JSONDecodeError] on every text. *)
Definition not_json : string → result json := λ _, Raise JSONDecodeError.

Definition all_quiet : nat → Step := λ _, quiet.

(** Every handshake is refused by the network. *)
Definition refusing : nat → Step :=
  λ _, mkStep [] (Some ClientError) None None None.

(** [disconnect()] is called while the backoff sleep is pending: the
    sleep is the third await of the receive loop (after the frame and
    the [on_disconnect] hook). *)
Definition disconnect_during_backoff : nat → Step :=
  λ n, match n with
       | 2%nat => mkStep [WebSocketClient.disconnect] None None None None
       | _ => quiet
       end.

(** The socket reports an error frame. *)
Definition socket_error (env : nat → Step) (c : Cfg) : Cfg :=
  (exec env (WebSocketClient._receive_loop not_json [MsgError]) c).1.

(** A payload generator configured as heartbeat message. *)
Definition generator : Callback := mkCallback "make_ping" false.

(** A subscriber of the Binance adapter. *)
Definition on_trade : Callback := mkCallback "on_trade" false.


Definition subscribed : Cfg :=
  mkCfg
    (mkSys (client (sys (connected 0 PyNone)))
           {["btcusdt@trade" := on_trade]} tasks
           (mkUuidGen (uuid_of Sample.gen) 2))
    [] 0.


Definition is_exhaustion_log (ev : Event) : bool :=
  match ev with
  | EvLog ERROR site => bool_decide (site = "max reconnect attempts reached")
  | _ => false
  end.

End Scenario.

(** ** Histories of the scheduler *)

(** The calls a program can make on the [heartbeat] object, and the
    activations the event loop performs on it. *)
Module HeartBeatOps.

Inductive Op : Type :=
| Register (func : Callback) (interval : Z)
           (args : list json) (kwargs : list (string * json))
| Unregister (task_id : string)
| ClearTasks
| Start
| Stop
| Ticker.

Definition step (st : HeartBeat.t * UuidGen) (op : Op) : HeartBeat.t * UuidGen :=
  let '(self, g) := st in
  match op with
  | Register f i a kw =>
      let '(_, self', g', _) := HeartBeat.register f i a kw self g in (self', g')
  | Unregister task_id => ((HeartBeat.unregister task_id self).1.2, g)
  | ClearTasks => ((HeartBeat.clear_tasks self).1, g)
  | Start => ((HeartBeat.start self).1.2, g)
  | Stop => ((HeartBeat.stop self).1, g)
  | Ticker => ((HeartBeat.ticker self).1.2, g)
  end.

Definition run (ops : list Op) (st : HeartBeat.t * UuidGen) : HeartBeat.t * UuidGen :=
  foldl step st ops.

(** The task ids whose callbacks an activation invoked, in order, and
    the registered ids that are due at a counter value, in table order. *)
Definition call_ids (evs : list Event) : list string :=
  omap (λ ev, match ev with EvCall i _ => Some i | _ => None end) evs.

Definition due (count : Z) (items : list (string * HeartBeat.Task)) : list string :=
  (filter (λ kv, count `mod` HeartBeat.interval kv.2 = 0) items).*1.

Definition reschedules (evs : list Event) : nat :=
  length (List.filter (λ ev, match ev with EvCallLater _ => true | _ => false end) evs).

Definition error_logs (evs : list Event) : nat :=
  length (List.filter (λ ev, match ev with EvLog ERROR _ => true | _ => false end) evs).

(** The due tasks whose call raises. *)
Definition due_raising (count : Z) (items : list (string * HeartBeat.Task)) : list string :=
  (filter (λ kv, count `mod` HeartBeat.interval kv.2 = 0
                 ∧ cb_raises (HeartBeat.func kv.2) = true) items).*1.

End HeartBeatOps.

(** The event loop as far as the scheduler uses it: how many
    [call_later] handles to [ticker] are pending.  [start()] and
    [ticker()] add the handles they create; nothing in [HeartBeat]
    cancels one ([stop()] only clears the flag), and a handle that fires
    is gone. *)
Module HeartBeatLoop.

Record t : Type := mkLoop {
  scheduler : HeartBeat.t;
  pending : nat
}.

Definition call_start (l : t) : t :=
  let '(_, self, evs) := HeartBeat.start (scheduler l) in
  mkLoop self (pending l + HeartBeatOps.reschedules evs).

Definition call_stop (l : t) : t :=
  mkLoop (HeartBeat.stop (scheduler l)).1 (pending l).

(** One pending handle fires. *)
Definition fire (l : t) : t :=
  match pending l with
  | O => l
  | S rest =>
      let '(_, self, evs) := HeartBeat.ticker (scheduler l) in
      mkLoop self (rest + HeartBeatOps.reschedules evs)
  end.

End HeartBeatLoop.

(** A scheduler that was never started, holding one task. *)
Module SampleIdle.
Definition hb : HeartBeat.t :=
  (HeartBeat.register Sample.cb_A 3 [] [] (HeartBeat.__init__ []) Sample.gen).1.1.2.
End SampleIdle.

(** A running scheduler with a task whose call raises before a task
    whose call succeeds, both due on every activation. *)
Module SampleMixed.
Definition cb_bad : Callback := mkCallback "bad_task" true.
Definition hb : HeartBeat.t :=
  HeartBeat.mkHeartBeat 0 1 true
    [("task-0", HeartBeat.mkTask cb_bad 1 [] []);
     ("task-1", HeartBeat.mkTask Sample.cb_B 1 [] [])] 0 0.
End SampleMixed.

(** A running scheduler at counter 5 holding three tasks registered in
    this order, with intervals 3, 4 and 2, and the identifier source
    after these three registrations. *)
Module SampleOrder.
Definition hb : HeartBeat.t :=
  HeartBeat.mkHeartBeat 5 1 true
    [("task-0", HeartBeat.mkTask Sample.cb_B 3 [] []);
     ("task-1", HeartBeat.mkTask Sample.cb_A 4 [] []);
     ("task-2", HeartBeat.mkTask Sample.cb_A 2 [] [])] 0 0.
Definition gen : UuidGen := mkUuidGen (uuid_of Sample.gen) 3.
End SampleOrder.

(** ** Observations on runs of the connection *)

Module WebSocketObs.

(** [connect()] passes its guard. *)
Definition guard_passes (c : Cfg) : Prop :=
  _state (client (sys c)) ≠ CONNECTING ∧ _state (client (sys c)) ≠ CONNECTED.

(** The payloads handed to [process], in order. *)
Definition processed (evs : list Event) : list json :=
  omap (λ ev, match ev with EvProcess d => Some d | _ => None end) evs.

(** What the receive loop hands to [process] for a frame: the decoded
    value of a text frame, the raw string when decoding raises
    [JSONDecodeError], and nothing when decoding raises anything else
    or the frame is not a text frame. *)
Definition payload_of (loads : string → result json) (msg : WSMsg) : option json :=
  match msg with
  | MsgText data =>
      match loads data with
      | Ok value => Some value
      | Raise JSONDecodeError => Some (JStr data)
      | Raise _ => None
      end
  | _ => None
  end.

(** Frames that end the receive loop, and frames that do not. *)
Definition stops_loop (msg : WSMsg) : bool :=
  match msg with
  | MsgClosed | MsgError | MsgReadRaises _ => true
  | MsgText _ | MsgBinary | MsgOther => false
  end.

(** The scheduler side of a client: the scheduler and the two task
    identifiers the client holds. *)
Definition scheduling (s : Sys) : HeartBeat.t * option string * option string :=
  (heartbeat s, _check_task_id (client s), _heartbeat_task_id (client s)).

(** A coroutine that, started where the scheduler side is [v], leaves it
    at [v] whenever the coroutines running during its awaits leave it
    alone; and a coroutine that does so wherever it starts. *)
Definition keeps_scheduling_at {A}
    (v : HeartBeat.t * option string * option string) (p : Co A) : Prop :=
  ∀ (env : nat → Step) (others : Step → Cfg → Cfg) (c : Cfg),
    (∀ k c', scheduling (sys (others (env k) c')) = scheduling (sys c')) →
    scheduling (sys c) = v →
    scheduling (sys (run env others p c).1) = v.

Definition keeps_scheduling {A} (p : Co A) : Prop :=
  ∀ v, keeps_scheduling_at v p.

Definition spawned (coroutine : string) (evs : list Event) : nat :=
  length (List.filter (λ ev, match ev with
                             | EvSpawn name => bool_decide (name = coroutine)
                             | _ => false
                             end) evs).

End WebSocketObs.

(** Histories of reconnect attempts. *)
Module ReconnectObs.

(** [n] reconnect attempts one after the other: [_reconnect()] invoked
    [n] times, each invocation run to its end before the next. *)
Fixpoint attempts (env : nat → Step) (n : nat) (c : Cfg) : Cfg :=
  match n with
  | O => c
  | S n' => (exec0 env WebSocketClient._reconnect (attempts env n' c)).1
  end.


End ReconnectObs.

(** More environments and clients for the runs. *)
Module ScenarioMore.

(** The handshake succeeds but the [on_connect] hook (the second await
    of [connect()]) raises. *)
Definition hook_fails : nat → Step :=
  λ _, mkStep [] None (Some OtherException) None None.


(** The [connect] task that [start()] created runs during every await. *)
Definition connect_task : Co unit := WebSocketClient.connect ≫= λ _, mret tt.

Definition connect_task_runs : nat → Step :=
  λ _, mkStep [connect_task] None None None None.

(** A client as [__init__] leaves it, on a fresh scheduler. *)
Definition fresh (check_conn_interval send_hb_interval : Z) : Cfg :=
  mkCfg
    (mkSys (WebSocketClient__init__ "wss://example" check_conn_interval
              send_hb_interval true 0)
           ∅ (HeartBeat.__init__ []) Sample.gen)
    [] 0.

End ScenarioMore.

(** ** exchange/binance/binance_spot_websocket.py: construction, requests, subscriptions *)

(** Class [BinanceSpotWebSocketBase], continued.  The request counter
    [self._req_id_counter] is threaded through the methods that use it;
    [json.dumps] is a parameter, as [json.loads] is. *)
Module BinanceSpotWebSocket.

Definition WEBSOCKET_HOST : string := "wss://stream.binance.com:9443".
Definition WEBSOCKET_STREAM : string := WEBSOCKET_HOST +:+ "/ws".
Definition WEBSOCKET_COMBINED : string := WEBSOCKET_HOST +:+ "/stream".

(** [sep.join(items)] *)
Fixpoint join (sep : string) (items : list string) : string :=
  match items with
  | [] => ""
  | x :: rest =>
      match rest with
      | [] => x
      | _ :: _ => x +:+ sep +:+ join sep rest
      end
  end.

Definition _build_url (_stream_names : list string) (_combined : bool) : string :=
  match _stream_names with
  | [] => WEBSOCKET_STREAM
  | first :: _ =>
      if _combined && bool_decide (1 < length _stream_names)%nat
      then WEBSOCKET_COMBINED +:+ "?streams=" +:+ join "/" _stream_names
      else if bool_decide (length _stream_names = 1%nat)
      then WEBSOCKET_STREAM +:+ "/" +:+ first
      else WEBSOCKET_STREAM +:+ "/" +:+ first
  end.

(** The object [__init__] leaves: the base client with
    [send_hb_interval=0], an empty registry and the request counter at
    0.  The keyword arguments are those [WebSocketClient.__init__]
    accepts besides [url], [proxy] and [send_hb_interval]. *)
Definition __init__ (stream_names : option (list string)) (combined : bool)
    (check_conn_interval : Z) (auto_reconnect : bool)
    (max_reconnect_attempts : Z)
  : WebSocketClient * gmap string Callback * Z :=
  let _stream_names := default [] stream_names in
  let url := _build_url _stream_names combined in
  (WebSocketClient__init__ url check_conn_interval 0 auto_reconnect
     max_reconnect_attempts, ∅, 0).

(** The system around a client as [__init__] leaves it, on the
    process-wide scheduler [h]. *)
Definition constructed (stream_names : option (list string)) (combined : bool)
    (check_conn_interval : Z) (auto_reconnect : bool)
    (max_reconnect_attempts : Z) (h : HeartBeat.t) (g : UuidGen) : Sys :=
  let '(self, subs, _) :=
    __init__ stream_names combined check_conn_interval auto_reconnect
      max_reconnect_attempts in
  mkSys self subs h g.

(** Returns the request id and the new value of the counter. *)
Definition _get_next_req_id (_req_id_counter : Z) : Z * Z :=
  let _req_id_counter := _req_id_counter + 1 in
  (_req_id_counter, _req_id_counter).

(** The override of [send_json]: it looks at the socket only, sends the
    serialized text and returns [None] on every path. *)
Definition send_json (dumps : json → string) (data : json) : Co unit :=
  try_except
    (self ← get_self;
     match _ws self with
     | Some ws =>
         if negb (closed ws)
         then await (AwWsSendStr (dumps data))
         else log WARNING "websocket not connected, cannot send"
     | None => log WARNING "websocket not connected, cannot send"
     end)
    (λ e, log ERROR "send JSON message failed").

Definition request (method : string) (streams : list string) (req_id : Z) : json :=
  JObj [("method", JStr method);
        ("params", JArr (JStr <$> streams));
        ("id", JInt req_id)].

Definition subscribe (dumps : json → string) (streams : list string)
    (_req_id_counter : Z) : Co (bool * Z) :=
  let '(req_id, _req_id_counter) := _get_next_req_id _req_id_counter in
  try_except
    (send_json dumps (request "SUBSCRIBE" streams req_id);;
     log INFO "subscribe request sent";;
     mret (true, _req_id_counter))
    (λ e, log ERROR "subscribe failed";; mret (false, _req_id_counter)).

Definition unsubscribe (dumps : json → string) (streams : list string)
    (_req_id_counter : Z) : Co (bool * Z) :=
  let '(req_id, _req_id_counter) := _get_next_req_id _req_id_counter in
  try_except
    (send_json dumps (request "UNSUBSCRIBE" streams req_id);;
     log INFO "unsubscribe request sent";;
     mret (true, _req_id_counter))
    (λ e, log ERROR "unsubscribe failed";; mret (false, _req_id_counter)).

End BinanceSpotWebSocket.

(** Class [BinanceSpotPublicWebSocket]; [str.lower] is a parameter. *)
Module BinanceSpotPublicWebSocket.

(** [if callback: for stream in streams: self._subscriptions[stream] = callback] *)
Definition store_callback (callback : option Callback) (streams : list string)
  : Co unit :=
  match callback with
  | Some cb =>
      Get (λ s,
        Put (mkSys (client s)
               (foldl (λ subs stream, <[stream := cb]> subs)
                      (_subscriptions s) streams)
               (heartbeat s) (uuids s))
            (Ret tt))
  | None => mret tt
  end.

Definition subscribe_trade (lower : string → string) (dumps : json → string)
    (symbols : list string) (callback : option Callback)
    (_req_id_counter : Z) : Co (bool * Z) :=
  let streams := (λ symbol, lower symbol +:+ "@aggTrade") <$> symbols in
  store_callback callback streams;;
  BinanceSpotWebSocket.subscribe dumps streams _req_id_counter.

Definition subscribe_kline (lower : string → string) (dumps : json → string)
    (symbols : list string) (interval : string) (callback : option Callback)
    (_req_id_counter : Z) : Co (bool * Z) :=
  let streams := (λ symbol, lower symbol +:+ "@kline_" +:+ interval) <$> symbols in
  store_callback callback streams;;
  BinanceSpotWebSocket.subscribe dumps streams _req_id_counter.

Definition subscribe_ticker (lower : string → string) (dumps : json → string)
    (symbols : list string) (callback : option Callback)
    (_req_id_counter : Z) : Co (bool * Z) :=
  let streams := (λ symbol, lower symbol +:+ "@ticker") <$> symbols in
  store_callback callback streams;;
  BinanceSpotWebSocket.subscribe dumps streams _req_id_counter.

Definition subscribe_all_ticker (dumps : json → string)
    (callback : option Callback) (_req_id_counter : Z) : Co (bool * Z) :=
  let streams := ["!ticker@arr"] in
  store_callback callback ["!ticker@arr"];;
  BinanceSpotWebSocket.subscribe dumps streams _req_id_counter.

End BinanceSpotPublicWebSocket.

(** Class [BinanceSpotUserDataWebSocket]: the three callbacks are the
    attributes [_account_callback], [_balance_callback] and
    [_order_callback]. *)
Module BinanceSpotUserDataWebSocket.

Record Callbacks : Type := mkCallbacks {
  _account_callback : option Callback;
  _order_callback : option Callback;
  _balance_callback : option Callback
}.

(** The callbacks after [__init__], and the three setters. *)
Definition no_callbacks : Callbacks := mkCallbacks None None None.

Definition set_account_callback (callback : Callback) (self : Callbacks) : Callbacks :=
  mkCallbacks (Some callback) (_order_callback self) (_balance_callback self).
Definition set_order_callback (callback : Callback) (self : Callbacks) : Callbacks :=
  mkCallbacks (_account_callback self) (Some callback) (_balance_callback self).
Definition set_balance_callback (callback : Callback) (self : Callbacks) : Callbacks :=
  mkCallbacks (_account_callback self) (_order_callback self) (Some callback).

(** [if cb: await cb(message)], not guarded by a [try] of its own. *)
Definition call_if_set (cb : option Callback) (message : json) : Co unit :=
  match cb with
  | Some cb => await (AwCallback cb message)
  | None => mret tt
  end.

(** [event_type == name] for the result of [message.get('e')]: only
    the string [name] compares equal. *)
Definition is_event (event_type : option json) (name : string) : bool :=
  match event_type with
  | Some (JStr s) => bool_decide (s = name)
  | _ => false
  end.

Definition process (loads : string → option json) (self : Callbacks)
    (message : json) : Co unit :=
  try_except
    (match BinanceSpotWebSocketBase.decode loads message with
     | None => log WARNING "cannot parse message"
     | Some (JObj fields) =>
         let event_type := PyDict.get "e" fields in
         if is_event event_type "outboundAccountPosition"
         then call_if_set (_account_callback self) (JObj fields)
         else if is_event event_type "balanceUpdate"
         then call_if_set (_balance_callback self) (JObj fields)
         else if is_event event_type "executionReport"
         then call_if_set (_order_callback self) (JObj fields)
         else log DEBUG "unhandled event type"
     | Some _ => mret tt
     end)
    (λ e, log ERROR "user data processing failed").

End BinanceSpotUserDataWebSocket.

Module BinanceObs.

(** The callbacks awaited, with their argument, in order. *)
Definition invoked (evs : list Event) : list (Callback * json) :=
  omap (λ ev, match ev with EvInvoke cb arg => Some (cb, arg) | _ => None end) evs.

(** The texts written to the socket, in order. *)
Definition sent_texts (evs : list Event) : list string :=
  omap (λ ev, match ev with EvSendStr text => Some text | _ => None end) evs.

(** A client holding an open socket. *)
Definition socket_open (self : WebSocketClient) : bool :=
  match _ws self with
  | Some ws => negb (closed ws)
  | None => false
  end.

End BinanceObs.

(** * Properties *)

(** ** Dictionaries *)

Section DictFacts.
Context {V : Type}.
Implicit Types (d : list (string * V)) (k : string) (v : V).
Import PyDict.

Lemma get_None_notin k d : get k d = None ↔ k ∉ keys d.
Proof.
  induction d as [|[k' v] d IH]; simpl.
  - split; [intros _; apply not_elem_of_nil | done].
  - case_decide as Hk.
    + subst. split; [done | intros []; left].
    + rewrite IH, not_elem_of_cons. tauto.
Qed.

Lemma get_Some_in k v d : get k d = Some v → (k, v) ∈ d.
Proof.
  induction d as [|[k' v'] d IH]; simpl; [done|].
  case_decide as Hk.
  - intros [= ->]. subst. left.
  - intros Hd. right. by apply IH.
Qed.

Lemma set_item_fresh k v d : get k d = None → set_item k v d = d ++ [(k, v)].
Proof.
  induction d as [|[k' v'] d IH]; simpl; [done|].
  case_decide; [done|]. intros Hd. by rewrite IH.
Qed.

Lemma get_set_item_eq k v d : get k (set_item k v d) = Some v.
Proof.
  induction d as [|[k' v'] d IH]; simpl.
  - by case_decide.
  - case_decide as Hk; simpl; by case_decide.
Qed.

Lemma get_set_item_ne k k' v d : k ≠ k' → get k' (set_item k v d) = get k' d.
Proof.
  intros Hne. induction d as [|[k0 v0] d IH]; simpl.
  - case_decide; congruence.
  - case_decide as Hk; simpl; [subst|].
    + repeat case_decide; congruence.
    + case_decide; [done | apply IH].
Qed.

Lemma keys_set_item k v d :
  keys (set_item k v d) = if mem k d then keys d else keys d ++ [k].
Proof.
  unfold mem. induction d as [|[k' v'] d IH]; simpl; [done|].
  case_decide as Hk; simpl; [by subst|].
  rewrite IH. by destruct (get k d).
Qed.

Lemma keys_pop_sublist k d : sublist (keys (pop k d)) (keys d).
Proof.
  induction d as [|[k' v'] d IH]; simpl; [done|].
  case_decide; simpl.
  - by apply sublist_cons.
  - by apply sublist_skip.
Qed.

Lemma pop_sublist k d : sublist (pop k d) d.
Proof.
  induction d as [|[k' v'] d IH]; simpl; [done|].
  case_decide; simpl.
  - by apply sublist_cons.
  - by apply sublist_skip.
Qed.
End DictFacts.

(** ** The scheduler *)

Module HeartBeatFacts.
Import HeartBeat.

Implicit Types (self : t) (g : UuidGen) (task : Task).

(** *** The invariant of the task table *)

Lemma wf_init cfg : wf (__init__ cfg).
Proof. split; simpl; constructor. Qed.

Lemma Forall_set_item {V} (P : string * V → Prop) k v (d : list (string * V)) :
  Forall P d → P (k, v) → Forall P (PyDict.set_item k v d).
Proof.
  intros Hd Hkv. induction Hd as [|[k' v'] d Hx Hd IH]; simpl.
  - by constructor.
  - case_decide; constructor; auto.
Qed.

Lemma NoDup_keys_set_item {V} k v (d : list (string * V)) :
  NoDup (PyDict.keys d) → NoDup (PyDict.keys (PyDict.set_item k v d)).
Proof.
  intros Hd. rewrite keys_set_item. unfold PyDict.mem.
  destruct (PyDict.get k d) eqn:Hk; [done|].
  apply NoDup_app. split_and!; [done | | apply NoDup_singleton].
  intros x Hx ->%list_elem_of_singleton. by apply get_None_notin in Hk.
Qed.

Lemma wf_with_tasks self d :
  NoDup (PyDict.keys d) → Forall (λ kv, 0 < interval kv.2) d →
  wf (with_tasks d self).
Proof. by split. Qed.

Lemma wf_register f i a kw self g :
  wf self → wf (register f i a kw self g).1.1.2.
Proof.
  intros [Hnd Hpos]. unfold register.
  case_decide as Hi; simpl; [done|].
  apply wf_with_tasks.
  - by apply NoDup_keys_set_item.
  - apply Forall_set_item; [done | simpl; lia].
Qed.

Lemma wf_unregister task_id self : wf self → wf (unregister task_id self).1.2.
Proof.
  intros [Hnd Hpos]. unfold unregister.
  destruct (PyDict.mem _ _); simpl; [|done].
  apply wf_with_tasks.
  - eapply sublist_NoDup; [done | apply keys_pop_sublist].
  - rewrite Forall_forall in Hpos |- *. intros kv Hkv.
    apply Hpos. eapply elem_of_sublist; [done | apply pop_sublist].
Qed.

Lemma wf_clear_tasks self : wf (clear_tasks self).1.
Proof. split; simpl; constructor. Qed.

Lemma wf_stop self : wf self → wf (stop self).1.
Proof. by intros []. Qed.

Lemma wf_ticker self : wf self → wf (ticker self).1.2.
Proof.
  intros Hwf. unfold ticker.
  destruct (_is_running self); simpl; [|done].
  destruct (_execute_tasks _) as [[u|e] evs]; by destruct Hwf.
Qed.

Lemma wf_start self : wf self → wf (start self).1.2.
Proof.
  intros Hwf. unfold start.
  destruct (_is_running self); simpl; [done|].
  pose proof (wf_ticker (with_count 0 (with_is_running true self))) as Ht.
  destruct (ticker _) as [[res self'] evs]. apply Ht. by destruct Hwf.
Qed.

(** *** One activation *)

Lemma calls_app task_id evs1 evs2 :
  calls task_id (evs1 ++ evs2) = (calls task_id evs1 + calls task_id evs2)%nat.
Proof. unfold calls. by rewrite List.filter_app, length_app. Qed.

Lemma launches_app task_id evs1 evs2 :
  launches task_id (evs1 ++ evs2)
  = (launches task_id evs1 + launches task_id evs2)%nat.
Proof. unfold launches. by rewrite List.filter_app, length_app. Qed.

Lemma py_mod_pos a b : 0 < b → py_mod a b = Ok (a `mod` b).
Proof. intros Hb. unfold py_mod. case_decide; [lia | done]. Qed.

(** With positive intervals the loop never raises. *)
Lemma execute_items_ok c items :
  Forall (λ kv, 0 < interval kv.2) items → (execute_items c items).1 = Ok tt.
Proof.
  induction 1 as [|[k task] items Hk _ IH]; simpl; [done|].
  rewrite py_mod_pos by done.
  case_decide; [done|].
  destruct (execute_items c items) as [res evs]. by simpl in *.
Qed.

(** A task that is not in the table is not invoked. *)
Lemma execute_items_absent c items task_id :
  task_id ∉ PyDict.keys items →
  calls task_id (execute_items c items).2 = 0%nat
  ∧ launches task_id (execute_items c items).2 = 0%nat.
Proof.
  induction items as [|[k task] items IH]; simpl; [done|].
  intros [Hne Hnotin]%not_elem_of_cons.
  destruct (py_mod c (interval task)) as [r|e]; [|done].
  case_decide; [by apply IH|].
  destruct (IH Hnotin) as [IHc IHl].
  destruct (execute_items c items) as [res evs]; simpl in *.
  unfold calls, launches in *; simpl.
  rewrite bool_decide_false by done.
  destruct (cb_raises (func task)); simpl;
    rewrite ?bool_decide_false by done; done.
Qed.

(** A registered task is invoked once when its interval divides the
    counter, and not at all otherwise. *)
Lemma execute_items_present c items task_id task :
  NoDup (PyDict.keys items) →
  Forall (λ kv, 0 < interval kv.2) items →
  PyDict.get task_id items = Some task →
  calls task_id (execute_items c items).2
  = (if decide (c `mod` interval task = 0) then 1%nat else 0%nat)
  ∧ launches task_id (execute_items c items).2
    = (if decide (c `mod` interval task = 0)
       then (if cb_raises (func task) then 0%nat else 1%nat) else 0%nat).
Proof.
  induction items as [|[k task'] items IH]; simpl; [done|].
  intros [Hk Hnd]%NoDup_cons [Hpos Hall]%Forall_cons Hget. simpl in Hpos.
  rewrite py_mod_pos by done.
  case_decide as Hid.
  - (* the task itself *)
    injection Hget as ->. subst k.
    destruct (execute_items_absent c items task_id Hk) as [Hc Hl].
    destruct (decide (c `mod` interval task = 0)) as [Hr|Hr].
    + destruct (decide (c `mod` interval task ≠ 0)) as [Hn|_]; [done|].
      destruct (execute_items c items) as [res evs]; simpl in *.
      unfold calls, launches in *; simpl.
      rewrite bool_decide_true by done. simpl.
      destruct (cb_raises (func task)); simpl;
        rewrite ?bool_decide_true by done; simpl; lia.
    + destruct (decide (c `mod` interval task ≠ 0)) as [_|Hn]; [done|].
      by destruct Hn.
  - (* another task *)
    destruct (IH Hnd Hall Hget) as [IHc IHl].
    destruct (decide (c `mod` interval task' ≠ 0)) as [_|_]; [done|].
    destruct (execute_items c items) as [res evs]; simpl in *.
    unfold calls, launches in *; simpl.
    rewrite bool_decide_false by done.
    destruct (cb_raises (func task')); simpl;
      rewrite ?bool_decide_false by done; done.
Qed.

Lemma ticker_stopped self : _is_running self = false → ticker self = (Ok tt, self, []).
Proof. intros Hr. unfold ticker. by rewrite Hr. Qed.

(** The shape of an activation of a running scheduler. *)
Lemma ticker_running self :
  wf self → _is_running self = true →
  ∃ ev_print ev_bcast,
    ticker self
    = (Ok tt, with_count (_count self + 1) self,
       ev_print ++ (execute_items (_count self + 1) (_tasks self)).2
                ++ ev_bcast ++ [EvCallLater (_interval self)])
    ∧ (∀ i, calls i ev_print = 0%nat ∧ launches i ev_print = 0%nat)
    ∧ (∀ i, calls i ev_bcast = 0%nat ∧ launches i ev_bcast = 0%nat).
Proof.
  intros [_ Hpos] Hr. unfold ticker, _execute_tasks. rewrite Hr. simpl.
  pose proof (execute_items_ok (_count self + 1) _ Hpos) as Hok.
  destruct (execute_items (_count self + 1) (_tasks self)) as [res evs].
  simpl in Hok. subst res.
  eexists _, _. split; [reflexivity|].
  split; intros i; case_decide; done.
Qed.

Lemma ticker_calls self task_id task :
  wf self → _is_running self = true →
  PyDict.get task_id (_tasks self) = Some task →
  ∃ self' evs,
    ticker self = (Ok tt, self', evs)
    ∧ self' = with_count (_count self + 1) self
    ∧ calls task_id evs
      = (if decide ((_count self + 1) `mod` interval task = 0) then 1%nat else 0%nat)
    ∧ launches task_id evs
      = (if decide ((_count self + 1) `mod` interval task = 0)
         then (if cb_raises (func task) then 0%nat else 1%nat) else 0%nat).
Proof.
  intros Hwf Hr Hget.
  destruct (ticker_running self Hwf Hr) as (evp & evb & -> & Hp & Hb).
  destruct Hwf as [Hnd Hpos].
  destruct (execute_items_present (_count self + 1) _ _ _ Hnd Hpos Hget)
    as [Hc Hl].
  eexists _, _. split; [reflexivity|]. split; [done|].
  rewrite !calls_app, !launches_app, Hc, Hl.
  destruct (Hp task_id) as [-> ->], (Hb task_id) as [-> ->].
  unfold calls, launches; simpl. split; lia.
Qed.

(** *** Successive activations *)

Lemma div_succ c i :
  0 < i → 0 ≤ c →
  (c + 1) `div` i
  = c `div` i + (if decide ((c + 1) `mod` i = 0) then 1 else 0).
Proof.
  intros Hi Hc.
  pose proof (Z.div_mod c i ltac:(lia)) as Hdm.
  pose proof (Z.mod_pos_bound c i Hi) as Hb.
  destruct (decide (c `mod` i + 1 = i)) as [Heq|Hne].
  - assert (Hsucc : c + 1 = (c `div` i + 1) * i) by lia.
    rewrite Hsucc, Z.div_mul, Z.mod_mul by lia.
    by rewrite decide_True.
  - assert (Hq : (c + 1) `div` i = c `div` i)
      by (symmetry; apply (Z.div_unique_pos _ _ _ (c `mod` i + 1)); lia).
    assert (Hr : (c + 1) `mod` i = c `mod` i + 1)
      by (symmetry; apply (Z.mod_unique_pos _ _ (c `div` i)); lia).
    rewrite Hq, Hr, decide_False by lia. lia.
Qed.

Lemma total_calls_cons task_id evs ticks :
  total_calls task_id (evs :: ticks)
  = (calls task_id evs + total_calls task_id ticks)%nat.
Proof. reflexivity. Qed.

Lemma run_ticks_spec n self task_id task :
  wf self → _is_running self = true → 0 ≤ _count self →
  PyDict.get task_id (_tasks self) = Some task →
  ∃ ticks,
    run_ticks n self = (with_count (_count self + Z.of_nat n) self, ticks)
    ∧ length ticks = n
    ∧ (∀ k evs, ticks !! k = Some evs →
         calls task_id evs
         = (if decide ((_count self + Z.of_nat (S k)) `mod` interval task = 0)
            then 1%nat else 0%nat)
         ∧ launches task_id evs
           = (if cb_raises (func task) then 0%nat else calls task_id evs))
    ∧ Z.of_nat (total_calls task_id ticks)
      = (_count self + Z.of_nat n) `div` interval task
        - _count self `div` interval task.
Proof.
  revert self. induction n as [|n IH]; intros self Hwf Hr Hc Hget.
  - exists []. simpl. split_and!; [|done|done|].
    + destruct self; unfold with_count; simpl. do 2 f_equal. lia.
    + unfold total_calls. simpl. rewrite Z.add_0_r. lia.
  - destruct (ticker_calls self task_id task Hwf Hr Hget)
      as (self' & evs & Htick & -> & Hcalls & Hlaunch).
    set (self' := with_count (_count self + 1) self) in *.
    destruct (IH self') as (ticks & Hrun & Hlen & Hk & Htot);
      [by destruct Hwf | done | simpl; lia | done |].
    exists (evs :: ticks). simpl. rewrite Htick, Hrun.
    assert (Hi : 0 < interval task).
    { destruct Hwf as [_ Hpos]. rewrite Forall_forall in Hpos.
      by apply (Hpos (task_id, task)), get_Some_in. }
    split_and!.
    + f_equal. unfold with_count; simpl. f_equal. lia.
    + simpl. by rewrite Hlen.
    + intros [|k] evs' Hlook; simpl in Hlook.
      * injection Hlook as <-. rewrite Hcalls, Hlaunch.
        replace (_count self + Z.of_nat 1) with (_count self + 1) by lia.
        split; [done|]. by case_decide; destruct (cb_raises _).
      * destruct (Hk k evs' Hlook) as [Hc' Hl']. rewrite Hl', Hc'.
        simpl _count.
        replace (_count self + 1 + Z.of_nat (S k))
          with (_count self + Z.of_nat (S (S k))) by lia.
        done.
    + rewrite total_calls_cons, Nat2Z.inj_add, Htot, Hcalls.
      simpl _count.
      replace (_count self + 1 + Z.of_nat n)
        with (_count self + Z.pos (Pos.of_succ_nat n)) by lia.
      rewrite (div_succ (_count self) (interval task)) by lia.
      case_decide; lia.
Qed.

(** [start()] on a stopped scheduler: flag set, counter reset, and the
    first activation issued from counter 0. *)
Lemma start_stopped self :
  _is_running self = false →
  start self
  = (let '(res, self', evs) := ticker (with_count 0 (with_is_running true self)) in
     (res, self', EvLog INFO "heartbeat started" :: evs)).
Proof. intros Hr. unfold start. by rewrite Hr. Qed.

Lemma start_running self :
  _is_running self = true →
  start self = (Ok tt, self, [EvLog WARNING "heartbeat already running"]).
Proof. intros Hr. unfold start. by rewrite Hr. Qed.

Lemma start_and_run_spec n self task_id task :
  wf self → _is_running self = false →
  PyDict.get task_id (_tasks self) = Some task →
  ∃ ticks,
    start_and_run n self
    = (with_count (Z.of_nat (S n)) (with_is_running true self), ticks)
    ∧ length ticks = S n
    ∧ (∀ k evs, ticks !! k = Some evs →
         calls task_id evs
         = (if decide (Z.of_nat (S k) `mod` interval task = 0)
            then 1%nat else 0%nat)
         ∧ launches task_id evs
           = (if cb_raises (func task) then 0%nat else calls task_id evs))
    ∧ Z.of_nat (total_calls task_id ticks) = Z.of_nat (S n) `div` interval task.
Proof.
  intros Hwf Hr Hget.
  set (self0 := with_count 0 (with_is_running true self)).
  destruct (run_ticks_spec (S n) self0 task_id task)
    as (ticks & Hrun & Hlen & Hk & Htot); [by destruct Hwf | done | done | done |].
  unfold start_and_run. rewrite start_stopped by done. fold self0.
  simpl in Hrun.
  destruct (ticker_running self0) as (evp & evb & Ht & _ & _);
    [by destruct Hwf | done |].
  destruct (ticker self0) as [[res self1] evs1].
  injection Ht as -> -> _. cbn beta iota in Hrun |- *.
  - destruct (run_ticks n _) as [final rest].
    injection Hrun as -> <-.
    exists ((EvLog INFO "heartbeat started" :: evs1) :: rest).
    split_and!.
    + done.
    + simpl in *. lia.
    + intros [|k] evs' Hlook; simpl in Hlook.
      * injection Hlook as <-.
        destruct (Hk 0%nat evs1 eq_refl) as [Hc Hl].
        unfold calls, launches in *. simpl. split; [exact Hc | exact Hl].
      * by apply (Hk (S k)).
    + rewrite total_calls_cons in Htot |- *.
      assert (Hi : 0 < interval task).
      { destruct Hwf as [_ Hpos]. rewrite Forall_forall in Hpos.
        by apply (Hpos (task_id, task)), get_Some_in. }
      change (_count self0) with 0 in Htot.
      rewrite Z.div_0_l, Z.sub_0_r, Z.add_0_l in Htot by lia.
      rewrite <- Htot. unfold calls at 1. simpl.
      by fold (calls task_id evs1).
Qed.


Lemma total_launches_calls task_id (ticks : list (list Event)) :
  (∀ k evs, ticks !! k = Some evs → launches task_id evs = calls task_id evs) →
  total_launches task_id ticks = total_calls task_id ticks.
Proof.
  unfold total_launches, total_calls.
  induction ticks as [|evs ticks IH]; intros Hall; [done|].
  rewrite !fmap_cons. simpl. rewrite (Hall 0%nat evs eq_refl).
  f_equal. apply IH. intros k evs' Hk. by apply (Hall (S k)).
Qed.

Lemma wf_interval_pos self task_id task :
  wf self → PyDict.get task_id (_tasks self) = Some task → 0 < interval task.
Proof.
  intros [_ Hpos] Hget. rewrite Forall_forall in Hpos.
  by apply (Hpos (task_id, task)), get_Some_in.
Qed.

Lemma fires_iff_divides (c i : Z) (n : nat) :
  0 < i →
  n = (if decide (c `mod` i = 0) then 1%nat else 0%nat) →
  (n = 1%nat ↔ (i | c)) ∧ (n ≤ 1)%nat.
Proof.
  intros Hi ->. rewrite <- Z.mod_divide by lia.
  case_decide; split; (lia || split; (done || lia)).
Qed.

(** C5. [register] with an interval [<= 0] raises the configuration
    error [ValueError] at the call and leaves the scheduler and the
    identifier source as they were; with an interval [>= 1] it returns
    the identifier it drew and stores the task under it, every other
    entry untouched, the table being one entry longer whenever the
    identifier is new to it. *)
Theorem register_rejects_nonpositive_stores_one
    (f : Callback) (i : Z) (a : list json) (kw : list (string * json))
    (self : t) (g : UuidGen) :
  (i ≤ 0 → register f i a kw self g = (Raise ValueError, self, g, []))
  ∧ (1 ≤ i →
     let task_id := uuid_of g (uuid_next g) in
     let task := mkTask f i a kw in
     ∃ self' g' evs,
       register f i a kw self g = (Ok task_id, self', g', evs)
       ∧ uuid_next g' = S (uuid_next g)
       ∧ self' = with_tasks (PyDict.set_item task_id task (_tasks self)) self
       ∧ PyDict.get task_id (_tasks self') = Some task
       ∧ (∀ k, k ≠ task_id →
            PyDict.get k (_tasks self') = PyDict.get k (_tasks self))
       ∧ (PyDict.get task_id (_tasks self) = None →
            _tasks self' = _tasks self ++ [(task_id, task)]
            ∧ get_task_count self' = get_task_count self + 1)).
Proof.
  split.
  - intros Hi. unfold register. by rewrite decide_True.
  - intros Hi task_id task. unfold register.
    rewrite decide_False by lia. simpl.
    eexists _, _, _. split; [reflexivity|]. simpl.
    split_and!; [done | done | apply get_set_item_eq | | ].
    + intros k Hk. by apply get_set_item_ne.
    + intros Hfresh. rewrite set_item_fresh by done. split; [done|].
      unfold get_task_count. simpl. rewrite length_app. simpl. lia.
Qed.

Lemma register_rejects_nonpositive_stores_one_witness :
  (0 ≤ 0 ∧ 1 ≤ 3)
  ∧ register Sample.cb_A 0 [] [] (__init__ []) Sample.gen
    = (Raise ValueError, __init__ [], Sample.gen, [])
  ∧ ∃ self' g' evs,
      register Sample.cb_A 3 [] [] (__init__ []) Sample.gen
      = (Ok "task-0", self', g', evs)
      ∧ _tasks self' = [("task-0", mkTask Sample.cb_A 3 [] [])].
Proof.
  split; [lia|]. split.
  - apply (register_rejects_nonpositive_stores_one
             Sample.cb_A 0 [] [] (__init__ []) Sample.gen). lia.
  - destruct (register_rejects_nonpositive_stores_one
                Sample.cb_A 3 [] [] (__init__ []) Sample.gen) as [_ H3].
    destruct (H3 ltac:(lia)) as (self' & g' & evs & Hreg & _ & _ & _ & _ & Hnew).
    exists self', g', evs. split; [exact Hreg|].
    destruct (Hnew eq_refl) as [Htasks _]. exact Htasks.
Defined.

(** C6. On an activation of a running scheduler a registered task's
    callback is invoked exactly when the task's interval divides the
    new value of the tick counter, and then once; the invocation is
    handed to the event loop unless the call itself raises.  In the
    scenario with A at interval 3 and B at interval 5 on a fresh
    scheduler, the fifteen activations launch A five times and B three
    times, both on the fifteenth. *)
Theorem ticker_launches_iff_interval_divides :
  (∀ self task_id task,
     wf self → _is_running self = true →
     PyDict.get task_id (_tasks self) = Some task →
     ∃ self' evs,
       ticker self = (Ok tt, self', evs)
       ∧ _count self' = _count self + 1
       ∧ (calls task_id evs = 1%nat ↔ (interval task | _count self'))
       ∧ (calls task_id evs ≤ 1)%nat
       ∧ (cb_raises (func task) = false →
            launches task_id evs = calls task_id evs))
  ∧ (∀ cfg g A B,
       cb_raises A = false → cb_raises B = false →
       uuid_of g (uuid_next g) ≠ uuid_of g (S (uuid_next g)) →
       ∃ a b final ticks tick15,
         scenario_A3_B5 cfg g A B = (Ok a, Ok b, (final, ticks))
         ∧ length ticks = 15%nat
         ∧ _count final = 15
         ∧ total_launches a ticks = 5%nat
         ∧ total_launches b ticks = 3%nat
         ∧ ticks !! 14%nat = Some tick15
         ∧ launches a tick15 = 1%nat
         ∧ launches b tick15 = 1%nat).
Proof.
  split.
  - intros self task_id task Hwf Hr Hget.
    destruct (ticker_calls self task_id task Hwf Hr Hget)
      as (self' & evs & Htick & -> & Hcalls & Hlaunch).
    pose proof (wf_interval_pos _ _ _ Hwf Hget) as Hi.
    exists (with_count (_count self + 1) self), evs.
    split; [done|]. split; [done|]. simpl _count.
    destruct (fires_iff_divides (_count self + 1) (interval task) _ Hi Hcalls)
      as [Hiff Hle].
    split; [done|]. split; [done|].
    intros Hnr. rewrite Hlaunch, Hcalls, Hnr. by case_decide.
  - intros cfg g A B HA HB Hne.
    set (a := uuid_of g (uuid_next g)) in *.
    set (b := uuid_of g (S (uuid_next g))) in *.
    set (tA := mkTask A 3 [] []). set (tB := mkTask B 5 [] []).
    set (hb2 := with_tasks [(a, tA); (b, tB)] (__init__ cfg)).
    assert (Hsc : scenario_A3_B5 cfg g A B = (Ok a, Ok b, start_and_run 14 hb2)).
    { unfold scenario_A3_B5, register. simpl.
      fold a b. rewrite decide_False by done. done. }
    assert (Hwf : wf hb2).
    { split; simpl.
      - apply NoDup_cons. split; [by intros ->%list_elem_of_singleton|].
        apply NoDup_singleton.
      - repeat constructor. }
    assert (Hga : PyDict.get a (_tasks hb2) = Some tA)
      by (simpl; by rewrite decide_True).
    assert (Hgb : PyDict.get b (_tasks hb2) = Some tB).
    { simpl. rewrite decide_False by done. by rewrite decide_True. }
    destruct (start_and_run_spec 14 hb2 a tA Hwf eq_refl Hga)
      as (ticks & Hrun & Hlen & Hka & Hta).
    destruct (start_and_run_spec 14 hb2 b tB Hwf eq_refl Hgb)
      as (ticks' & Hrun' & _ & Hkb & Htb).
    rewrite Hrun in Hrun'. injection Hrun' as <-.
    destruct (lookup_lt_is_Some_2 ticks 14) as [tick15 H15]; [lia|].
    exists a, b, (with_count (Z.of_nat 15) (with_is_running true hb2)), ticks, tick15.
    rewrite Hsc, Hrun.
    assert (Hla : ∀ k evs, ticks !! k = Some evs →
                           launches a evs = calls a evs).
    { intros k evs Hk. destruct (Hka k evs Hk) as [_ ->]. simpl. by rewrite HA. }
    assert (Hlb : ∀ k evs, ticks !! k = Some evs →
                           launches b evs = calls b evs).
    { intros k evs Hk. destruct (Hkb k evs Hk) as [_ ->]. simpl. by rewrite HB. }
    rewrite (total_launches_calls a ticks Hla), (total_launches_calls b ticks Hlb).
    rewrite (Hla _ _ H15), (Hlb _ _ H15).
    destruct (Hka _ _ H15) as [-> _]. destruct (Hkb _ _ H15) as [-> _].
    change (Z.of_nat 15 `div` interval tA) with 5 in Hta.
    change (Z.of_nat 15 `div` interval tB) with 3 in Htb.
    split_and!; [done | done | done | lia | lia | done | done | done].
Qed.

Lemma ticker_launches_iff_interval_divides_witness :
  (wf Sample.hb_A3 ∧ _is_running Sample.hb_A3 = true
   ∧ PyDict.get "task-0" (_tasks Sample.hb_A3)
     = Some (mkTask Sample.cb_A 3 [] [])
   ∧ uuid_of Sample.gen 0 ≠ uuid_of Sample.gen 1)
  ∧ (∃ self' evs,
       ticker Sample.hb_A3 = (Ok tt, self', evs)
       ∧ _count self' = 3
       ∧ (calls "task-0" evs = 1%nat ↔ (3 | 3)))
  ∧ (∃ a b final ticks,
       scenario_A3_B5 [] Sample.gen Sample.cb_A Sample.cb_B
       = (Ok a, Ok b, (final, ticks))
       ∧ total_launches a ticks = 5%nat
       ∧ total_launches b ticks = 3%nat).
Proof.
  assert (Hwf : wf Sample.hb_A3).
  { split; simpl; [apply NoDup_singleton | repeat constructor]. }
  assert (Hne : uuid_of Sample.gen 0 ≠ uuid_of Sample.gen 1)
    by (intros Heq; vm_compute in Heq; discriminate).
  split; [by split_and!|].
  destruct ticker_launches_iff_interval_divides as [Htick Hscenario].
  split.
  - destruct (Htick Sample.hb_A3 "task-0" (mkTask Sample.cb_A 3 [] [])
                Hwf eq_refl eq_refl)
      as (self' & evs & Ht & Hc & Hiff & _).
    exists self', evs. split; [exact Ht|]. split; [exact Hc|].
    rewrite Hc in Hiff. exact Hiff.
  - destruct (Hscenario [] Sample.gen Sample.cb_A Sample.cb_B eq_refl eq_refl Hne)
      as (a & b & final & ticks & tick15 & Hsc & _ & _ & Ha & Hb & _).
    exists a, b, final, ticks. split; [exact Hsc|]. split; [exact Ha | exact Hb].
Defined.

(** C10. [stop()] only clears the running flag: the task table, the
    counter and the configured intervals are as before.  A later
    [start()] sets the flag and resets the counter to 0, the table
    untouched, and issues the first activation from there: every task
    registered before the cycle is still registered and is invoked on
    the activations whose number (counted from the restart) its
    interval divides. *)
Theorem stop_start_keeps_tasks (self : t) :
  wf self →
  let stopped := (stop self).1 in
  stopped = with_is_running false self
  ∧ _tasks stopped = _tasks self
  ∧ start stopped
    = (let '(res, self', evs) :=
         ticker (with_count 0 (with_is_running true self)) in
       (res, self', EvLog INFO "heartbeat started" :: evs))
  ∧ _tasks (start stopped).1.2 = _tasks self
  ∧ _count (start stopped).1.2 = 1
  ∧ ∀ task_id task,
      PyDict.get task_id (_tasks self) = Some task →
      PyDict.get task_id (_tasks (start stopped).1.2) = Some task
      ∧ ∀ n, ∃ ticks,
          start_and_run n stopped
          = (with_count (Z.of_nat (S n)) (with_is_running true self), ticks)
          ∧ length ticks = S n
          ∧ ∀ k evs, ticks !! k = Some evs →
              (calls task_id evs = 1%nat ↔ (interval task | Z.of_nat (S k)))
              ∧ (calls task_id evs ≤ 1)%nat
              ∧ (cb_raises (func task) = false →
                   launches task_id evs = calls task_id evs).
Proof.
  intros Hwf stopped.
  assert (Hwf' : wf stopped) by (by destruct Hwf).
  assert (Hstart : ∃ evs, start stopped
            = (Ok tt, with_count 1 (with_is_running true self), evs)).
  { rewrite start_stopped by done.
    destruct (ticker_running (with_count 0 (with_is_running true stopped)))
      as (evp & evb & -> & _); [by destruct Hwf | done |].
    by eexists. }
  destruct Hstart as [evs0 Hstart].
  split; [done|]. split; [done|].
  split; [by rewrite start_stopped|].
  rewrite Hstart. simpl.
  split; [done|]. split; [done|].
  intros task_id task Hget. split; [done|].
  intros n.
  destruct (start_and_run_spec n stopped task_id task Hwf' eq_refl Hget)
    as (ticks & Hrun & Hlen & Hk & _).
  exists ticks. split; [exact Hrun|]. split; [done|].
  intros k evs Hlook. destruct (Hk k evs Hlook) as [Hc Hl].
  pose proof (wf_interval_pos _ _ _ Hwf Hget) as Hi.
  destruct (fires_iff_divides _ _ _ Hi Hc) as [Hiff Hle].
  split; [done|]. split; [done|].
  intros Hnr. by rewrite Hl, Hnr.
Qed.

Lemma stop_start_keeps_tasks_witness :
  wf Sample.hb_A3
  ∧ _tasks (start (stop Sample.hb_A3).1).1.2 = _tasks Sample.hb_A3
  ∧ _count (start (stop Sample.hb_A3).1).1.2 = 1.
Proof.
  assert (Hwf : wf Sample.hb_A3).
  { split; simpl; [apply NoDup_singleton | repeat constructor]. }
  split; [exact Hwf|].
  destruct (stop_start_keeps_tasks Sample.hb_A3 Hwf)
    as (_ & _ & _ & Htasks & Hcount & _).
  split; [exact Htasks | exact Hcount].
Defined.

End HeartBeatFacts.

(** ** Running coroutines *)

Section RunFacts.
Context (env : nat → Step) (others : Step → Cfg → Cfg).

Lemma run_bind {A B} (m : Co A) (f : A → Co B) (c : Cfg) :
  run env others (m ≫= f) c
  = match run env others m c with
    | (c', Ok a) => run env others (f a) c'
    | (c', Raise e) => (c', Raise e)
    end.
Proof.
  unfold mbind, Co_bind. revert c.
  induction m as [a|e|k IH|s k IH|ev k IH|a k IH|k IH]; intros c; simpl;
    try done; try (by apply IH).
  destruct (complete _ _ _) as [c' r]. apply IH.
Qed.

Lemma run_try_except {A} (body : Co A) (handler : exn → Co A) (c : Cfg) :
  run env others (try_except body handler) c
  = match run env others body c with
    | (c', Ok a) => (c', Ok a)
    | (c', Raise e) => run env others (handler e) c'
    end.
Proof.
  revert c.
  induction body as [a|e|k IH|s k IH|ev k IH|a k IH|k IH]; intros c; simpl;
    try done; try (by apply IH).
  destruct (complete _ _ _) as [c' r]. apply IH.
Qed.

(** A handler that never raises makes the whole [try] total. *)
Lemma run_try_except_ok {A} (body : Co A) (handler : exn → Co A) (c : Cfg) :
  (∀ e c', is_ok (run env others (handler e) c').2 = true) →
  is_ok (run env others (try_except body handler) c).2 = true.
Proof.
  intros Hh. rewrite run_try_except.
  destruct (run env others body c) as [c' [a|e]]; [done | apply Hh].
Qed.

Lemma issue_trace a st c : trace c `prefix_of` trace (issue a st c).
Proof.
  destruct a; simpl; try done; try (by apply prefix_app_r);
    destruct (send_raises st); simpl; try done; by apply prefix_app_r.
Qed.

Lemma complete_trace a st c : trace (complete a st c).1 = trace c.
Proof. destruct a; simpl; try done; by destruct (close_raises st). Qed.

(** Running only ever appends to the trace. *)
Lemma run_trace_mono {A} (p : Co A) (c : Cfg) :
  (∀ st c, trace c `prefix_of` trace (others st c)) →
  trace c `prefix_of` trace (run env others p c).1.
Proof.
  intros Ho. revert c.
  induction p as [a|e|k IH|s k IH|ev k IH|a k IH|k IH]; intros c; simpl.
  - done.
  - done.
  - apply IH.
  - apply (IH (with_sys s c)).
  - etrans; [|apply IH]. by apply prefix_app_r.
  - pose proof (complete_trace a (env (clock c))
                  (others (env (clock c)) (tick (issue a (env (clock c)) c))))
      as Hc.
    destruct (complete _ _ _) as [c' r]. simpl in Hc.
    etrans; [|apply IH]. rewrite Hc.
    etrans; [|apply Ho]. simpl. apply issue_trace.
  - etrans; [|apply IH]. etrans; [|apply Ho]. simpl. by apply prefix_app_r.
Qed.
End RunFacts.

Lemma exec0_trace_mono {A} env (p : Co A) c :
  trace c `prefix_of` trace (exec0 env p c).1.
Proof. by apply run_trace_mono. Qed.

Lemma interleave_trace_mono env st c :
  trace c `prefix_of` trace (interleave env st c).
Proof.
  unfold interleave. revert c.
  induction (interrupt st) as [|p ps IH]; intros c; simpl; [done|].
  etrans; [|apply IH]. apply exec0_trace_mono.
Qed.

Lemma exec_trace_mono {A} env (p : Co A) c :
  trace c `prefix_of` trace (exec env p c).1.
Proof. apply run_trace_mono, interleave_trace_mono. Qed.

Lemma exec_bind {A B} env (m : Co A) (f : A → Co B) c :
  exec env (m ≫= f) c
  = match exec env m c with
    | (c', Ok a) => exec env (f a) c'
    | (c', Raise e) => (c', Raise e)
    end.
Proof. apply run_bind. Qed.


(** ** The connection *)

Module WebSocketClientFacts.
Import WebSocketClient.

Lemma new_events_app c c' evs :
  trace c' = trace c ++ evs → new_events c c' = evs.
Proof. intros H. unfold new_events. by rewrite H, drop_app_length. Qed.

(** C4. [connect()] on a client whose state is [CONNECTED] or
    [CONNECTING] returns [False], leaves the client and everything
    else as it was, and only logs a warning: the [on_connect] hook is
    not run. *)
Theorem connect_twice_returns_false (env : nat → Step) (c : Cfg) :
  _state (client (sys c)) = CONNECTED ∨ _state (client (sys c)) = CONNECTING →
  let out := exec env connect c in
  out.2 = Ok false
  ∧ sys out.1 = sys c
  ∧ _state (client (sys out.1)) = _state (client (sys c))
  ∧ new_events c out.1 = [EvLog WARNING "already connecting or connected"]
  ∧ EvOnConnect ∉ new_events c out.1.
Proof.
  intros Hst out.
  assert (Hout : out = (emit (EvLog WARNING "already connecting or connected") c,
                        Ok false)).
  { unfold out, exec, connect. simpl.
    rewrite bool_decide_true by tauto. done. }
  rewrite Hout. simpl.
  assert (Hev : new_events c (emit (EvLog WARNING "already connecting or connected") c)
                = [EvLog WARNING "already connecting or connected"])
    by by apply new_events_app.
  rewrite Hev. split_and!; try done.
  by intros [=]%list_elem_of_singleton.
Qed.

Lemma connect_twice_returns_false_witness :
  _state (client (sys (Scenario.connected 0 PyNone))) = CONNECTED
  ∧ (exec Scenario.all_quiet connect (Scenario.connected 0 PyNone)).2 = Ok false.
Proof.
  split; [reflexivity|].
  apply (connect_twice_returns_false Scenario.all_quiet
           (Scenario.connected 0 PyNone)).
  left. reflexivity.
Defined.

(** *** Sending *)

Lemma send_json_not_connected env c data :
  is_connected (client (sys c)) = false →
  exec env (send_json data) c
  = (emit (EvLog WARNING "not connected, cannot send") c, Ok false).
Proof. intros Hc. unfold exec, send_json. simpl. by rewrite Hc. Qed.

Lemma send_text_not_connected env c text :
  is_connected (client (sys c)) = false →
  exec env (send_text text) c
  = (emit (EvLog WARNING "not connected, cannot send") c, Ok false).
Proof. intros Hc. unfold exec, send_text. simpl. by rewrite Hc. Qed.

Lemma send_json_connected env c data :
  is_connected (client (sys c)) = true →
  exec env (send_json data) c
  = match send_raises (env (clock c)) with
    | None =>
        (emit (EvLog DEBUG "sent JSON message")
           (interleave env (env (clock c)) (tick (emit (EvSendJson data) c))),
         Ok true)
    | Some e =>
        (emit (EvLog ERROR "send JSON message failed")
           (interleave env (env (clock c)) (tick c)),
         Ok false)
    end.
Proof.
  intros Hc. unfold exec, send_json. simpl. rewrite Hc. simpl.
  by destruct (send_raises (env (clock c))).
Qed.

Lemma send_text_connected env c text :
  is_connected (client (sys c)) = true →
  exec env (send_text text) c
  = match send_raises (env (clock c)) with
    | None =>
        (emit (EvLog DEBUG "sent text message")
           (interleave env (env (clock c)) (tick (emit (EvSendStr text) c))),
         Ok true)
    | Some e =>
        (emit (EvLog ERROR "send text message failed")
           (interleave env (env (clock c)) (tick c)),
         Ok false)
    end.
Proof.
  intros Hc. unfold exec, send_text. simpl. rewrite Hc. simpl.
  by destruct (send_raises (env (clock c))).
Qed.

(** C7. [send_json] and [send_text] always return a boolean, whatever
    the environment does: on a client that is not connected they return
    [False] and only log a warning, nothing being handed to the
    transport; when the transport send raises, the exception is caught,
    an error is logged and [False] is returned; otherwise the message is
    sent and [True] returned. *)
Theorem send_returns_false_and_never_raises
    (env : nat → Step) (c : Cfg) (data : json) (text : string) :
  let st := env (clock c) in
  let out_json := exec env (send_json data) c in
  let out_text := exec env (send_text text) c in
  ((∃ b, out_json.2 = Ok b) ∧ (∃ b, out_text.2 = Ok b))
  ∧ (is_connected (client (sys c)) = false →
       out_json = (emit (EvLog WARNING "not connected, cannot send") c, Ok false)
       ∧ out_text = (emit (EvLog WARNING "not connected, cannot send") c, Ok false))
  ∧ (is_connected (client (sys c)) = true →
       ∀ e, send_raises st = Some e →
       out_json = (emit (EvLog ERROR "send JSON message failed")
                     (interleave env st (tick c)), Ok false)
       ∧ out_text = (emit (EvLog ERROR "send text message failed")
                       (interleave env st (tick c)), Ok false))
  ∧ (is_connected (client (sys c)) = true →
       send_raises st = None →
       out_json = (emit (EvLog DEBUG "sent JSON message")
                     (interleave env st (tick (emit (EvSendJson data) c))),
                   Ok true)
       ∧ out_text = (emit (EvLog DEBUG "sent text message")
                       (interleave env st (tick (emit (EvSendStr text) c))),
                     Ok true)).
Proof.
  intros st out_json out_text. subst st out_json out_text.
  destruct (is_connected (client (sys c))) eqn:Hc.
  - rewrite send_json_connected, send_text_connected by done.
    destruct (send_raises (env (clock c))) as [e|] eqn:Hs; simpl.
    + split; [split; by eexists|]. split; [done|].
      split; [|done]. by intros _ e' [= <-].
    + split; [split; by eexists|]. split; [done|]. by split.
  - rewrite send_json_not_connected, send_text_not_connected by done. simpl.
    split; [split; by eexists|]. split; [done|]. by split.
Qed.

Lemma send_returns_false_and_never_raises_witness :
  (is_connected (client (sys (Scenario.connected 0 PyNone))) = true
   ∧ send_raises (Scenario.all_quiet 0%nat) = None)
  ∧ (exec Scenario.all_quiet (send_json (JObj [("op", JStr "ping")]))
          (Scenario.connected 0 PyNone)).2 = Ok true.
Proof.
  split; [by split|].
  destruct (send_returns_false_and_never_raises Scenario.all_quiet
              (Scenario.connected 0 PyNone) (JObj [("op", JStr "ping")]) "ping")
    as (_ & _ & _ & Hsent).
  destruct (Hsent eq_refl eq_refl) as [-> _]. reflexivity.
Defined.

(** *** Reconnecting *)

(** [_reconnect] up to the end of its backoff wait, when neither guard
    stops it. *)
Lemma reconnect_proceeds env c :
  _state (client (sys c)) ≠ RECONNECTING →
  ¬ (0 < _max_reconnect_attempts (client (sys c))
     ∧ _max_reconnect_attempts (client (sys c)) ≤ _reconnect_count (client (sys c))) →
  exec env _reconnect c
  = (let n := _reconnect_count (client (sys c)) + 1 in
     let self := with_reconnect_count n (with_state RECONNECTING (client (sys c))) in
     let asleep :=
       tick (emit (EvSleep (Z.min (n * 2) 30))
               (emit (EvLog INFO "will reconnect after wait")
                  (emit (EvState RECONNECTING)
                     (with_sys (with_client self (sys c)) c)))) in
     let '(c', r) := exec env connect (interleave env (env (clock c)) asleep) in
     (c', match r with Ok _ => Ok tt | Raise e => Raise e end)).
Proof.
  intros Hst Hmax. unfold _reconnect at 1.
  unfold exec at 1. cbn -[connect interleave Z.min Z.mul Z.add].
  rewrite bool_decide_false by done.
  rewrite bool_decide_false by done.
  cbn -[connect interleave Z.min Z.mul Z.add].
  rewrite run_bind.
  lazymatch goal with
  | |- context [exec env connect ?cR] =>
      lazymatch goal with
      | |- context [run env (interleave env) connect ?cL] => change cL with cR
      end
  end.
  unfold exec.
  destruct (run env (interleave env) connect _) as [c' [b|e]]; done.
Qed.

Lemma connect_success_resets_counter env c :
  (exec0 env connect c).2 = Ok true →
  _reconnect_count (client (sys (exec0 env connect c).1)) = 0
  ∧ _state (client (sys (exec0 env connect c).1)) = CONNECTED.
Proof.
  destruct c as [[cl subs h g] tr k].
  destruct cl as [url ci si ar mx sess ws st cnt msg t1 t2].
  unfold exec0, connect. cbn.
  destruct st;
    first [ rewrite bool_decide_true by ((by left) || (by right))
          | rewrite bool_decide_false by (intros [?|?]; discriminate) ];
    cbn; try done;
    destruct sess as [[[]]|]; cbn; try done;
    destruct (connect_raises (env k)) as [[]|]; cbn; try done;
    destruct (hook_raises (env (S k))) as [[]|]; cbn; done.
Qed.






(** *** The heartbeat sender *)

Lemma send_heartbeat_idle env c :
  is_connected (client (sys c)) = false ∨ truthy (heartbeat_msg (client (sys c))) = false →
  exec env _send_heartbeat c = (c, Ok tt).
Proof.
  intros Hidle. unfold exec, _send_heartbeat. simpl.
  by destruct Hidle as [-> | ->]; simpl; rewrite ?orb_true_r.
Qed.

Lemma send_heartbeat_active env c :
  is_connected (client (sys c)) = true →
  truthy (heartbeat_msg (client (sys c))) = true →
  exec env _send_heartbeat c
  = match heartbeat_msg (client (sys c)) with
    | PyDict d =>
        match send_raises (env (clock c)) with
        | None =>
            (emit (EvLog DEBUG "sent heartbeat (JSON)")
               (interleave env (env (clock c))
                  (tick (emit (EvSendJson (JObj d)) c))), Ok tt)
        | Some e =>
            (emit (EvLog ERROR "send heartbeat failed")
               (interleave env (env (clock c)) (tick c)), Ok tt)
        end
    | PyStr s =>
        match send_raises (env (clock c)) with
        | None =>
            (emit (EvLog DEBUG "sent heartbeat (Text)")
               (interleave env (env (clock c))
                  (tick (emit (EvSendStr s) c))), Ok tt)
        | Some e =>
            (emit (EvLog ERROR "send heartbeat failed")
               (interleave env (env (clock c)) (tick c)), Ok tt)
        end
    | _ => (emit (EvLog WARNING "unsupported heartbeat message type") c, Ok tt)
    end.
Proof.
  intros Hc Ht. unfold exec, _send_heartbeat. simpl. rewrite Hc, Ht. simpl.
  destruct (heartbeat_msg (client (sys c))); simpl; try done;
    by destruct (send_raises (env (clock c))).
Qed.

(** C8, as the code has it.  The heartbeat sender of a connected client
    sends a static payload only: a non-empty dict goes out verbatim as
    JSON and a non-empty string verbatim as text on every invocation;
    with a generator callable configured, the invocation does not call
    it and sends nothing, it only logs the unsupported-type warning. *)
Theorem send_heartbeat_sends_static_payload_only
    (env : nat → Step) (c : Cfg) :
  is_connected (client (sys c)) = true →
  let st := env (clock c) in
  let out := exec env _send_heartbeat c in
  out.2 = Ok tt
  ∧ match heartbeat_msg (client (sys c)) with
    | PyDict d =>
        d ≠ [] → send_raises st = None →
        out.1 = emit (EvLog DEBUG "sent heartbeat (JSON)")
                  (interleave env st (tick (emit (EvSendJson (JObj d)) c)))
    | PyStr s =>
        s ≠ "" → send_raises st = None →
        out.1 = emit (EvLog DEBUG "sent heartbeat (Text)")
                  (interleave env st (tick (emit (EvSendStr s) c)))
    | PyCallable f =>
        out.1 = emit (EvLog WARNING "unsupported heartbeat message type") c
        ∧ new_events c out.1
          = [EvLog WARNING "unsupported heartbeat message type"]
    | PyNone => out.1 = c
    end.
Proof.
  intros Hc st out. subst st out.
  destruct (truthy (heartbeat_msg (client (sys c)))) eqn:Ht.
  - rewrite send_heartbeat_active by done.
    destruct (heartbeat_msg (client (sys c))) as [|s|d|f]; simpl in *.
    + done.
    + destruct (send_raises _); simpl; [|done]. split; [done|]. by intros.
    + destruct (send_raises _); simpl; [|done]. split; [done|]. by intros.
    + split; [done|]. split; [done|]. by apply new_events_app.
  - rewrite send_heartbeat_idle by (by right). simpl. split; [done|].
    destruct (heartbeat_msg (client (sys c))) as [|s|d|f]; simpl in *.
    + done.
    + intros Hs. by rewrite bool_decide_false in Ht.
    + intros Hd. by rewrite bool_decide_false in Ht.
    + done.
Qed.

Lemma send_heartbeat_sends_static_payload_only_witness :
  is_connected
    (client (sys (Scenario.connected 0 (PyDict [("op", JStr "ping")])))) = true
  ∧ trace (exec Scenario.all_quiet _send_heartbeat
             (Scenario.connected 0 (PyDict [("op", JStr "ping")]))).1
    = [EvSendJson (JObj [("op", JStr "ping")]);
       EvLog DEBUG "sent heartbeat (JSON)"].
Proof.
  split; [reflexivity|].
  destruct (send_heartbeat_sends_static_payload_only Scenario.all_quiet
              (Scenario.connected 0 (PyDict [("op", JStr "ping")])) eq_refl)
    as [_ Hsent].
  etrans; [exact (f_equal trace (Hsent ltac:(discriminate) eq_refl))|].
  reflexivity.
Defined.

(** C8, as stated, fails: a connected client whose heartbeat message is
    a generator callable sends nothing on a heartbeat invocation and
    never calls the generator; the invocation only logs that the type
    is not supported. *)
Lemma send_heartbeat_drops_generator :
  is_connected
    (client (sys (Scenario.connected 0 (PyCallable Scenario.generator)))) = true
  ∧ trace (exec Scenario.all_quiet _send_heartbeat
             (Scenario.connected 0 (PyCallable Scenario.generator))).1
    = [EvLog WARNING "unsupported heartbeat message type"]
  ∧ ¬ (∃ ev,
         ev ∈ trace (exec Scenario.all_quiet _send_heartbeat
                       (Scenario.connected 0 (PyCallable Scenario.generator))).1
         ∧ (is_send ev = true ∨ ∃ arg, ev = EvInvoke Scenario.generator arg)).
Proof.
  split; [reflexivity|]. split; [reflexivity|].
  intros (ev & Hin & Hev).
  change (ev ∈ [EvLog WARNING "unsupported heartbeat message type"]) in Hin.
  apply list_elem_of_singleton in Hin as ->.
  destruct Hev as [Hs | [arg Harg]]; discriminate.
Qed.

(** *** What the scheduler can still do to a disconnected client *)

Lemma scheduled_idle env t c :
  _state (client (sys c)) = DISCONNECTED →
  exec env (scheduled t) c = (c, Ok tt)
  ∨ exec env (scheduled t) c
    = (emit (EvLog DEBUG "websocket not initialised") c, Ok tt).
Proof.
  intros Hst. destruct t; simpl.
  - unfold exec, _check_connection. simpl.
    destruct (_ws (client (sys c))) as [ws|]; simpl; [|by right].
    rewrite Hst. rewrite bool_decide_false by discriminate.
    rewrite andb_false_r. by left.
  - left. apply send_heartbeat_idle. left.
    unfold is_connected. rewrite Hst. by rewrite bool_decide_false.
Qed.

Lemma connect_attempts_app evs1 evs2 :
  connect_attempts (evs1 ++ evs2)
  = (connect_attempts evs1 + connect_attempts evs2)%nat.
Proof. unfold connect_attempts. by rewrite List.filter_app, length_app. Qed.

Lemma run_scheduled_idle env ts c :
  _state (client (sys c)) = DISCONNECTED →
  sys (run_scheduled env ts c) = sys c
  ∧ connect_attempts (trace (run_scheduled env ts c)) = connect_attempts (trace c)
  ∧ List.filter Scenario.is_exhaustion_log (trace (run_scheduled env ts c))
    = List.filter Scenario.is_exhaustion_log (trace c)
  ∧ states (trace (run_scheduled env ts c)) = states (trace c).
Proof.
  unfold run_scheduled. revert c.
  induction ts as [|t ts IH]; intros c Hst; simpl; [done|].
  destruct (scheduled_idle env t c Hst) as [-> | ->]; simpl.
  - by apply IH.
  - destruct (IH (emit (EvLog DEBUG "websocket not initialised") c) Hst)
      as (Hsys & Hn & Hx & Hs).
    rewrite Hsys, Hn, Hx, Hs. simpl.
    rewrite connect_attempts_app, List.filter_app. unfold states.
    rewrite omap_app. simpl. rewrite !app_nil_r.
    split_and!; [done | unfold connect_attempts; simpl; lia | done | done].
Qed.

(** The two guards the code does have: [_handle_disconnect] leaves a
    closed client alone, and [_reconnect] gives up, logging, once the
    counter has reached a positive maximum. *)
Lemma handle_disconnect_closed env c :
  _state (client (sys c)) = CLOSED →
  exec env _handle_disconnect c = (c, Ok tt).
Proof.
  intros Hst. unfold exec, _handle_disconnect. simpl.
  by rewrite Hst, bool_decide_true.
Qed.

Lemma reconnect_exhausted env c :
  _state (client (sys c)) ≠ RECONNECTING →
  0 < _max_reconnect_attempts (client (sys c))
      ≤ _reconnect_count (client (sys c)) →
  exec env _reconnect c
  = (emit (EvLog ERROR "max reconnect attempts reached") c, Ok tt).
Proof.
  intros Hst Hmax. unfold exec, _reconnect. simpl.
  rewrite bool_decide_false by done. by rewrite bool_decide_true.
Qed.

(** C3, on the code.  A connected client with
    [max_reconnect_attempts = 2] whose socket fails and whose every
    handshake is refused makes one reconnect attempt, after a wait of 2
    seconds, and is left [DISCONNECTED] with the counter at 1: nothing
    calls [_reconnect] again, so whatever the scheduler fires
    afterwards, no second attempt is issued and the exhaustion is never
    logged. *)
Theorem reconnect_stops_after_first_failed_attempt :
  let c1 := Scenario.socket_error Scenario.refusing (Scenario.connected 2 PyNone) in
  trace c1
  = [EvLog ERROR "websocket error"; EvState DISCONNECTED; EvOnDisconnect;
     EvState RECONNECTING; EvLog INFO "will reconnect after wait"; EvSleep 2;
     EvState CONNECTING; EvLog INFO "connecting"; EvWsConnect false;
     EvState DISCONNECTED; EvLog ERROR "connect failed"]
  ∧ connect_attempts (trace c1) = 1%nat
  ∧ _reconnect_count (client (sys c1)) = 1
  ∧ ∀ ts : list Scheduled,
      let c2 := run_scheduled Scenario.refusing ts c1 in
      connect_attempts (trace c2) = 1%nat
      ∧ List.filter Scenario.is_exhaustion_log (trace c2) = []
      ∧ _state (client (sys c2)) = DISCONNECTED
      ∧ _reconnect_count (client (sys c2)) = 1.
Proof.
  intros c1.
  assert (Htr : trace c1
    = [EvLog ERROR "websocket error"; EvState DISCONNECTED; EvOnDisconnect;
       EvState RECONNECTING; EvLog INFO "will reconnect after wait"; EvSleep 2;
       EvState CONNECTING; EvLog INFO "connecting"; EvWsConnect false;
       EvState DISCONNECTED; EvLog ERROR "connect failed"])
    by (vm_compute; reflexivity).
  assert (Hst : _state (client (sys c1)) = DISCONNECTED)
    by (vm_compute; reflexivity).
  assert (Hcnt : _reconnect_count (client (sys c1)) = 1)
    by (vm_compute; reflexivity).
  split; [done|]. split; [by rewrite Htr|]. split; [done|].
  intros ts c2.
  destruct (run_scheduled_idle Scenario.refusing ts c1 Hst)
    as (Hsys & Hn & Hx & _).
  subst c2. rewrite Hn, Hx, Hsys, Htr. by split_and!.
Qed.

(** C1, on the code.  [disconnect()] called while the reconnect backoff
    sleep is pending sets the state to [CLOSED], but when the sleep
    ends [_reconnect] calls [connect()] all the same, and [connect()]
    only refuses [CONNECTING] and [CONNECTED]: the client enters
    [CONNECTING] again, a handshake is issued (on the session that
    [disconnect()] closed, so it fails), and the client ends
    [DISCONNECTED], not [CLOSED]. *)
Theorem reconnect_after_disconnect_reenters_connecting :
  let c1 := Scenario.socket_error Scenario.disconnect_during_backoff
              (Scenario.connected 0 PyNone) in
  trace c1
  = [EvLog ERROR "websocket error"; EvState DISCONNECTED; EvOnDisconnect;
     EvState RECONNECTING; EvLog INFO "will reconnect after wait"; EvSleep 2;
     EvLog INFO "disconnecting"; EvState CLOSED;
     EvLog INFO "unregister heartbeat task";
     EvLog INFO "unregister heartbeat task";
     EvWsClose; EvSessionClose; EvLog INFO "disconnected";
     EvState CONNECTING; EvLog INFO "connecting"; EvWsConnect false;
     EvState DISCONNECTED; EvLog ERROR "connect exception"]
  ∧ states (trace c1)
    = [DISCONNECTED; RECONNECTING; CLOSED; CONNECTING; DISCONNECTED]
  ∧ connect_attempts (trace c1) = 1%nat
  ∧ _state (client (sys c1)) = DISCONNECTED.
Proof. intros c1. split_and!; vm_compute; reflexivity. Qed.

(** [connect()] itself does not refuse a closed client. *)
Lemma connect_from_closed_enters_connecting env c :
  _state (client (sys c)) = CLOSED →
  ∃ rest, new_events c (exec env connect c).1
          = [EvState CONNECTING; EvLog INFO "connecting"] ++ rest.
Proof.
  intros Hst.
  set (c1 := emit (EvLog INFO "connecting")
               (emit (EvState CONNECTING)
                  (with_sys (with_client (with_state CONNECTING (client (sys c)))
                                         (sys c)) c))).
  assert (Hpre : trace c1 `prefix_of` trace (exec env connect c).1).
  { unfold exec, connect. cbn -[try_except interleave].
    rewrite Hst. rewrite bool_decide_false by (intros [?|?]; discriminate).
    cbn -[try_except interleave].
    apply (run_trace_mono env (interleave env) _ c1).
    apply interleave_trace_mono. }
  destruct Hpre as [rest Hrest]. exists rest.
  apply new_events_app. rewrite Hrest. unfold c1. simpl.
  by rewrite <- !app_assoc.
Qed.

End WebSocketClientFacts.

(** ** The Binance dispatch *)

Module BinanceFacts.
Import BinanceSpotWebSocketBase.

Lemma invoke_run env c cb arg site :
  exec env (invoke cb arg site) c
  = (let c1 := interleave env (env (clock c)) (tick (emit (EvInvoke cb arg) c)) in
     (if cb_raises cb then emit (EvLog ERROR site) c1 else c1, Ok tt)).
Proof. unfold exec, invoke. simpl. by destruct (cb_raises cb). Qed.


Lemma mem_of_get {V} k (d : list (string * V)) v :
  PyDict.get k d = Some v → PyDict.mem k d = true.
Proof. unfold PyDict.mem. by intros ->. Qed.





End BinanceFacts.

(** ** More on the scheduler: [unregister], [clear_tasks], histories *)

Section DictPopFacts.
Context {V : Type}.
Implicit Types (d : list (string * V)) (k : string) (v : V).
Import PyDict.

Lemma pop_absent k d : get k d = None → pop k d = d.
Proof.
  induction d as [|[k' v'] d IH]; simpl; [done|].
  case_decide; [done|]. intros Hd. by rewrite IH.
Qed.

Lemma pop_app_fresh k v d : get k d = None → pop k (d ++ [(k, v)]) = d.
Proof.
  induction d as [|[k' v'] d IH]; simpl.
  - intros _. by rewrite decide_True.
  - case_decide; [done|]. intros Hd. by rewrite IH.
Qed.

Lemma get_app_fresh k k' v d :
  get k (d ++ [(k', v)])
  = match get k d with
    | Some x => Some x
    | None => if decide (k = k') then Some v else None
    end.
Proof.
  induction d as [|[k0 v0] d IH]; simpl; [done|].
  destruct (decide (k = k0)); [done | apply IH].
Qed.

Lemma get_pop_ne k k' d : k ≠ k' → get k' (pop k d) = get k' d.
Proof.
  intros Hne. induction d as [|[k0 v0] d IH]; simpl; [done|].
  case_decide as Hk; simpl.
  - subst. by rewrite decide_False.
  - by rewrite IH.
Qed.

Lemma get_pop_eq k d : NoDup (keys d) → get k (pop k d) = None.
Proof.
  induction d as [|[k0 v0] d IH]; simpl; [done|].
  intros [Hnotin Hnd]%NoDup_cons.
  case_decide as Hk; simpl.
  - subst. by apply get_None_notin.
  - rewrite decide_False by done. by apply IH.
Qed.

Lemma filter_ne_notin k (l : list string) :
  k ∉ l → filter (λ x, x ≠ k) l = l.
Proof.
  induction l as [|x l IH]; [done|].
  intros [Hne Hnotin]%not_elem_of_cons.
  rewrite filter_cons_True by done. by rewrite IH.
Qed.

Lemma keys_pop k d :
  NoDup (keys d) → keys (pop k d) = filter (λ x, x ≠ k) (keys d).
Proof.
  induction d as [|[k0 v0] d IH]; simpl; [done|].
  intros [Hnotin Hnd]%NoDup_cons.
  case_decide as Hk; simpl.
  - subst. rewrite filter_cons_False by (by intros ?).
    by rewrite filter_ne_notin.
  - rewrite filter_cons_True by done. by rewrite IH.
Qed.

Lemma length_pop k d :
  mem k d = true → S (length (pop k d)) = length d.
Proof.
  unfold mem. induction d as [|[k0 v0] d IH]; simpl; [done|].
  case_decide; simpl; [done|]. intros Hd. by rewrite IH.
Qed.
End DictPopFacts.

Module HeartBeatMore.
Import HeartBeat HeartBeatOps HeartBeatFacts.

Implicit Types (self : t) (g : UuidGen) (task : Task).

Lemma with_tasks_id self : with_tasks (_tasks self) self = self.
Proof. by destruct self. Qed.

(** X1. [unregister] undoes [register]: the identifier that [register]
    returned (one that was new to the table) is unregistered with
    [True], which gives back the scheduler as it was before the
    registration; unregistering it once more returns [False]. *)
Theorem unregister_undoes_register
    (f : Callback) (i : Z) (a : list json) (kw : list (string * json))
    (self : t) (g : UuidGen) :
  1 ≤ i →
  PyDict.get (uuid_of g (uuid_next g)) (_tasks self) = None →
  ∃ task_id self1 g1 evs,
    register f i a kw self g = (Ok task_id, self1, g1, evs)
    ∧ unregister task_id self1
      = (true, self, [EvLog INFO "unregister heartbeat task"])
    ∧ unregister task_id self
      = (false, self, [EvLog WARNING "task does not exist"]).
Proof.
  intros Hi Hfresh. unfold register.
  rewrite decide_False by lia. simpl.
  eexists _, _, _, _. split; [reflexivity|].
  rewrite set_item_fresh by done.
  unfold unregister, PyDict.mem. simpl.
  rewrite get_app_fresh, Hfresh, decide_True by done.
  rewrite pop_app_fresh by done.
  split; [|done]. f_equal. f_equal. by destruct self.
Qed.

Lemma unregister_undoes_register_witness :
  (1 ≤ 3
   ∧ PyDict.get (uuid_of Sample.gen 1) (_tasks Sample.hb_A3) = None)
  ∧ ∃ self1 g1 evs,
      register Sample.cb_B 3 [] [] Sample.hb_A3
        (mkUuidGen (uuid_of Sample.gen) 1)
      = (Ok "task-1", self1, g1, evs)
      ∧ unregister "task-1" self1
        = (true, Sample.hb_A3, [EvLog INFO "unregister heartbeat task"]).
Proof.
  split; [split; [lia | reflexivity]|].
  destruct (unregister_undoes_register Sample.cb_B 3 [] [] Sample.hb_A3
              (mkUuidGen (uuid_of Sample.gen) 1))
    as (task_id & self1 & g1 & evs & Hreg & Hun & _); [lia | reflexivity |].
  assert (Hid : task_id = "task-1").
  { unfold register in Hreg. simpl in Hreg. by injection Hreg as <- _ _ _. }
  subst task_id. exists self1, g1, evs. split; [exact Hreg | exact Hun].
Defined.

(** X2. [unregister] of an identifier that is not in the table returns
    [False] and changes nothing; of a registered one it returns [True]
    and removes exactly that task: it can no longer be looked up, every
    other task is untouched and keeps its place in the table, and the
    task count drops by one. *)
Theorem unregister_removes_exactly_one (task_id : string) (self : t) :
  wf self →
  (PyDict.get task_id (_tasks self) = None →
     unregister task_id self
     = (false, self, [EvLog WARNING "task does not exist"]))
  ∧ (∀ task, PyDict.get task_id (_tasks self) = Some task →
       ∃ self',
         unregister task_id self
         = (true, self', [EvLog INFO "unregister heartbeat task"])
         ∧ self' = with_tasks (_tasks self') self
         ∧ PyDict.get task_id (_tasks self') = None
         ∧ (∀ k, k ≠ task_id →
              PyDict.get k (_tasks self') = PyDict.get k (_tasks self))
         ∧ PyDict.keys (_tasks self')
           = filter (λ k, k ≠ task_id) (PyDict.keys (_tasks self))
         ∧ get_task_count self' = get_task_count self - 1
         ∧ wf self').
Proof.
  intros Hwf. pose proof Hwf as [Hnd Hpos]. split.
  - intros Hnone. unfold unregister, PyDict.mem. by rewrite Hnone.
  - intros task Hsome. unfold unregister.
    assert (Hmem : PyDict.mem task_id (_tasks self) = true)
      by (unfold PyDict.mem; by rewrite Hsome).
    rewrite Hmem. eexists. split; [reflexivity|]. simpl.
    split_and!.
    + done.
    + by apply get_pop_eq.
    + intros k Hk. by apply get_pop_ne.
    + by apply keys_pop.
    + unfold get_task_count. simpl.
      pose proof (length_pop task_id (_tasks self) Hmem). lia.
    + pose proof (wf_unregister task_id self Hwf) as Hwf'.
      unfold unregister in Hwf'. by rewrite Hmem in Hwf'.
Qed.

Lemma unregister_removes_exactly_one_witness :
  wf Sample.hb_A3
  ∧ ∃ self',
      unregister "task-0" Sample.hb_A3
      = (true, self', [EvLog INFO "unregister heartbeat task"])
      ∧ get_task_count self' = 0.
Proof.
  assert (Hwf : wf Sample.hb_A3).
  { split; simpl; [apply NoDup_singleton | repeat constructor]. }
  split; [exact Hwf|].
  destruct (unregister_removes_exactly_one "task-0" Sample.hb_A3 Hwf) as [_ Hrem].
  destruct (Hrem (mkTask Sample.cb_A 3 [] []) eq_refl)
    as (self' & Hun & _ & _ & _ & _ & Hcount & _).
  exists self'. split; [exact Hun|]. exact Hcount.
Defined.

(** *** Histories *)

Lemma ticker_count_nonneg self : 0 ≤ _count self → 0 ≤ _count (ticker self).1.2.
Proof.
  intros Hc. unfold ticker.
  destruct (_is_running self); simpl; [|done].
  destruct (_execute_tasks _) as [[u|e] evs]; simpl; lia.
Qed.

Lemma ticker_interval self : _interval (ticker self).1.2 = _interval self.
Proof.
  unfold ticker. destruct (_is_running self); simpl; [|done].
  by destruct (_execute_tasks _) as [[u|e] evs].
Qed.

Lemma step_keeps_invariant st op :
  wf st.1 ∧ 0 ≤ _count st.1 ∧ _interval st.1 = 1 →
  wf (step st op).1 ∧ 0 ≤ _count (step st op).1 ∧ _interval (step st op).1 = 1.
Proof.
  destruct st as [self g]. simpl. intros (Hwf & Hc & Hi).
  destruct op as [f i a kw|task_id| | | |]; simpl.
  - pose proof (wf_register f i a kw self g Hwf) as Hwf'.
    unfold register in *. case_decide; simpl in *; done.
  - pose proof (wf_unregister task_id self Hwf) as Hwf'.
    unfold unregister in *. destruct (PyDict.mem _ _); simpl in *; done.
  - split; [apply wf_clear_tasks | done].
  - split; [by apply wf_start|]. unfold start.
    destruct (_is_running self); simpl; [done|].
    pose proof (ticker_count_nonneg (with_count 0 (with_is_running true self))
                  ltac:(done)) as Hc'.
    pose proof (ticker_interval (with_count 0 (with_is_running true self))) as Hi'.
    destruct (ticker _) as [[res self'] evs]. simpl in *. by rewrite Hi'.
  - split; [by apply wf_stop | done].
  - split; [by apply wf_ticker|].
    split; [by apply ticker_count_nonneg | by rewrite ticker_interval].
Qed.

Lemma ticker_ok self : wf self → (ticker self).1.1 = Ok tt.
Proof.
  intros Hwf. destruct (_is_running self) eqn:Hr.
  - by destruct (ticker_running self Hwf Hr) as (evp & evb & -> & _).
  - by rewrite ticker_stopped.
Qed.

(** X3. Whatever calls are made on a fresh scheduler and whatever
    activations happen in between, the task table keeps distinct
    identifiers and positive intervals, the counter is never negative,
    the tick period stays 1, and neither an activation nor [start()]
    raises: the [ZeroDivisionError] of the due test cannot occur. *)
Theorem scheduler_history_keeps_invariant
    (cfg : list (string * Z)) (g : UuidGen) (ops : list Op) :
  wf (run ops (__init__ cfg, g)).1
  ∧ 0 ≤ _count (run ops (__init__ cfg, g)).1
  ∧ _interval (run ops (__init__ cfg, g)).1 = 1
  ∧ (ticker (run ops (__init__ cfg, g)).1).1.1 = Ok tt
  ∧ (start (run ops (__init__ cfg, g)).1).1.1 = Ok tt.
Proof.
  assert (Hinv : wf (run ops (__init__ cfg, g)).1
                 ∧ 0 ≤ _count (run ops (__init__ cfg, g)).1
                 ∧ _interval (run ops (__init__ cfg, g)).1 = 1).
  { unfold run.
    assert (Hinit : wf (__init__ cfg, g).1 ∧ 0 ≤ _count (__init__ cfg, g).1
                    ∧ _interval (__init__ cfg, g).1 = 1)
      by (split; [apply wf_init | done]).
    revert Hinit. generalize (__init__ cfg, g).
    induction ops as [|op ops IH]; intros st Hst; simpl; [done|].
    by apply IH, step_keeps_invariant. }
  destruct Hinv as (Hwf & Hc & Hi).
  split_and!; [done | done | done | by apply ticker_ok |].
  unfold start. destruct (_is_running _); simpl; [done|].
  pose proof (ticker_ok (with_count 0 (with_is_running true
                 (run ops (__init__ cfg, g)).1))) as Hok.
  destruct (ticker _) as [[res self'] evs]. simpl in *.
  apply Hok. by destruct Hwf.
Qed.

(** *** The order and the isolation of launches *)

Lemma call_ids_app evs1 evs2 : call_ids (evs1 ++ evs2) = call_ids evs1 ++ call_ids evs2.
Proof. apply omap_app. Qed.

Lemma reschedules_app evs1 evs2 :
  reschedules (evs1 ++ evs2) = (reschedules evs1 + reschedules evs2)%nat.
Proof. unfold reschedules. by rewrite List.filter_app, length_app. Qed.

Lemma error_logs_app evs1 evs2 :
  error_logs (evs1 ++ evs2) = (error_logs evs1 + error_logs evs2)%nat.
Proof. unfold error_logs. by rewrite List.filter_app, length_app. Qed.

Lemma execute_items_shape c items :
  Forall (λ kv, 0 < interval kv.2) items →
  call_ids (execute_items c items).2 = due c items
  ∧ error_logs (execute_items c items).2 = length (due_raising c items)
  ∧ reschedules (execute_items c items).2 = 0%nat.
Proof.
  unfold due, due_raising.
  induction 1 as [|[k task] items Hk _ (IHc & IHe & IHr)]; simpl; [done|].
  simpl in Hk. rewrite py_mod_pos by done.
  rewrite !filter_cons. simpl.
  destruct (decide (c `mod` interval task = 0)) as [Hdue|Hdue].
  - destruct (decide (c `mod` interval task ≠ 0)) as [|_]; [done|].
    destruct (execute_items c items) as [res evs]. simpl in *.
    destruct (cb_raises (func task)) eqn:Hraise; simpl.
    + rewrite decide_True by done. simpl. rewrite IHc.
      unfold error_logs, reschedules in *. simpl. by rewrite IHe, IHr.
    + rewrite decide_False by (by intros [_ ?]). rewrite IHc.
      unfold error_logs, reschedules in *. simpl. by rewrite IHe, IHr.
  - destruct (decide (c `mod` interval task ≠ 0)) as [_|Hn]; [|by destruct Hn].
    by rewrite decide_False by (by intros [? _]).
Qed.

Lemma ticker_shape self :
  wf self → _is_running self = true →
  ∃ ev_print ev_bcast,
    ticker self
    = (Ok tt, with_count (_count self + 1) self,
       ev_print ++ (execute_items (_count self + 1) (_tasks self)).2
                ++ ev_bcast ++ [EvCallLater (_interval self)])
    ∧ (ev_print = [] ∨ ev_print = [EvLog INFO "heartbeat"])
    ∧ (ev_bcast = [] ∨ ev_bcast = [EvLog DEBUG "alive broadcast"]).
Proof.
  intros [_ Hpos] Hr. unfold ticker, _execute_tasks. rewrite Hr. simpl.
  pose proof (execute_items_ok (_count self + 1) _ Hpos) as Hok.
  destruct (execute_items (_count self + 1) (_tasks self)) as [res evs].
  simpl in Hok. subst res.
  eexists _, _. split; [reflexivity|].
  split; case_decide; auto.
Qed.

(** X4. On an activation the due callbacks are invoked in the order of the
    task table, which is the order of registration: a task registered
    under a new identifier comes after every task registered before. *)
Theorem ticker_invokes_in_registration_order (self : t) :
  wf self → _is_running self = true →
  call_ids (ticker self).2 = due (_count self + 1) (_tasks self)
  ∧ ∀ f i a kw g c,
      1 ≤ i →
      PyDict.get (uuid_of g (uuid_next g)) (_tasks self) = None →
      due c (_tasks (register f i a kw self g).1.1.2)
      = due c (_tasks self)
        ++ (if decide (c `mod` i = 0) then [uuid_of g (uuid_next g)] else []).
Proof.
  intros Hwf Hr. split.
  - destruct (ticker_shape self Hwf Hr) as (evp & evb & -> & Hp & Hb). simpl.
    destruct Hwf as [_ Hpos].
    destruct (execute_items_shape (_count self + 1) _ Hpos) as (Hc & _ & _).
    rewrite !call_ids_app, Hc.
    by destruct Hp as [-> | ->], Hb as [-> | ->]; simpl; rewrite app_nil_r.
  - intros f i a kw g c Hi Hfresh. unfold register.
    rewrite decide_False by lia. simpl.
    rewrite set_item_fresh by done. unfold due.
    rewrite filter_app, fmap_app, filter_cons, filter_nil. simpl.
    by case_decide.
Qed.

Lemma ticker_invokes_in_registration_order_witness :
  (wf SampleOrder.hb ∧ _is_running SampleOrder.hb = true)
  ∧ call_ids (ticker SampleOrder.hb).2 = ["task-0"; "task-2"]
  ∧ (1 ≤ 6
     ∧ PyDict.get (uuid_of SampleOrder.gen (uuid_next SampleOrder.gen))
         (_tasks SampleOrder.hb) = None)
  ∧ due 6 (_tasks (register Sample.cb_A 6 [] [] SampleOrder.hb
                     SampleOrder.gen).1.1.2)
    = ["task-0"; "task-2"; "task-3"]
  ∧ due 8 (_tasks (register Sample.cb_A 6 [] [] SampleOrder.hb
                     SampleOrder.gen).1.1.2)
    = ["task-1"; "task-2"].
Proof.
  assert (Hwf : wf SampleOrder.hb).
  { split; simpl; [|repeat constructor; simpl; lia].
    repeat (apply NoDup_cons; split;
            [intros Hin;
             repeat (apply elem_of_cons in Hin as [Hin|Hin]; [discriminate|]);
             by apply elem_of_nil in Hin|]).
    apply NoDup_nil_2. }
  assert (Hnew : PyDict.get (uuid_of SampleOrder.gen (uuid_next SampleOrder.gen))
                   (_tasks SampleOrder.hb) = None) by reflexivity.
  split; [by split|].
  destruct (ticker_invokes_in_registration_order SampleOrder.hb Hwf eq_refl)
    as [Hcalls Hreg].
  split; [rewrite Hcalls; reflexivity|].
  split; [split; [lia | exact Hnew]|].
  split.
  - rewrite (Hreg Sample.cb_A 6 [] [] SampleOrder.gen 6 ltac:(lia) Hnew).
    reflexivity.
  - rewrite (Hreg Sample.cb_A 6 [] [] SampleOrder.gen 8 ltac:(lia) Hnew).
    reflexivity.
Defined.

Lemma ticker_counts self :
  wf self → _is_running self = true →
  call_ids (ticker self).2 = due (_count self + 1) (_tasks self)
  ∧ reschedules (ticker self).2 = 1%nat.
Proof.
  intros Hwf Hr.
  destruct (ticker_shape self Hwf Hr) as (evp & evb & -> & Hp & Hb). simpl.
  destruct Hwf as [_ Hpos].
  destruct (execute_items_shape (_count self + 1) _ Hpos) as (Hc & _ & Hs).
  rewrite !call_ids_app, !reschedules_app, Hc, Hs.
  by destruct Hp as [-> | ->], Hb as [-> | ->]; simpl;
    rewrite ?app_nil_r, ?Nat.add_0_r.
Qed.

(** X5. A callback whose call raises does not disturb the activation: the
    activation still returns normally, every due callback is still
    invoked, one error is logged per failing call, and the next
    activation is scheduled exactly once. *)
Theorem ticker_isolates_failing_callbacks (self : t) :
  wf self → _is_running self = true →
  (ticker self).1.1 = Ok tt
  ∧ call_ids (ticker self).2 = due (_count self + 1) (_tasks self)
  ∧ error_logs (ticker self).2
    = length (due_raising (_count self + 1) (_tasks self))
  ∧ reschedules (ticker self).2 = 1%nat
  ∧ last (ticker self).2 = Some (EvCallLater (_interval self)).
Proof.
  intros Hwf Hr.
  destruct (ticker_shape self Hwf Hr) as (evp & evb & -> & Hp & Hb). simpl.
  destruct Hwf as [_ Hpos].
  destruct (execute_items_shape (_count self + 1) _ Hpos) as (Hc & He & Hs).
  rewrite !call_ids_app, !error_logs_app, !reschedules_app, Hc, He, Hs.
  rewrite !app_assoc, last_snoc.
  by destruct Hp as [-> | ->], Hb as [-> | ->]; simpl;
    rewrite ?app_nil_r, ?Nat.add_0_r.
Qed.

Lemma ticker_isolates_failing_callbacks_witness :
  (wf SampleMixed.hb ∧ _is_running SampleMixed.hb = true)
  ∧ call_ids (ticker SampleMixed.hb).2 = ["task-0"; "task-1"]
  ∧ error_logs (ticker SampleMixed.hb).2 = 1%nat
  ∧ launches "task-1" (ticker SampleMixed.hb).2 = 1%nat.
Proof.
  assert (Hwf : wf SampleMixed.hb).
  { split; simpl; [|repeat constructor].
    apply NoDup_cons. split; [|apply NoDup_singleton].
    intros Hin%list_elem_of_singleton. discriminate. }
  split; [by split|].
  destruct (ticker_isolates_failing_callbacks SampleMixed.hb Hwf eq_refl)
    as (_ & Hcalls & Herr & _).
  rewrite Hcalls, Herr. split_and!; reflexivity.
Defined.

(** *** Stopping, starting twice, clearing *)

Lemma run_ticks_stopped n self :
  _is_running self = false → run_ticks n self = (self, replicate n []).
Proof.
  intros Hr. induction n as [|n IH]; simpl; [done|].
  by rewrite ticker_stopped, IH.
Qed.

(** X6. After [stop()] the activations that are still pending do nothing:
    however many of them fire, the counter and the table stay as they
    are, no callback is invoked and no further activation is scheduled;
    and [stop()] twice is [stop()] once. *)
Theorem stopped_scheduler_is_silent (self : t) (n : nat) :
  run_ticks n (stop self).1 = ((stop self).1, replicate n [])
  ∧ _count (stop self).1 = _count self
  ∧ _tasks (stop self).1 = _tasks self
  ∧ (stop (stop self).1).1 = (stop self).1.
Proof. split; [by apply run_ticks_stopped | done]. Qed.

Lemma fire_running (l : HeartBeatLoop.t) :
  wf (HeartBeatLoop.scheduler l) →
  _is_running (HeartBeatLoop.scheduler l) = true →
  (0 < HeartBeatLoop.pending l)%nat →
  wf (HeartBeatLoop.scheduler (HeartBeatLoop.fire l))
  ∧ _is_running (HeartBeatLoop.scheduler (HeartBeatLoop.fire l)) = true
  ∧ HeartBeatLoop.pending (HeartBeatLoop.fire l) = HeartBeatLoop.pending l
  ∧ _count (HeartBeatLoop.scheduler (HeartBeatLoop.fire l))
    = _count (HeartBeatLoop.scheduler l) + 1.
Proof.
  destruct l as [self p]. simpl. intros Hwf Hr Hp.
  destruct p as [|p]; [lia|]. unfold HeartBeatLoop.fire. simpl.
  destruct (ticker_counts self Hwf Hr) as (_ & Hres).
  pose proof (wf_ticker self Hwf) as Hwf'.
  destruct (ticker_shape self Hwf Hr) as (evp & evb & Ht & _ & _).
  rewrite Ht in Hres, Hwf' |- *. simpl in *.
  split_and!; [done | done | lia | done].
Qed.

Lemma fire_chain (l : HeartBeatLoop.t) (n : nat) :
  wf (HeartBeatLoop.scheduler l) →
  _is_running (HeartBeatLoop.scheduler l) = true →
  (0 < HeartBeatLoop.pending l)%nat →
  wf (HeartBeatLoop.scheduler (Nat.iter n HeartBeatLoop.fire l))
  ∧ _is_running (HeartBeatLoop.scheduler (Nat.iter n HeartBeatLoop.fire l)) = true
  ∧ HeartBeatLoop.pending (Nat.iter n HeartBeatLoop.fire l) = HeartBeatLoop.pending l
  ∧ _count (HeartBeatLoop.scheduler (Nat.iter n HeartBeatLoop.fire l))
    = _count (HeartBeatLoop.scheduler l) + Z.of_nat n.
Proof.
  intros Hwf Hr Hp. induction n as [|n (IHwf & IHr & IHp & IHc)].
  - simpl. split_and!; [done | done | done | lia].
  - rewrite !Nat.iter_succ.
    destruct (fire_running (Nat.iter n HeartBeatLoop.fire l) IHwf IHr)
      as (Hwf' & Hr' & Hp' & Hc'); [lia|].
    split_and!; [done | done | lia | lia].
Qed.

(** X7. On a scheduler with no activation pending, two [start()] calls in
    a row leave exactly one chain of activations: the second call
    changes nothing and only logs a warning, one [call_later] handle is
    pending after it, and exactly one is pending after each of any
    number of later activations, the counter advancing by one per
    activation.  This depends on no handle being pending: [stop()]
    cancels none, so [start()], [stop()], [start()] in a row leaves two
    pending handles on a running scheduler. *)
Theorem start_twice_starts_once (self : t) (n : nat) :
  wf self → _is_running self = false →
  let idle := HeartBeatLoop.mkLoop self 0 in
  let l := HeartBeatLoop.call_start (HeartBeatLoop.call_start idle) in
  start (start self).1.2
  = (Ok tt, (start self).1.2, [EvLog WARNING "heartbeat already running"])
  ∧ HeartBeatLoop.scheduler l = (start self).1.2
  ∧ _is_running (HeartBeatLoop.scheduler l) = true
  ∧ HeartBeatLoop.pending l = 1%nat
  ∧ HeartBeatLoop.pending (Nat.iter n HeartBeatLoop.fire l) = 1%nat
  ∧ _count (HeartBeatLoop.scheduler (Nat.iter n HeartBeatLoop.fire l))
    = 1 + Z.of_nat n
  ∧ HeartBeatLoop.pending
      (HeartBeatLoop.call_start
         (HeartBeatLoop.call_stop (HeartBeatLoop.call_start idle))) = 2%nat.
Proof.
  intros Hwf Hr. cbv zeta.
  set (self0 := with_count 0 (with_is_running true self)).
  assert (Hwf0 : wf self0) by (by destruct Hwf).
  destruct (ticker_counts self0 Hwf0 eq_refl) as (_ & Hres).
  destruct (ticker_shape self0 Hwf0 eq_refl) as (evp & evb & Ht & _ & _).
  assert (Hstart : start self
                   = (Ok tt, with_count (_count self0 + 1) self0,
                      EvLog INFO "heartbeat started"
                      :: evp ++ (execute_items (_count self0 + 1) (_tasks self0)).2
                             ++ evb ++ [EvCallLater (_interval self0)])).
  { rewrite (start_stopped self Hr). fold self0. by rewrite Ht. }
  rewrite Ht in Hres. cbn [snd] in Hres.
  assert (Hone : HeartBeatLoop.call_start (HeartBeatLoop.mkLoop self 0)
                 = HeartBeatLoop.mkLoop (with_count (_count self0 + 1) self0) 1).
  { unfold HeartBeatLoop.call_start. cbn [HeartBeatLoop.scheduler HeartBeatLoop.pending].
    rewrite Hstart. f_equal. unfold reschedules in *. simpl. exact Hres. }
  assert (Hwf1 : wf (with_count (_count self0 + 1) self0)) by (by destruct Hwf).
  rewrite Hone, Hstart. cbn [fst snd].
  assert (Htwo : HeartBeatLoop.call_start
                   (HeartBeatLoop.mkLoop (with_count (_count self0 + 1) self0) 1)
                 = HeartBeatLoop.mkLoop (with_count (_count self0 + 1) self0) 1).
  { unfold HeartBeatLoop.call_start. cbn [HeartBeatLoop.scheduler HeartBeatLoop.pending].
    rewrite start_running by done. done. }
  rewrite Htwo.
  destruct (fire_chain (HeartBeatLoop.mkLoop (with_count (_count self0 + 1) self0) 1) n)
    as (_ & _ & Hp & Hc); [done | done | simpl; lia |].
  split_and!; [by rewrite start_running | done | done | done | exact Hp | |].
  - rewrite Hc. simpl. lia.
  - unfold HeartBeatLoop.call_stop, HeartBeatLoop.call_start.
    cbn [HeartBeatLoop.scheduler HeartBeatLoop.pending stop fst].
    set (stopped := with_is_running false (with_count (_count self0 + 1) self0)).
    assert (Hwfs : wf (with_count 0 (with_is_running true stopped)))
      by (by destruct Hwf).
    rewrite (start_stopped stopped) by done.
    destruct (ticker_counts _ Hwfs eq_refl) as (_ & Hres').
    destruct (ticker _) as [[res self'] evs]. cbn [snd] in Hres'.
    unfold reschedules in *. simpl. rewrite Hres'. done.
Qed.

Lemma start_twice_starts_once_witness :
  (wf SampleIdle.hb ∧ _is_running SampleIdle.hb = false)
  ∧ HeartBeatLoop.pending
      (Nat.iter 4 HeartBeatLoop.fire
         (HeartBeatLoop.call_start
            (HeartBeatLoop.call_start (HeartBeatLoop.mkLoop SampleIdle.hb 0))))
    = 1%nat
  ∧ _count
      (HeartBeatLoop.scheduler
         (Nat.iter 4 HeartBeatLoop.fire
            (HeartBeatLoop.call_start
               (HeartBeatLoop.call_start (HeartBeatLoop.mkLoop SampleIdle.hb 0)))))
    = 5.
Proof.
  assert (Hwf : wf SampleIdle.hb).
  { split; simpl; [apply NoDup_singleton | repeat constructor; simpl; lia]. }
  split; [by split|].
  destruct (start_twice_starts_once SampleIdle.hb 4 Hwf eq_refl)
    as (_ & _ & _ & _ & Hp & Hc & _).
  split; [exact Hp | exact Hc].
Defined.

(** X8. From [start()] on, after [n] activations in all, a task with
    interval [i] has been invoked [n / i] times (integer division), and,
    when its call does not raise, launched as often. *)
Theorem invocations_after_n_activations
    (self : t) (task_id : string) (task : Task) (n : nat) :
  wf self → _is_running self = false →
  PyDict.get task_id (_tasks self) = Some task →
  Z.of_nat (total_calls task_id (start_and_run n self).2)
  = Z.of_nat (S n) `div` interval task
  ∧ length (start_and_run n self).2 = S n
  ∧ _count (start_and_run n self).1 = Z.of_nat (S n)
  ∧ (cb_raises (func task) = false →
       total_launches task_id (start_and_run n self).2
       = total_calls task_id (start_and_run n self).2).
Proof.
  intros Hwf Hr Hget.
  destruct (start_and_run_spec n self task_id task Hwf Hr Hget)
    as (ticks & -> & Hlen & Hk & Htot).
  simpl. split_and!; [done | done | done |].
  intros Hnr. apply total_launches_calls.
  intros k evs Hlook. destruct (Hk k evs Hlook) as [_ ->]. by rewrite Hnr.
Qed.

Lemma invocations_after_n_activations_witness :
  (wf (stop Sample.hb_A3).1 ∧ _is_running (stop Sample.hb_A3).1 = false
   ∧ PyDict.get "task-0" (_tasks (stop Sample.hb_A3).1)
     = Some (mkTask Sample.cb_A 3 [] []))
  ∧ Z.of_nat (total_calls "task-0" (start_and_run 9 (stop Sample.hb_A3).1).2) = 3.
Proof.
  assert (Hwf : wf (stop Sample.hb_A3).1).
  { split; simpl; [apply NoDup_singleton | repeat constructor]. }
  split; [by split_and!|].
  destruct (invocations_after_n_activations (stop Sample.hb_A3).1 "task-0"
              (mkTask Sample.cb_A 3 [] []) 9 Hwf eq_refl eq_refl)
    as (Htotal & _).
  rewrite Htotal. reflexivity.
Defined.

Lemma run_ticks_no_tasks n self :
  _is_running self = true → _tasks self = [] →
  ∃ ticks,
    run_ticks n self = (with_count (_count self + Z.of_nat n) self, ticks)
    ∧ length ticks = n
    ∧ Forall (λ evs, call_ids evs = [] ∧ reschedules evs = 1%nat) ticks.
Proof.
  revert self. induction n as [|n IH]; intros self Hr Htasks.
  - exists []. simpl. split_and!; [|done|done].
    destruct self; unfold with_count; simpl. do 2 f_equal. lia.
  - assert (Hwf : wf self) by (split; rewrite Htasks; constructor).
    destruct (ticker_counts self Hwf Hr) as (Hcalls & Hres).
    destruct (ticker_shape self Hwf Hr) as (evp & evb & Ht & _ & _).
    rewrite Ht in Hcalls, Hres. simpl in Hcalls, Hres.
    destruct (IH (with_count (_count self + 1) self) Hr Htasks)
      as (ticks & Hrun & Hlen & Hall).
    eexists (_ :: ticks). simpl. rewrite Ht, Hrun. split_and!.
    + f_equal. unfold with_count; simpl. f_equal. lia.
    + simpl. by rewrite Hlen.
    + constructor; [|done]. split; [|done].
      rewrite Hcalls, Htasks. done.
Qed.

(** X9. [clear_tasks()] empties the table: the task count is 0 and no
    identifier can be unregistered any more; a running scheduler keeps
    ticking, each activation invoking nothing and scheduling the next. *)
Theorem clear_tasks_leaves_an_idle_scheduler (self : t) (n : nat) :
  _is_running self = true →
  get_task_count (clear_tasks self).1 = 0
  ∧ (∀ task_id, (unregister task_id (clear_tasks self).1).1.1 = false)
  ∧ ∃ ticks,
      run_ticks n (clear_tasks self).1
      = (with_count (_count self + Z.of_nat n) (clear_tasks self).1, ticks)
      ∧ length ticks = n
      ∧ Forall (λ evs, call_ids evs = [] ∧ reschedules evs = 1%nat) ticks.
Proof.
  intros Hr. split; [done|]. split; [done|].
  by apply (run_ticks_no_tasks n (clear_tasks self).1).
Qed.

Lemma clear_tasks_leaves_an_idle_scheduler_witness :
  _is_running Sample.hb_A3 = true
  ∧ ∃ ticks,
      run_ticks 3 (clear_tasks Sample.hb_A3).1
      = (with_count 5 (clear_tasks Sample.hb_A3).1, ticks)
      ∧ length ticks = 3%nat.
Proof.
  split; [reflexivity|].
  destruct (clear_tasks_leaves_an_idle_scheduler Sample.hb_A3 3 eq_refl)
    as (_ & _ & ticks & Hrun & Hlen & _).
  exists ticks. split; [exact Hrun | exact Hlen].
Defined.

(** *** The heartbeat log and the alive broadcast *)

Lemma execute_items_events c items ev :
  ev ∈ (execute_items c items).2 →
  match ev with
  | EvCall _ _ | EvCreateTask _ _ | EvLog ERROR _ => True
  | _ => False
  end.
Proof.
  induction items as [|[task_id task] items IH]; simpl.
  - by intros ?%elem_of_nil.
  - unfold py_mod. destruct (decide (interval task = 0)); simpl.
    + by intros ?%elem_of_nil.
    + destruct (decide (c `mod` interval task ≠ 0)); [done|].
      destruct (execute_items c items) as [res evs]. simpl in *.
      intros [->|Hin]%elem_of_cons; [done|].
      destruct (cb_raises (func task)); simpl in Hin.
      * apply elem_of_cons in Hin as [->|Hin]; [done | by apply IH].
      * apply elem_of_cons in Hin as [->|Hin]; [done | by apply IH].
Qed.

(** X10. An activation of a running scheduler logs the heartbeat line
    exactly when the configured print interval is positive and divides
    the new counter value, and broadcasts the alive signal exactly when
    the configured broadcast interval is positive and divides it; with
    an interval of 0 (the default when the configuration has no entry)
    or a negative one it never does. *)
Theorem ticker_prints_and_broadcasts_per_config (self : t) :
  wf self → _is_running self = true →
  (EvLog INFO "heartbeat" ∈ (ticker self).2
   ↔ 0 < _print_interval self ∧ (_print_interval self | _count self + 1))
  ∧ (EvLog DEBUG "alive broadcast" ∈ (ticker self).2
     ↔ 0 < _broadcast_interval self
       ∧ (_broadcast_interval self | _count self + 1)).
Proof.
  intros [_ Hall] Hrun.
  assert (Htick : ticker self
    = (Ok tt, with_count (_count self + 1) self,
       (if decide (0 < _print_interval self
                   ∧ (_count self + 1) `mod` _print_interval self = 0)
        then [EvLog INFO "heartbeat"] else [])
       ++ (execute_items (_count self + 1) (_tasks self)).2
       ++ (if decide (0 < _broadcast_interval self
                      ∧ (_count self + 1) `mod` _broadcast_interval self = 0)
           then [EvLog DEBUG "alive broadcast"] else [])
       ++ [EvCallLater (_interval self)])).
  { unfold ticker, _execute_tasks. rewrite Hrun. simpl.
    pose proof (execute_items_ok (_count self + 1) _ Hall) as Hok.
    destruct (execute_items (_count self + 1) (_tasks self)) as [res evs].
    simpl in Hok. by subst res. }
  rewrite Htick. cbn [snd].
  assert (Hex : ∀ ev, ev ∈ (execute_items (_count self + 1) (_tasks self)).2 →
                      ev ≠ EvLog INFO "heartbeat"
                      ∧ ev ≠ EvLog DEBUG "alive broadcast").
  { intros ev Hin%execute_items_events. split; intros ->; done. }
  set (P := 0 < _print_interval self
            ∧ (_count self + 1) `mod` _print_interval self = 0).
  set (B := 0 < _broadcast_interval self
            ∧ (_count self + 1) `mod` _broadcast_interval self = 0).
  assert (HP : P ↔ 0 < _print_interval self
                   ∧ (_print_interval self | _count self + 1)).
  { unfold P. split; intros [? ?]; (split; [done|]);
      apply Z.mod_divide; (lia || done). }
  assert (HB : B ↔ 0 < _broadcast_interval self
                   ∧ (_broadcast_interval self | _count self + 1)).
  { unfold B. split; intros [? ?]; (split; [done|]);
      apply Z.mod_divide; (lia || done). }
  rewrite <- HP, <- HB. clear HP HB.
  rewrite !elem_of_app.
  destruct (decide P) as [HP|HP]; destruct (decide B) as [HB|HB];
    rewrite ?list_elem_of_singleton, ?elem_of_nil;
    (split;
     (split;
      [ intros [H|[H|[H|H]]]; try done; try (by destruct (Hex _ H))
      | intros H; try done; auto ])).
Qed.

Lemma ticker_prints_and_broadcasts_per_config_witness :
  EvLog INFO "heartbeat"
  ∈ (ticker (mkHeartBeat 2 1 true (_tasks Sample.hb_A3) 3 0)).2.
Proof.
  apply (ticker_prints_and_broadcasts_per_config
           (mkHeartBeat 2 1 true (_tasks Sample.hb_A3) 3 0)).
  - split; simpl; [repeat constructor; set_solver | repeat constructor; simpl; lia].
  - reflexivity.
  - split; [simpl; lia | by exists 1].
Defined.

End HeartBeatMore.

(** ** More on the connection *)

Module WebSocketClientMore.
Import WebSocketClient WebSocketClientFacts WebSocketObs.

Ltac new_events_by_trace :=
  unfold new_events; simpl; rewrite <- ?app_assoc; simpl;
  rewrite drop_app_length; reflexivity.

Lemma connect_total env c : ∃ b, (exec env connect c).2 = Ok b.
Proof.
  unfold exec, connect. cbn -[try_except interleave].
  case_bool_decide; cbn -[try_except interleave]; [by eexists|].
  match goal with |- ∃ b, (run _ _ (try_except ?body ?h) ?c0).2 = _ =>
    pose proof (run_try_except_ok env (interleave env) body h c0) as Hok
  end.
  destruct (run _ _ _ _) as [c' [b|e]]; simpl in *; [by eexists|].
  exfalso. assert (false = true); [|done]. apply Hok.
  intros e' c''. by destruct e'.
Qed.

(** X11. [connect()] never raises, whatever runs meanwhile.  When the
    handshake fails (the network refuses it, or the session was closed)
    it returns [False] and leaves the client [DISCONNECTED], with its
    socket field and its reconnect counter as they were; [on_connect]
    is not run and no receive loop is started. *)
Theorem connect_failure_returns_false (env : nat → Step) (c : Cfg) :
  (∃ b, (exec env connect c).2 = Ok b)
  ∧ (guard_passes c →
     (∃ e, connect_raises (env (clock c)) = Some e)
     ∨ _session (client (sys c)) = Some (mkSession true) →
     (exec0 env connect c).2 = Ok false
     ∧ _state (client (sys (exec0 env connect c).1)) = DISCONNECTED
     ∧ _ws (client (sys (exec0 env connect c).1)) = _ws (client (sys c))
     ∧ _reconnect_count (client (sys (exec0 env connect c).1))
       = _reconnect_count (client (sys c))
     ∧ ∃ site,
         new_events c (exec0 env connect c).1
         = [EvState CONNECTING; EvLog INFO "connecting"; EvWsConnect false;
            EvState DISCONNECTED; EvLog ERROR site]).
Proof.
  split; [apply connect_total|].
  intros [Hg1 Hg2] Hfail.
  destruct c as [[cl subs h g] tr k].
  destruct cl as [url ci si ar mx sess ws st cnt msg t1 t2].
  simpl in *. unfold exec0, connect. cbn.
  rewrite bool_decide_false by (by intros [?|?]).
  cbn.
  destruct Hfail as [[e He] | ->].
  - destruct sess as [[[]]|]; cbn; rewrite ?He; destruct e; cbn;
      (split_and!; [done | done | done | done |]);
      eexists; new_events_by_trace.
  - cbn. split_and!; [done | done | done | done |].
    eexists; new_events_by_trace.
Qed.

Lemma connect_failure_returns_false_witness :
  (guard_passes (Scenario.dropped 0 1)
   ∧ ∃ e, connect_raises (Scenario.refusing (clock (Scenario.dropped 0 1))) = Some e)
  ∧ (exec0 Scenario.refusing connect (Scenario.dropped 0 1)).2 = Ok false
  ∧ _reconnect_count
      (client (sys (exec0 Scenario.refusing connect (Scenario.dropped 0 1)).1)) = 1.
Proof.
  assert (Hg : guard_passes (Scenario.dropped 0 1)) by (by split).
  assert (He : ∃ e, connect_raises (Scenario.refusing (clock (Scenario.dropped 0 1)))
                    = Some e) by (by eexists).
  split; [by split|].
  destruct (connect_failure_returns_false Scenario.refusing (Scenario.dropped 0 1))
    as [_ Hfail].
  destruct (Hfail Hg (or_introl He)) as (Hres & _ & _ & Hcnt & _).
  split; [exact Hres | exact Hcnt].
Defined.

(** X12. A [connect()] whose handshake and [on_connect] hook both succeed
    returns [True] with the client [CONNECTED]: the session exists, the
    new socket is stored and open, the reconnect counter is 0, the hook
    ran once and one receive loop was started, in that order. *)
Theorem connect_success_returns_true (env : nat → Step) (c : Cfg) :
  guard_passes c →
  _session (client (sys c)) ≠ Some (mkSession true) →
  connect_raises (env (clock c)) = None →
  hook_raises (env (S (clock c))) = None →
  (exec0 env connect c).2 = Ok true
  ∧ is_connected (client (sys (exec0 env connect c).1)) = true
  ∧ _ws (client (sys (exec0 env connect c).1)) = Some (mkWs false)
  ∧ _session (client (sys (exec0 env connect c).1)) = Some (mkSession false)
  ∧ _reconnect_count (client (sys (exec0 env connect c).1)) = 0
  ∧ new_events c (exec0 env connect c).1
    = [EvState CONNECTING; EvLog INFO "connecting"; EvWsConnect true;
       EvState CONNECTED; EvLog INFO "connected"; EvOnConnect;
       EvSpawn "_receive_loop"].
Proof.
  intros [Hg1 Hg2] Hsess Hc Hh.
  destruct c as [[cl subs h g] tr k].
  destruct cl as [url ci si ar mx sess ws st cnt msg t1 t2].
  simpl in *. unfold exec0, connect. cbn.
  rewrite bool_decide_false by (by intros [?|?]).
  cbn.
  destruct sess as [[[]]|]; [done | |]; cbn; rewrite Hc; cbn; rewrite Hh; cbn;
    (split_and!; [done | done | done | done | done |]); new_events_by_trace.
Qed.

Lemma connect_success_returns_true_witness :
  (guard_passes (Scenario.dropped 0 1)
   ∧ _session (client (sys (Scenario.dropped 0 1))) ≠ Some (mkSession true)
   ∧ connect_raises (Scenario.all_quiet 0%nat) = None)
  ∧ (exec0 Scenario.all_quiet connect (Scenario.dropped 0 1)).2 = Ok true
  ∧ _reconnect_count
      (client (sys (exec0 Scenario.all_quiet connect (Scenario.dropped 0 1)).1)) = 0.
Proof.
  assert (Hg : guard_passes (Scenario.dropped 0 1)) by (by split).
  assert (Hs : _session (client (sys (Scenario.dropped 0 1))) ≠ Some (mkSession true))
    by discriminate.
  split; [by split_and!|].
  destruct (connect_success_returns_true Scenario.all_quiet (Scenario.dropped 0 1)
              Hg Hs eq_refl eq_refl) as (Hres & _ & _ & _ & Hcnt & _).
  split; [exact Hres | exact Hcnt].
Defined.

(** X13. When the handshake succeeds but the [on_connect] hook raises,
    [connect()] reports failure: it returns [False] and the state is
    [DISCONNECTED].  The socket it opened stays stored and open, the
    reconnect counter has been reset to 0, and no receive loop reads
    the socket. *)
Theorem connect_hook_failure_keeps_socket (env : nat → Step) (c : Cfg) (e : exn) :
  guard_passes c →
  _session (client (sys c)) ≠ Some (mkSession true) →
  connect_raises (env (clock c)) = None →
  hook_raises (env (S (clock c))) = Some e →
  (exec0 env connect c).2 = Ok false
  ∧ _state (client (sys (exec0 env connect c).1)) = DISCONNECTED
  ∧ is_connected (client (sys (exec0 env connect c).1)) = false
  ∧ _ws (client (sys (exec0 env connect c).1)) = Some (mkWs false)
  ∧ _reconnect_count (client (sys (exec0 env connect c).1)) = 0
  ∧ spawned "_receive_loop" (new_events c (exec0 env connect c).1) = 0%nat
  ∧ states (new_events c (exec0 env connect c).1)
    = [CONNECTING; CONNECTED; DISCONNECTED].
Proof.
  intros [Hg1 Hg2] Hsess Hc Hh.
  destruct c as [[cl subs h g] tr k].
  destruct cl as [url ci si ar mx sess ws st cnt msg t1 t2].
  simpl in *. unfold exec0, connect. cbn.
  rewrite bool_decide_false by (by intros [?|?]).
  cbn.
  destruct sess as [[[]]|]; [done | |]; cbn; rewrite Hc; cbn; rewrite Hh;
    destruct e; cbn;
    (split_and!; [done | done | done | done | done | |]);
    unfold new_events; simpl; rewrite <- ?app_assoc; simpl;
    rewrite drop_app_length; reflexivity.
Qed.

Lemma connect_hook_failure_keeps_socket_witness :
  (guard_passes (Scenario.dropped 0 1)
   ∧ hook_raises (ScenarioMore.hook_fails 1%nat) = Some OtherException)
  ∧ (exec0 ScenarioMore.hook_fails connect (Scenario.dropped 0 1)).2 = Ok false
  ∧ _ws (client (sys (exec0 ScenarioMore.hook_fails connect
                        (Scenario.dropped 0 1)).1)) = Some (mkWs false).
Proof.
  assert (Hg : guard_passes (Scenario.dropped 0 1)) by (by split).
  assert (Hs : _session (client (sys (Scenario.dropped 0 1))) ≠ Some (mkSession true))
    by discriminate.
  split; [by split|].
  destruct (connect_hook_failure_keeps_socket ScenarioMore.hook_fails
              (Scenario.dropped 0 1) OtherException Hg Hs eq_refl eq_refl)
    as (Hres & _ & _ & Hws & _).
  split; [exact Hres | exact Hws].
Defined.

(** *** [disconnect] *)

Lemma NoDup_keys_pop {V} k (d : list (string * V)) :
  NoDup (PyDict.keys d) → NoDup (PyDict.keys (PyDict.pop k d)).
Proof. intros Hnd. eapply sublist_NoDup; [done | apply keys_pop_sublist]. Qed.

Lemma unregister_get task_id k (h : HeartBeat.t) :
  HeartBeat.wf h →
  PyDict.get k (HeartBeat._tasks (HeartBeat.unregister task_id h).1.2)
  = if decide (k = task_id) then None else PyDict.get k (HeartBeat._tasks h).
Proof.
  intros [Hnd _]. unfold HeartBeat.unregister, PyDict.mem.
  destruct (PyDict.get task_id (HeartBeat._tasks h)) eqn:Hget; simpl.
  - case_decide as Hk; [subst; by apply get_pop_eq | by apply get_pop_ne].
  - case_decide as Hk; [by subst | done].
Qed.

(** Running the building blocks of the methods. *)
Section Blocks.
Context (env : nat → Step) (others : Step → Cfg → Cfg).

Lemma run_ret {A} (a : A) c : run env others (mret a) c = (c, Ok a).
Proof. reflexivity. Qed.

Lemma run_log lvl site c :
  run env others (log lvl site) c = (emit (EvLog lvl site) c, Ok tt).
Proof. reflexivity. Qed.

Lemma run_get_self c : run env others get_self c = (c, Ok (client (sys c))).
Proof. reflexivity. Qed.

Lemma run_modify_self f c :
  run env others (modify_self f) c
  = (with_sys (with_client (f (client (sys c))) (sys c)) c, Ok tt).
Proof. reflexivity. Qed.

Lemma run_set_state st c :
  run env others (set_state st) c
  = (emit (EvState st)
       (with_sys (with_client (with_state st (client (sys c))) (sys c)) c), Ok tt).
Proof. reflexivity. Qed.

Lemma run_create_task name c :
  run env others (create_task name) c = (emit (EvSpawn name) c, Ok tt).
Proof. reflexivity. Qed.

Lemma run_emits {A} evs (k : Co A) c :
  run env others (emits evs ≫= λ _, k) c
  = run env others k (mkCfg (sys c) (trace c ++ evs) (clock c)).
Proof.
  revert c. induction evs as [|ev evs IH]; intros c.
  - destruct c. simpl. by rewrite app_nil_r.
  - change (run env others (emits (ev :: evs) ≫= λ _, k) c)
      with (run env others (emits evs ≫= λ _, k) (emit ev c)).
    rewrite IH. simpl. by rewrite <- app_assoc.
Qed.

Lemma run_heartbeat_unregister task_id c :
  run env others (heartbeat_unregister task_id) c
  = (mkCfg (with_heartbeat
              (HeartBeat.unregister task_id (heartbeat (sys c))).1.2
              (uuids (sys c)) (sys c))
           (trace c ++ (HeartBeat.unregister task_id (heartbeat (sys c))).2)
           (clock c),
     Ok (HeartBeat.unregister task_id (heartbeat (sys c))).1.1).
Proof.
  unfold heartbeat_unregister. cbn [run].
  destruct (HeartBeat.unregister task_id (heartbeat (sys c))) as [[found h] evs].
  cbn [run]. by rewrite run_emits.
Qed.

Lemma run_heartbeat_register func interval c :
  run env others (heartbeat_register func interval) c
  = (mkCfg (with_heartbeat
              (HeartBeat.register func interval [] []
                 (heartbeat (sys c)) (uuids (sys c))).1.1.2
              (HeartBeat.register func interval [] []
                 (heartbeat (sys c)) (uuids (sys c))).1.2
              (sys c))
           (trace c ++ (HeartBeat.register func interval [] []
                          (heartbeat (sys c)) (uuids (sys c))).2)
           (clock c),
     (HeartBeat.register func interval [] []
        (heartbeat (sys c)) (uuids (sys c))).1.1.1).
Proof.
  unfold heartbeat_register. cbn [run].
  destruct (HeartBeat.register _ _ _ _ _ _) as [[[res h] g] evs].
  cbn [run]. rewrite run_emits. by destruct res.
Qed.

Lemma run_await a c :
  run env others (await a) c
  = complete a (env (clock c))
      (others (env (clock c)) (tick (issue a (env (clock c)) c))).
Proof.
  unfold await. simpl.
  by destruct (complete _ _ _) as [c' [[]|e]].
Qed.
End Blocks.

Ltac norm_cfg :=
  cbn [sys trace clock client heartbeat uuids _subscriptions
       emit with_sys with_client tick with_heartbeat
       with_state with_ws with_session with_reconnect_count
       with_check_task_id with_heartbeat_task_id with_heartbeat_msg
       _url _check_conn_interval _send_hb_interval _auto_reconnect
       _max_reconnect_attempts _session _ws _state _reconnect_count
       heartbeat_msg _check_task_id _heartbeat_task_id fst snd] in *.

Ltac co_step lem := rewrite run_bind, lem; cbv beta iota; norm_cfg.

Lemma run_unregister_if env others o f c :
  run env others
    (if truthy_id o is Some task_id
     then heartbeat_unregister task_id;; modify_self f
     else mret tt) c
  = (match truthy_id o with
     | Some i =>
         mkCfg
           (with_client (f (client (sys c)))
              (with_heartbeat
                 (HeartBeat.unregister i (heartbeat (sys c))).1.2
                 (uuids (sys c)) (sys c)))
           (trace c ++ (HeartBeat.unregister i (heartbeat (sys c))).2)
           (clock c)
     | None => c
     end, Ok tt).
Proof.
  destruct (truthy_id o) as [i|]; [|done].
  co_step run_heartbeat_unregister. by rewrite run_modify_self.
Qed.

Lemma run_close_ws env (ws : option Ws) c :
  close_raises (env (clock c)) = None →
  run env (λ _ c, c)
    (match ws with
     | Some w => if closed w then mret tt else await AwWsClose
     | None => mret tt
     end) c
  = (match ws with
     | Some (mkWs false) =>
         with_sys (with_client
                     (with_ws ((λ _, mkWs true) <$> _ws (client (sys c)))
                              (client (sys c))) (sys c))
                  (tick (emit EvWsClose c))
     | _ => c
     end, Ok tt).
Proof.
  intros Hcl. destruct ws as [[[]]|]; [done | | done].
  cbn [closed]. rewrite run_await. simpl. by rewrite Hcl.
Qed.

Lemma run_close_session env (s : option ClientSession) c :
  close_raises (env (clock c)) = None →
  run env (λ _ c, c)
    (match s with
     | Some x => if session_closed x then mret tt else await AwSessionClose
     | None => mret tt
     end) c
  = (match s with
     | Some (mkSession false) =>
         with_sys (with_client
                     (with_session
                        ((λ _, mkSession true) <$> _session (client (sys c)))
                        (client (sys c))) (sys c))
                  (tick (emit EvSessionClose c))
     | _ => c
     end, Ok tt).
Proof.
  intros Hcl. destruct s as [[[]]|]; [done | | done].
  cbn [session_closed]. rewrite run_await. simpl. by rewrite Hcl.
Qed.

(** [disconnect] as one step on the configuration, when closing the
    transport objects does not raise. *)
Lemma disconnect_run env c :
  (∀ n, close_raises (env n) = None) →
  ∃ c',
    exec0 env disconnect c = (emit (EvLog INFO "disconnected") c', Ok tt)
    ∧ heartbeat (sys c')
      = (let h1 := match truthy_id (_check_task_id (client (sys c))) with
                   | Some i => (HeartBeat.unregister i (heartbeat (sys c))).1.2
                   | None => heartbeat (sys c)
                   end in
         match truthy_id (_heartbeat_task_id (client (sys c))) with
         | Some i => (HeartBeat.unregister i h1).1.2
         | None => h1
         end)
    ∧ client (sys c')
      = with_session ((λ _, mkSession true) <$> _session (client (sys c)))
          (with_ws ((λ _, mkWs true) <$> _ws (client (sys c)))
             (with_heartbeat_task_id
                (if truthy_id (_heartbeat_task_id (client (sys c))) is Some _
                 then None else _heartbeat_task_id (client (sys c)))
                (with_check_task_id
                   (if truthy_id (_check_task_id (client (sys c))) is Some _
                    then None else _check_task_id (client (sys c)))
                   (with_state CLOSED (client (sys c))))))
    ∧ _subscriptions (sys c') = _subscriptions (sys c)
    ∧ uuids (sys c') = uuids (sys c)
    ∧ trace c'
      = trace c ++ [EvLog INFO "disconnecting"; EvState CLOSED]
        ++ match truthy_id (_check_task_id (client (sys c))) with
           | Some i => (HeartBeat.unregister i (heartbeat (sys c))).2
           | None => []
           end
        ++ match truthy_id (_heartbeat_task_id (client (sys c))) with
           | Some i =>
               (HeartBeat.unregister i
                  match truthy_id (_check_task_id (client (sys c))) with
                  | Some i => (HeartBeat.unregister i (heartbeat (sys c))).1.2
                  | None => heartbeat (sys c)
                  end).2
           | None => []
           end
        ++ (if _ws (client (sys c)) is Some (mkWs false) then [EvWsClose] else [])
        ++ (if _session (client (sys c)) is Some (mkSession false)
            then [EvSessionClose] else []).
Proof.
  intros Hcl. unfold exec0, disconnect.
  co_step run_log. co_step run_set_state. co_step run_get_self.
  co_step run_unregister_if. co_step run_get_self.
  co_step run_unregister_if. co_step run_get_self.
  rewrite run_bind, run_close_ws by apply Hcl. cbv beta iota.
  co_step run_get_self.
  rewrite run_bind, run_close_session by apply Hcl. cbv beta iota.
  rewrite run_log. eexists. split; [reflexivity|].
  destruct c as [[cl subs h g] tr k].
  destruct cl as [url ci si ar mx sess ws st cnt msg t1 t2]. norm_cfg.
  destruct (truthy_id t1) as [i1|]; norm_cfg;
    destruct (truthy_id t2) as [i2|]; norm_cfg;
    destruct ws as [[[]]|]; norm_cfg;
    destruct sess as [[[]]|]; norm_cfg;
    (split_and!; [done | done | done | done |]);
    rewrite <- ?app_assoc; simpl; by rewrite ?app_nil_r.
Qed.

(** X14. [disconnect()], when closing the socket and the session does not
    raise, leaves the client [CLOSED] and not connected, with no task
    identifier, its socket and session closed; the two periodic tasks
    are gone from the scheduler, whose other tasks are untouched. *)
Theorem disconnect_closes_everything (env : nat → Step) (c : Cfg) :
  HeartBeat.wf (heartbeat (sys c)) →
  (∀ n, close_raises (env n) = None) →
  (exec0 env disconnect c).2 = Ok tt
  ∧ _state (client (sys (exec0 env disconnect c).1)) = CLOSED
  ∧ is_connected (client (sys (exec0 env disconnect c).1)) = false
  ∧ truthy_id (_check_task_id (client (sys (exec0 env disconnect c).1))) = None
  ∧ truthy_id (_heartbeat_task_id (client (sys (exec0 env disconnect c).1))) = None
  ∧ (∀ ws, _ws (client (sys (exec0 env disconnect c).1)) = Some ws →
           closed ws = true)
  ∧ (∀ s, _session (client (sys (exec0 env disconnect c).1)) = Some s →
          session_closed s = true)
  ∧ (∀ i, truthy_id (_check_task_id (client (sys c))) = Some i
          ∨ truthy_id (_heartbeat_task_id (client (sys c))) = Some i →
          PyDict.get i (HeartBeat._tasks
                          (heartbeat (sys (exec0 env disconnect c).1))) = None)
  ∧ (∀ k, truthy_id (_check_task_id (client (sys c))) ≠ Some k →
          truthy_id (_heartbeat_task_id (client (sys c))) ≠ Some k →
          PyDict.get k (HeartBeat._tasks
                          (heartbeat (sys (exec0 env disconnect c).1)))
          = PyDict.get k (HeartBeat._tasks (heartbeat (sys c))))
  ∧ HeartBeat.wf (heartbeat (sys (exec0 env disconnect c).1)).
Proof.
  intros Hwf Hcl.
  destruct (disconnect_run env c Hcl) as (c' & -> & Hh & Hcli & _ & _ & _).
  simpl. rewrite Hh, Hcli. clear Hh Hcli c'.
  destruct c as [[cl subs h g] tr k].
  destruct cl as [url ci si ar mx sess ws st cnt msg t1 t2]. norm_cfg.
  assert (Ht : ∀ o, truthy_id (if truthy_id o is Some _ then None else o) = None).
  { intros [s|]; [|done]. simpl.
    destruct (decide (s = "")) as [->|Hs]; simpl; [done | done]. }
  split; [done|]. split; [done|]. split; [done|].
  split; [apply Ht|]. split; [apply Ht|].
  split; [by destruct ws; intros ? [= <-]|].
  split; [by destruct sess; intros ? [= <-]|].
  pose proof (HeartBeatFacts.wf_unregister) as Hwfu.
  destruct (truthy_id t1) as [i1|], (truthy_id t2) as [i2|]; simpl.
  - split_and!.
    + intros i [[= ->] | [= ->]]; rewrite !unregister_get by auto;
        repeat case_decide; done.
    + intros k' H1 H2. rewrite !unregister_get by auto.
      rewrite !decide_False by congruence. done.
    + auto.
  - split_and!.
    + intros i [[= ->] | [=]]. rewrite unregister_get by auto.
      by rewrite decide_True.
    + intros k' H1 _. rewrite unregister_get by auto.
      by rewrite decide_False by congruence.
    + auto.
  - split_and!.
    + intros i [[=] | [= ->]]. rewrite unregister_get by auto.
      by rewrite decide_True.
    + intros k' _ H2. rewrite unregister_get by auto.
      by rewrite decide_False by congruence.
    + auto.
  - split_and!; [by intros i [[=]|[=]] | done | done].
Qed.

Lemma disconnect_closes_everything_witness :
  (HeartBeat.wf (heartbeat (sys (Scenario.connected 0 PyNone)))
   ∧ ∀ n, close_raises (Scenario.all_quiet n) = None)
  ∧ _state (client (sys (exec0 Scenario.all_quiet disconnect
                           (Scenario.connected 0 PyNone)).1)) = CLOSED
  ∧ PyDict.get "task-0"
      (HeartBeat._tasks (heartbeat (sys (exec0 Scenario.all_quiet disconnect
                                           (Scenario.connected 0 PyNone)).1)))
    = None.
Proof.
  assert (Hwf : HeartBeat.wf (heartbeat (sys (Scenario.connected 0 PyNone)))).
  { split; simpl; [|repeat constructor].
    apply NoDup_cons. split; [|apply NoDup_singleton].
    intros Hin%list_elem_of_singleton. discriminate. }
  assert (Hcl : ∀ n, close_raises (Scenario.all_quiet n) = None) by done.
  split; [by split|].
  destruct (disconnect_closes_everything Scenario.all_quiet
              (Scenario.connected 0 PyNone) Hwf Hcl)
    as (_ & Hst & _ & _ & _ & _ & _ & Hgone & _).
  split; [exact Hst|]. apply Hgone. left. reflexivity.
Defined.



(** *** [start] *)

Lemma register_nonpos f i a k (h : HeartBeat.t) g :
  i ≤ 0 → HeartBeat.register f i a k h g = (Raise ValueError, h, g, []).
Proof. intros. unfold HeartBeat.register. by rewrite decide_True. Qed.

Lemma register_pos f i a k (h : HeartBeat.t) g :
  1 ≤ i →
  HeartBeat.register f i a k h g
  = (Ok (uuid_of g (uuid_next g)),
     HeartBeat.with_tasks
       (PyDict.set_item (uuid_of g (uuid_next g)) (HeartBeat.mkTask f i a k)
          (HeartBeat._tasks h)) h,
     mkUuidGen (uuid_of g) (S (uuid_next g)),
     [EvLog INFO "register heartbeat task"]).
Proof. intros. unfold HeartBeat.register. rewrite decide_False by lia. done. Qed.

Lemma start_run env others c :
  run env others start c
  = (let s := sys c in
     let r1 := HeartBeat.register (mkCallback "_check_connection" false)
                 (_check_conn_interval (client s)) [] [] (heartbeat s) (uuids s) in
     match r1.1.1.1 with
     | Raise e => (mkCfg (with_heartbeat r1.1.1.2 r1.1.2 s) (trace c ++ r1.2) (clock c),
                   Raise e)
     | Ok id1 =>
         let s1 := with_client (with_check_task_id (Some id1) (client s))
                     (with_heartbeat r1.1.1.2 r1.1.2 s) in
         let r2 := HeartBeat.register (mkCallback "_send_heartbeat" false)
                     (_send_hb_interval (client s)) [] []
                     (heartbeat s1) (uuids s1) in
         let tr1 := (trace c ++ r1.2)
                    ++ [EvLog INFO "registered connection check task"] in
         match r2.1.1.1 with
         | Raise e => (mkCfg (with_heartbeat r2.1.1.2 r2.1.2 s1) (tr1 ++ r2.2) (clock c),
                       Raise e)
         | Ok id2 =>
             (mkCfg (with_client (with_heartbeat_task_id (Some id2) (client s1))
                       (with_heartbeat r2.1.1.2 r2.1.2 s1))
                    (((tr1 ++ r2.2)
                      ++ [EvLog INFO "registered heartbeat send task"])
                     ++ [EvSpawn "connect"])
                    (clock c),
              Ok tt)
         end
     end).
Proof.
  unfold start. cbv zeta.
  co_step run_get_self. rewrite run_bind, run_heartbeat_register.
  cbv beta iota. norm_cfg.
  destruct (HeartBeat.register _ _ _ _ _ _) as [[[[id1|e1] h1] g1] evs1];
    norm_cfg; [|done].
  co_step run_modify_self. co_step run_log. co_step run_get_self.
  rewrite run_bind, run_heartbeat_register. cbv beta iota. norm_cfg.
  destruct (HeartBeat.register _ _ _ _ _ _) as [[[[id2|e2] h2] g2] evs2];
    norm_cfg; [|done].
  co_step run_modify_self. co_step run_log. by rewrite run_create_task.
Qed.

(** X16. [start()] with a non-positive check interval or heartbeat interval
    raises [ValueError] and never creates the [connect] task; the state
    is untouched.  When only the heartbeat interval is non-positive,
    the connection-check task has already been registered and stays on
    the scheduler, under the identifier stored in the client. *)
Theorem start_raises_on_nonpositive_interval (env : nat → Step) (c : Cfg) :
  _check_conn_interval (client (sys c)) ≤ 0
  ∨ _send_hb_interval (client (sys c)) ≤ 0 →
  (exec env start c).2 = Raise ValueError
  ∧ spawned "connect" (new_events c (exec env start c).1) = 0%nat
  ∧ _state (client (sys (exec env start c).1)) = _state (client (sys c))
  ∧ (_check_conn_interval (client (sys c)) ≤ 0 → (exec env start c).1 = c)
  ∧ (1 ≤ _check_conn_interval (client (sys c)) →
     let task_id := uuid_of (uuids (sys c)) (uuid_next (uuids (sys c))) in
     _check_task_id (client (sys (exec env start c).1)) = Some task_id
     ∧ PyDict.get task_id
         (HeartBeat._tasks (heartbeat (sys (exec env start c).1)))
       = Some (HeartBeat.mkTask (mkCallback "_check_connection" false)
                 (_check_conn_interval (client (sys c))) [] [])
     ∧ _heartbeat_task_id (client (sys (exec env start c).1))
       = _heartbeat_task_id (client (sys c))).
Proof.
  intros Hbad. unfold exec. rewrite start_run. cbv zeta.
  destruct c as [[cl subs h g] tr k].
  destruct cl as [url ci si ar mx sess ws st cnt msg t1 t2]. norm_cfg.
  destruct (decide (ci ≤ 0)) as [Hci|Hci].
  - rewrite register_nonpos by done. norm_cfg. rewrite app_nil_r.
    split_and!; try done.
    + unfold new_events. simpl. by rewrite drop_all.
    + lia.
  - destruct Hbad as [?|Hsi]; [done|].
    rewrite (register_pos _ ci) by lia. norm_cfg.
    rewrite register_nonpos by done. norm_cfg.
    split_and!; try done.
    + unfold new_events. simpl. rewrite app_nil_r, <- !app_assoc.
      by rewrite drop_app_length.
    + intros _. split_and!; [done | apply get_set_item_eq | done].
Qed.

Lemma start_raises_on_nonpositive_interval_witness :
  (_send_hb_interval (client (sys (ScenarioMore.fresh 10 0))) ≤ 0)
  ∧ (exec Scenario.all_quiet start (ScenarioMore.fresh 10 0)).2 = Raise ValueError
  ∧ HeartBeat.get_task_count
      (heartbeat (sys (exec Scenario.all_quiet start (ScenarioMore.fresh 10 0)).1)) = 1.
Proof.
  split; [simpl; lia|].
  destruct (start_raises_on_nonpositive_interval Scenario.all_quiet
              (ScenarioMore.fresh 10 0)) as (Hres & _); [right; simpl; lia|].
  split; [exact Hres | reflexivity].
Defined.

(** X17. [start()] with both intervals positive returns normally: the two
    periodic tasks are on the scheduler under the identifiers stored in
    the client, and the connection is only scheduled (one [connect]
    task is created, nothing is dialled yet and the state is as
    before). *)
Theorem start_registers_both_tasks_and_spawns_connect
    (env : nat → Step) (c : Cfg) :
  1 ≤ _check_conn_interval (client (sys c)) →
  1 ≤ _send_hb_interval (client (sys c)) →
  let g := uuids (sys c) in
  let check_id := uuid_of g (uuid_next g) in
  let hb_id := uuid_of g (S (uuid_next g)) in
  let c' := (exec env start c).1 in
  (exec env start c).2 = Ok tt
  ∧ _check_task_id (client (sys c')) = Some check_id
  ∧ _heartbeat_task_id (client (sys c')) = Some hb_id
  ∧ PyDict.get hb_id (HeartBeat._tasks (heartbeat (sys c')))
    = Some (HeartBeat.mkTask (mkCallback "_send_heartbeat" false)
              (_send_hb_interval (client (sys c))) [] [])
  ∧ (check_id ≠ hb_id →
     PyDict.get check_id (HeartBeat._tasks (heartbeat (sys c')))
     = Some (HeartBeat.mkTask (mkCallback "_check_connection" false)
               (_check_conn_interval (client (sys c))) [] []))
  ∧ spawned "connect" (new_events c c') = 1%nat
  ∧ connect_attempts (new_events c c') = 0%nat
  ∧ _state (client (sys c')) = _state (client (sys c)).
Proof.
  intros Hci Hsi. cbv zeta. unfold exec. rewrite start_run. cbv zeta.
  destruct c as [[cl subs h g] tr k].
  destruct cl as [url ci si ar mx sess ws st cnt msg t1 t2]. norm_cfg.
  rewrite (register_pos _ ci) by done. norm_cfg.
  rewrite (register_pos _ si) by done. norm_cfg.
  cbn [HeartBeat._tasks HeartBeat.with_tasks uuid_of uuid_next].
  split_and!; try done.
  - apply get_set_item_eq.
  - intros Hne. rewrite get_set_item_ne by done. apply get_set_item_eq.
  - unfold new_events. simpl. rewrite <- !app_assoc.
    by rewrite drop_app_length.
  - unfold new_events. simpl. rewrite <- !app_assoc.
    by rewrite drop_app_length.
Qed.

Lemma start_registers_both_tasks_and_spawns_connect_witness :
  (exec Scenario.all_quiet start (ScenarioMore.fresh 10 20)).2 = Ok tt
  ∧ HeartBeat.get_task_count
      (heartbeat (sys (exec Scenario.all_quiet start (ScenarioMore.fresh 10 20)).1))
    = 2.
Proof.
  split; [|reflexivity].
  apply (start_registers_both_tasks_and_spawns_connect Scenario.all_quiet
           (ScenarioMore.fresh 10 20)); simpl; lia.
Defined.

Lemma pop_app_l {V} k (d l : list (string * V)) :
  PyDict.get k d = None → PyDict.pop k (d ++ l) = d ++ PyDict.pop k l.
Proof.
  induction d as [|[k' v'] d IH]; simpl; [done|].
  case_decide; [done|]. intros Hd. by rewrite IH.
Qed.

(** *** Coroutines that leave the scheduler side alone *)

Section Keeps.
Context {A : Type} (v : HeartBeat.t * option string * option string).

Lemma keeps_Ret (a : A) : keeps_scheduling_at v (Ret a).
Proof. by intros env others c _ Hv. Qed.

Lemma keeps_Throw e : keeps_scheduling_at v (Throw e : Co A).
Proof. by intros env others c _ Hv. Qed.

Lemma keeps_Get (k : Sys → Co A) :
  (∀ s, scheduling s = v → keeps_scheduling_at v (k s)) →
  keeps_scheduling_at v (Get k).
Proof. intros Hk env others c Ho Hv. cbn [run]. by apply Hk. Qed.

Lemma keeps_Put s (k : Co A) :
  scheduling s = v → keeps_scheduling_at v k →
  keeps_scheduling_at v (Put s k).
Proof. intros Hs Hk env others c Ho Hv. cbn [run]. by apply Hk. Qed.

Lemma keeps_Emit ev (k : Co A) :
  keeps_scheduling_at v k → keeps_scheduling_at v (Emit ev k).
Proof. intros Hk env others c Ho Hv. cbn [run]. by apply Hk. Qed.

Lemma keeps_Await a (k : result unit → Co A) :
  (∀ r, keeps_scheduling_at v (k r)) →
  keeps_scheduling_at v (Await a k).
Proof.
  intros Hk env others c Ho Hv. cbn [run].
  destruct (complete a (env (clock c)) _) as [c' r] eqn:Hc.
  apply Hk; [done|].
  assert (Hc' : scheduling (sys c')
                = scheduling (sys (others (env (clock c))
                                     (tick (issue a (env (clock c)) c))))).
  { apply (f_equal fst) in Hc. cbn [fst] in Hc. subst c'.
    destruct a; cbn [complete fst]; try done;
      by destruct (close_raises _). }
  rewrite Hc', Ho, <- Hv.
  destruct a; cbn [issue]; try done; by destruct (send_raises _).
Qed.

Lemma keeps_AwaitConnect (k : result Ws → Co A) :
  (∀ r, keeps_scheduling_at v (k r)) →
  keeps_scheduling_at v (AwaitConnect k).
Proof.
  intros Hk env others c Ho Hv. cbn [run]. apply Hk; [done|].
  by rewrite Ho.
Qed.

End Keeps.

Lemma keeps_bind {A B} v (m : Co A) (f : A → Co B) :
  keeps_scheduling_at v m → (∀ a, keeps_scheduling_at v (f a)) →
  keeps_scheduling_at v (bind m f).
Proof.
  intros Hm Hf env others c Ho Hv.
  change (bind m f) with (m ≫= f). rewrite run_bind.
  specialize (Hm env others c Ho Hv).
  destruct (run env others m c) as [c' [a|e]]; cbn [fst] in *; [|done].
  by apply Hf.
Qed.

Lemma keeps_try_except {A} v (body : Co A) (handler : exn → Co A) :
  keeps_scheduling_at v body → (∀ e, keeps_scheduling_at v (handler e)) →
  keeps_scheduling_at v (try_except body handler).
Proof.
  intros Hb Hh env others c Ho Hv. rewrite run_try_except.
  specialize (Hb env others c Ho Hv).
  destruct (run env others body c) as [c' [a|e]]; cbn [fst] in *; [done|].
  by apply Hh.
Qed.

Lemma keeps_of_result {A} v (r : result A) : keeps_scheduling_at v (of_result r).
Proof. destruct r; [apply keeps_Ret | apply keeps_Throw]. Qed.

Ltac keeps_step :=
  first
    [ apply keeps_Ret | apply keeps_Throw | apply keeps_of_result
    | apply keeps_Emit | apply keeps_Await; intros ?
    | apply keeps_AwaitConnect; intros ?
    | apply keeps_Get; intros [? ? ? ?] ?
    | apply keeps_Put;
      [ match goal with H : scheduling _ = _ |- _ => by rewrite <- H end |]
    | match goal with
      | |- keeps_scheduling_at _ (match ?x with _ => _ end) => destruct x
      end
    | apply keeps_try_except; [|intros ?]
    | apply keeps_bind; [|intros ?] ];
  cbn -[scheduling].

Lemma connect_keeps_scheduling : keeps_scheduling connect.
Proof. intros v. unfold connect. cbn -[scheduling]. repeat keeps_step. Qed.

Lemma connect_task_keeps_scheduling : keeps_scheduling ScenarioMore.connect_task.
Proof.
  intros v. unfold ScenarioMore.connect_task, connect.
  cbn -[scheduling]. repeat keeps_step.
Qed.

Lemma interleave_keeps_scheduling env :
  (∀ k, Forall keeps_scheduling (interrupt (env k))) →
  ∀ k c, scheduling (sys (interleave env (env k) c)) = scheduling (sys c).
Proof.
  intros Hint k c. unfold interleave.
  specialize (Hint k). revert c.
  induction Hint as [|p ps Hp _ IH]; intros c; [done|].
  cbn [foldl]. rewrite IH. unfold exec0. by apply Hp.
Qed.

Lemma exec_keeps_scheduling {A} env (p : Co A) c :
  (∀ k, Forall keeps_scheduling (interrupt (env k))) →
  keeps_scheduling p →
  scheduling (sys (exec env p c).1) = scheduling (sys c).
Proof.
  intros Hint Hp. unfold exec.
  by apply Hp; [apply interleave_keeps_scheduling|].
Qed.

(** The scheduler side after [start()], and after [disconnect()]
    whatever runs during its awaits. *)
Lemma start_scheduling env others c :
  1 ≤ _check_conn_interval (client (sys c)) →
  1 ≤ _send_hb_interval (client (sys c)) →
  scheduling (sys (run env others start c).1)
  = (HeartBeat.with_tasks
       (PyDict.set_item (uuid_of (uuids (sys c)) (S (uuid_next (uuids (sys c)))))
          (HeartBeat.mkTask (mkCallback "_send_heartbeat" false)
             (_send_hb_interval (client (sys c))) [] [])
          (PyDict.set_item (uuid_of (uuids (sys c)) (uuid_next (uuids (sys c))))
             (HeartBeat.mkTask (mkCallback "_check_connection" false)
                (_check_conn_interval (client (sys c))) [] [])
             (HeartBeat._tasks (heartbeat (sys c)))))
       (heartbeat (sys c)),
     Some (uuid_of (uuids (sys c)) (uuid_next (uuids (sys c)))),
     Some (uuid_of (uuids (sys c)) (S (uuid_next (uuids (sys c)))))).
Proof.
  intros Hci Hsi. rewrite start_run. cbv zeta.
  destruct c as [[cl subs h g] tr k].
  destruct cl as [url ci si ar mx sess ws st cnt msg t1 t2]. norm_cfg.
  rewrite (register_pos _ ci) by done. norm_cfg.
  rewrite (register_pos _ si) by done. norm_cfg.
  by destruct h.
Qed.

Lemma disconnect_scheduling env others c :
  (∀ k c', scheduling (sys (others (env k) c')) = scheduling (sys c')) →
  scheduling (sys (run env others disconnect c).1)
  = (let h1 := match truthy_id (_check_task_id (client (sys c))) with
               | Some i => (HeartBeat.unregister i (heartbeat (sys c))).1.2
               | None => heartbeat (sys c)
               end in
     (match truthy_id (_heartbeat_task_id (client (sys c))) with
      | Some i => (HeartBeat.unregister i h1).1.2
      | None => h1
      end,
      if truthy_id (_check_task_id (client (sys c))) is Some _
      then None else _check_task_id (client (sys c)),
      if truthy_id (_heartbeat_task_id (client (sys c))) is Some _
      then None else _heartbeat_task_id (client (sys c)))).
Proof.
  intros Ho. unfold disconnect.
  co_step run_log. co_step run_set_state. co_step run_get_self.
  co_step run_unregister_if. co_step run_get_self.
  co_step run_unregister_if.
  match goal with
  | |- scheduling (sys (run env others ?tail ?c0).1) = ?v =>
      assert (Htail : keeps_scheduling_at v tail)
  end.
  { cbn -[scheduling]. repeat keeps_step. }
  apply Htail; [done|].
  destruct c as [[cl subs h g] tr k].
  destruct cl as [url ci si ar mx sess ws st cnt msg t1 t2]. norm_cfg.
  unfold scheduling.
  destruct (truthy_id t1) as [i1|]; norm_cfg;
    destruct (truthy_id t2) as [i2|]; norm_cfg; done.
Qed.

(** X18. [start()] followed by [disconnect()] leaves the scheduler exactly
    as it was before [start()], and the client without task
    identifiers: the two tasks [start] appended to the table are the
    two [disconnect] removes, whatever else was registered.  This holds
    whenever the [connect] task that [start()] created gets to run
    (before [disconnect()], during its awaits, after it, or not at
    all), and whatever closing the socket does.  The identifiers handed
    out must be new, distinct and non-empty, as uuids are.  Nothing is
    said of the connection state, which [connect] may change after
    [disconnect()] has set it. *)
Theorem start_then_disconnect_restores_scheduler
    (env : nat → Step) (c : Cfg) (before after : bool) :
  let g := uuids (sys c) in
  let check_id := uuid_of g (uuid_next g) in
  let hb_id := uuid_of g (S (uuid_next g)) in
  let tasks := HeartBeat._tasks (heartbeat (sys c)) in
  1 ≤ _check_conn_interval (client (sys c)) →
  1 ≤ _send_hb_interval (client (sys c)) →
  check_id ≠ "" → hb_id ≠ "" → check_id ≠ hb_id →
  PyDict.get check_id tasks = None → PyDict.get hb_id tasks = None →
  (∀ k, Forall keeps_scheduling (interrupt (env k))) →
  let c1 := (exec env start c).1 in
  let c1' := if before then (exec env connect c1).1 else c1 in
  let c2 := (exec env disconnect c1').1 in
  let c3 := if after then (exec env connect c2).1 else c2 in
  HeartBeat._tasks (heartbeat (sys c1))
  = tasks
    ++ [(check_id, HeartBeat.mkTask (mkCallback "_check_connection" false)
                     (_check_conn_interval (client (sys c))) [] []);
        (hb_id, HeartBeat.mkTask (mkCallback "_send_heartbeat" false)
                  (_send_hb_interval (client (sys c))) [] [])]
  ∧ heartbeat (sys c3) = heartbeat (sys c)
  ∧ _check_task_id (client (sys c3)) = None
  ∧ _heartbeat_task_id (client (sys c3)) = None.
Proof.
  cbv zeta. intros Hci Hsi Ha Hb Hab Hfa Hfb Hint.
  pose proof (interleave_keeps_scheduling env Hint) as Ho.
  pose proof (start_scheduling env (interleave env) c Hci Hsi) as H1.
  fold (exec env start c) in H1.
  set (c1 := (exec env start c).1) in *.
  set (c1' := if before then (exec env connect c1).1 else c1).
  assert (H1' : scheduling (sys c1') = scheduling (sys c1)).
  { unfold c1'. destruct before; [|done].
    apply exec_keeps_scheduling; [done | apply connect_keeps_scheduling]. }
  pose proof (disconnect_scheduling env (interleave env) c1' Ho) as H2.
  fold (exec env disconnect c1') in H2.
  set (c2 := (exec env disconnect c1').1) in *.
  set (c3 := if after then (exec env connect c2).1 else c2).
  assert (H3 : scheduling (sys c3) = scheduling (sys c2)).
  { unfold c3. destruct after; [|done].
    apply exec_keeps_scheduling; [done | apply connect_keeps_scheduling]. }
  rewrite H1 in H1'. clearbody c1 c1' c2 c3.
  unfold scheduling in H1, H1', H2, H3.
  injection H1 as Hh1 _ _. injection H1' as Hh1' Ht1 Ht2.
  rewrite Hh1', Ht1, Ht2 in H2. clear Hh1' Ht1 Ht2.
  injection H3 as Hh3 Hc3 Hb3. rewrite Hh3, Hc3, Hb3. clear Hh3 Hc3 Hb3.
  rewrite Hh1. clear Hh1.
  destruct c as [[cl subs h g] tr k].
  destruct cl as [url ci si ar mx sess ws st cnt msg t1 t2].
  destruct h as [cnt0 iv run0 tasks pi bi]. norm_cfg.
  cbn [HeartBeat._tasks HeartBeat.with_tasks] in *.
  revert H2. unfold truthy_id. rewrite !decide_False by done.
  rewrite (set_item_fresh _ _ tasks) by done.
  rewrite set_item_fresh
    by (rewrite get_app_fresh, Hfb; by rewrite decide_False).
  unfold HeartBeat.unregister, PyDict.mem. cbn [HeartBeat._tasks HeartBeat.with_tasks].
  rewrite <- app_assoc. cbn [app].
  assert (Hga : PyDict.get (uuid_of g (uuid_next g))
                  (tasks ++ [(uuid_of g (uuid_next g),
                              HeartBeat.mkTask (mkCallback "_check_connection" false) ci [] []);
                             (uuid_of g (S (uuid_next g)),
                              HeartBeat.mkTask (mkCallback "_send_heartbeat" false) si [] [])])
                = Some (HeartBeat.mkTask (mkCallback "_check_connection" false) ci [] [])).
  { clear -Hfa. induction tasks as [|[k' v'] d IH]; simpl in *.
    - by rewrite decide_True.
    - case_decide; [done|]. by apply IH. }
  rewrite Hga. cbn [fst snd HeartBeat._tasks HeartBeat.with_tasks].
  rewrite pop_app_l by done. cbn [PyDict.pop].
  rewrite (decide_True (P := uuid_of g (uuid_next g) = uuid_of g (uuid_next g)))
    by done.
  rewrite get_app_fresh, Hfb, decide_True by done.
  cbn [fst snd HeartBeat._tasks HeartBeat.with_tasks].
  rewrite pop_app_fresh by done.
  intros [= -> -> ->]. done.
Qed.

Lemma start_then_disconnect_restores_scheduler_witness :
  let c3 :=
    (exec ScenarioMore.connect_task_runs connect
       (exec ScenarioMore.connect_task_runs disconnect
          (exec ScenarioMore.connect_task_runs connect
             (exec ScenarioMore.connect_task_runs start
                (ScenarioMore.fresh 10 20)).1).1).1).1 in
  heartbeat (sys c3) = heartbeat (sys (ScenarioMore.fresh 10 20))
  ∧ _check_task_id (client (sys c3)) = None
  ∧ _state (client (sys c3)) = CONNECTED.
Proof.
  cbv zeta.
  assert (Hint : ∀ k, Forall keeps_scheduling
                        (interrupt (ScenarioMore.connect_task_runs k))).
  { intros k. apply Forall_cons. split; [|apply Forall_nil_2].
    apply connect_task_keeps_scheduling. }
  destruct (start_then_disconnect_restores_scheduler
              ScenarioMore.connect_task_runs (ScenarioMore.fresh 10 20)
              true true ltac:(simpl; lia) ltac:(simpl; lia)
              ltac:(discriminate) ltac:(discriminate) ltac:(discriminate)
              eq_refl eq_refl Hint) as (_ & Hh & Hc & _).
  split; [exact Hh|]. split; [exact Hc | reflexivity].
Defined.

(** *** [_receive_loop] *)

Lemma cfg_eta c : mkCfg (sys c) (trace c) (clock c) = c.
Proof. by destruct c. Qed.

Lemma handle_text_message_run env loads data c :
  ∃ evs k,
    exec0 env (_handle_text_message loads data) c
    = (mkCfg (sys c) (trace c ++ evs) k, Ok tt)
    ∧ processed evs
      = match payload_of loads (MsgText data) with
        | Some value => [value]
        | None => []
        end
    ∧ states evs = [].
Proof.
  unfold exec0, _handle_text_message, payload_of.
  rewrite run_try_except, run_bind.
  assert (Hprocess : ∀ value,
    ∃ evs k,
      match
        (let (c', r) := run env (λ _ c, c) (mret value) c in
         match r with
         | Ok a => run env (λ _ c, c) (await (AwProcess a)) c'
         | Raise e => (c', Raise e)
         end)
      with
      | (c', Ok a) => (c', Ok a)
      | (c', Raise e) =>
          run env (λ _ c, c) (log ERROR "text message handling failed") c'
      end = (mkCfg (sys c) (trace c ++ evs) k, Ok tt)
      ∧ processed evs = [value] ∧ states evs = []).
  { intros value. rewrite run_ret, run_await. cbn [issue complete].
    destruct (hook_raises _) as [e|]; cbn [outcome]; rewrite ?run_log;
      unfold emit, tick; cbn [sys trace clock].
    - eexists [_; _], _. by rewrite <- app_assoc.
    - by eexists [_], _. }
  assert (Hthrow : ∀ e,
    ∃ evs k,
      match
        (let (c', r) := run env (λ _ c, c) (Throw e) c in
         match r with
         | Ok a => run env (λ _ c, c) (await (AwProcess a)) c'
         | Raise e => (c', Raise e)
         end)
      with
      | (c', Ok a) => (c', Ok a)
      | (c', Raise e) =>
          run env (λ _ c, c) (log ERROR "text message handling failed") c'
      end = (mkCfg (sys c) (trace c ++ evs) k, Ok tt)
      ∧ processed evs = [] ∧ states evs = []).
  { intros e. cbn [run]. rewrite run_log. unfold emit. by eexists [_], _. }
  destruct (loads data) as [value|[]]; first [apply Hprocess | apply Hthrow].
Qed.

Lemma receive_frames_data env loads msgs c :
  Forall (λ m, stops_loop m = false) msgs →
  ∃ evs k,
    exec0 env (receive_frames loads msgs) c
    = (mkCfg (sys c) (trace c ++ evs) k, Ok tt)
    ∧ processed evs = omap (payload_of loads) msgs
    ∧ states evs = [].
Proof.
  intros Hdata. revert c.
  induction Hdata as [|m msgs Hm _ IH]; intros c.
  - exists [], (clock c). rewrite app_nil_r, cfg_eta. done.
  - unfold exec0 in *. cbn [receive_frames].
    rewrite run_bind, run_await. cbn [issue complete]. cbv beta iota.
    destruct m as [data| | | | |e]; try discriminate Hm.
    + rewrite run_bind.
      destruct (handle_text_message_run env loads data (tick c))
        as (evs1 & k1 & Hrun1 & Hp1 & Hs1).
      unfold exec0 in Hrun1. rewrite Hrun1. cbv beta iota.
      destruct (IH (mkCfg (sys (tick c)) (trace (tick c) ++ evs1) k1))
        as (evs & k & -> & Hp & Hs).
      norm_cfg. exists (evs1 ++ evs), k. rewrite <- !app_assoc.
      split; [done|]. unfold processed, states in *.
      rewrite !omap_app, Hp1, Hp, Hs1, Hs.
      split; [|done]. simpl.
      by destruct (loads data) as [value|[]].
    + rewrite run_bind. unfold _handle_binary_message.
      rewrite run_try_except, run_await. cbn [issue complete].
      destruct (hook_raises _) as [e|]; cbn [outcome]; cbv beta iota;
        [rewrite run_log|].
      * destruct (IH (emit (EvLog ERROR "binary message handling failed")
                        (tick (emit EvProcessBinary (tick c)))))
          as (evs & k & -> & Hp & Hs).
        norm_cfg. eexists (_ :: _ :: evs), k. rewrite <- !app_assoc.
        split; [done|]. cbn [app]. split; simpl; done.
      * destruct (IH (tick (emit EvProcessBinary (tick c))))
          as (evs & k & -> & Hp & Hs).
        norm_cfg. eexists (_ :: evs), k. rewrite <- !app_assoc.
        split; [done|]. cbn [app]. split; simpl; done.
    + rewrite run_bind, run_log. cbv beta iota.
      destruct (IH (emit (EvLog WARNING "unknown message type") (tick c)))
        as (evs & k & -> & Hp & Hs).
      norm_cfg. eexists (_ :: evs), k. rewrite <- !app_assoc.
      split; [done|]. cbn [app]. split; simpl; done.
Qed.

(** X19. On text, binary and unknown frames the receive loop runs to the
    end of the stream without raising, whatever [json.loads], [process]
    and [process_binary] do.  A text frame is handed to [process] once,
    in order of arrival, as the decoded JSON value or, when decoding
    raises [JSONDecodeError], as the raw string; a text frame on which
    decoding raises any other exception is logged and skipped, [process]
    not being called for it.  The connection state and the client are
    left alone. *)
Theorem receive_loop_hands_text_frames_to_process_in_order
    (env : nat → Step) (loads : string → result json)
    (msgs : list WSMsg) (c : Cfg) :
  Forall (λ m, stops_loop m = false) msgs →
  let r := exec0 env (_receive_loop loads msgs) c in
  r.2 = Ok tt
  ∧ processed (new_events c r.1) = omap (payload_of loads) msgs
  ∧ states (new_events c r.1) = []
  ∧ sys r.1 = sys c.
Proof.
  intros Hdata. cbv zeta. unfold _receive_loop, exec0.
  rewrite run_try_except.
  destruct (receive_frames_data env loads msgs c Hdata)
    as (evs & k & Hrun & Hp & Hs).
  unfold exec0 in Hrun. rewrite Hrun. cbn [fst snd].
  rewrite (new_events_app c _ evs) by done. done.
Qed.

Lemma receive_loop_hands_text_frames_to_process_in_order_witness :
  let loads := λ s, if decide (s = "{}") then Ok (JObj [])
                    else if decide (s = "[[[[") then Raise RuntimeError
                    else Raise JSONDecodeError in
  let msgs := [MsgText "{}"; MsgBinary; MsgText "[[[["; MsgText "ping"; MsgOther] in
  processed
    (new_events (Scenario.connected 0 PyNone)
       (exec0 ScenarioMore.hook_fails (_receive_loop loads msgs)
          (Scenario.connected 0 PyNone)).1)
  = [JObj []; JStr "ping"].
Proof.
  cbv zeta.
  destruct (receive_loop_hands_text_frames_to_process_in_order
              ScenarioMore.hook_fails
              (λ s, if decide (s = "{}") then Ok (JObj [])
                    else if decide (s = "[[[[") then Raise RuntimeError
                    else Raise JSONDecodeError)
              [MsgText "{}"; MsgBinary; MsgText "[[[["; MsgText "ping"; MsgOther]
              (Scenario.connected 0 PyNone)) as (_ & Hp & _).
  - repeat constructor.
  - exact Hp.
Defined.

Lemma receive_frames_stop env others loads pre m post c :
  stops_loop m = true →
  run env others (receive_frames loads (pre ++ m :: post)) c
  = run env others (receive_frames loads (pre ++ [m])) c.
Proof.
  intros Hm. revert c. induction pre as [|m0 pre IH]; intros c.
  - cbn [app receive_frames]. by destruct m.
  - cbn [app receive_frames]. rewrite !run_bind.
    destruct (run env others (await AwReceive) c) as [c1 [[]|e]]; [|done].
    destruct m0; try done.
    + rewrite !run_bind.
      destruct (run env others (_handle_text_message loads data) c1)
        as [c2 [[]|e]]; [apply IH | done].
    + rewrite !run_bind.
      destruct (run env others _handle_binary_message c1)
        as [c2 [[]|e]]; [apply IH | done].
    + rewrite !run_bind.
      destruct (run env others (log WARNING "unknown message type") c1)
        as [c2 [[]|e]]; [apply IH | done].
Qed.

(** X20. A [CLOSED] frame, an [ERROR] frame or a failing read ends the
    receive loop: whatever the socket would deliver afterwards is
    neither read nor processed, so the run is the run on the stream cut
    after that frame, whatever else is going on. *)
Theorem receive_loop_ignores_frames_after_close
    (env : nat → Step) (loads : string → result json)
    (pre post : list WSMsg) (m : WSMsg) (c : Cfg) :
  stops_loop m = true →
  exec env (_receive_loop loads (pre ++ m :: post)) c
  = exec env (_receive_loop loads (pre ++ [m])) c.
Proof.
  intros Hm. unfold exec, _receive_loop. rewrite !run_try_except.
  by rewrite (receive_frames_stop env _ loads pre m post c Hm).
Qed.

Lemma receive_loop_ignores_frames_after_close_witness :
  exec Scenario.all_quiet
    (_receive_loop Scenario.not_json ([MsgText "a"] ++ MsgClosed :: [MsgText "b"]))
    (Scenario.connected 0 PyNone)
  = exec Scenario.all_quiet
      (_receive_loop Scenario.not_json ([MsgText "a"] ++ [MsgClosed]))
      (Scenario.connected 0 PyNone).
Proof.
  apply (receive_loop_ignores_frames_after_close Scenario.all_quiet
           Scenario.not_json [MsgText "a"] [MsgText "b"] MsgClosed
           (Scenario.connected 0 PyNone)).
  reflexivity.
Defined.

(** *** [_check_connection] *)

Lemma new_events_prefix c c' c'' evs :
  trace c' = trace c ++ evs →
  trace c' `prefix_of` trace c'' →
  ∃ more, new_events c c'' = evs ++ more.
Proof.
  intros Hc' [more Hmore]. exists more. unfold new_events.
  by rewrite Hmore, Hc', <- app_assoc, drop_app_length.
Qed.

Lemma handle_disconnect_open env c0 c pre :
  _state (client (sys c0)) ≠ CLOSED →
  trace c0 = trace c ++ pre →
  ∃ more,
    new_events c (exec0 env _handle_disconnect c0).1
    = (pre ++ [EvState DISCONNECTED; EvOnDisconnect]) ++ more.
Proof.
  intros Hst Hpre. unfold exec0, _handle_disconnect.
  rewrite run_bind, run_get_self. cbv beta iota.
  rewrite bool_decide_false by done.
  rewrite run_bind, run_set_state. cbv beta iota.
  rewrite run_bind, run_await. cbn [issue complete].
  destruct (hook_raises _) as [e|]; cbn [outcome]; cbv beta iota.
  - exists []. rewrite app_nil_r. apply new_events_app. simpl.
    by rewrite Hpre, <- !app_assoc.
  - eapply new_events_prefix; [|apply run_trace_mono; by intros].
    simpl. by rewrite Hpre, <- !app_assoc.
Qed.

(** X22. The periodic connection check starts the disconnect handling
    exactly when the socket object exists, reports itself closed and
    the state is still [CONNECTED].  In every other situation it
    returns at once: no hook is called, nothing is awaited, and the
    client and its state are as before. *)
Theorem check_connection_acts_only_on_closed_socket_while_connected
    (env : nat → Step) (c : Cfg) :
  let r := exec0 env _check_connection c in
  (EvOnDisconnect ∈ new_events c r.1
   ↔ ∃ ws, _ws (client (sys c)) = Some ws ∧ closed ws = true
           ∧ _state (client (sys c)) = CONNECTED)
  ∧ (EvOnDisconnect ∉ new_events c r.1 →
     r.2 = Ok tt ∧ sys r.1 = sys c ∧ clock r.1 = clock c
     ∧ states (new_events c r.1) = []).
Proof.
  cbv zeta. unfold exec0, _check_connection.
  rewrite run_bind, run_get_self. cbv beta iota.
  destruct (_ws (client (sys c))) as [[cl]|] eqn:Hws.
  - destruct cl; cbn [closed andb].
    + destruct (decide (_state (client (sys c)) = CONNECTED)) as [Hst|Hst].
      * rewrite bool_decide_true by done.
        rewrite run_bind, run_log. cbv beta iota.
        destruct (handle_disconnect_open env
                    (emit (EvLog WARNING "detected closed websocket") c) c
                    [EvLog WARNING "detected closed websocket"])
          as [more Hmore]; [norm_cfg; by rewrite Hst | done |].
        unfold exec0 in Hmore. rewrite Hmore.
        assert (Hin : EvOnDisconnect
                      ∈ ([EvLog WARNING "detected closed websocket"]
                         ++ [EvState DISCONNECTED; EvOnDisconnect]) ++ more)
          by set_solver.
        split; [split; [by eauto | done] | done].
      * rewrite bool_decide_false by done. rewrite run_ret. cbn [fst snd].
        unfold new_events. rewrite drop_all.
        split; [split; [by intros ?%elem_of_nil | by intros (? & [= <-] & _ & ?)] | done].
    + rewrite run_ret. cbn [fst snd]. unfold new_events. rewrite drop_all.
      split; [split; [by intros ?%elem_of_nil | by intros (? & [= <-] & ? & _)] | done].
  - rewrite run_log. cbn [fst snd]. unfold new_events. simpl.
    rewrite drop_app_length.
    split; [split; [by intros [=]%list_elem_of_singleton | by intros (? & ? & _)] | done].
Qed.

Lemma check_connection_acts_only_on_closed_socket_while_connected_witness :
  (exec0 Scenario.all_quiet _check_connection (Scenario.connected 0 PyNone)).2
  = Ok tt
  ∧ sys (exec0 Scenario.all_quiet _check_connection
           (Scenario.connected 0 PyNone)).1
    = sys (Scenario.connected 0 PyNone).
Proof.
  destruct (check_connection_acts_only_on_closed_socket_while_connected
              Scenario.all_quiet (Scenario.connected 0 PyNone))
    as [Hiff Hidle].
  destruct Hidle as (Hres & Hsys & Hclock & Hstates).
  - intros (ws & Hws & Hclosed & _)%Hiff. by injection Hws as <-.
  - split; [exact Hres | exact Hsys].
Defined.

(** X21. When the [on_disconnect] hook raises during the handling of a
    [CLOSED] frame, the [except] clause of the receive loop runs the
    disconnect handling a second time, so the hook is called again; when
    it raises again the exception leaves [_receive_loop], and no
    reconnect is started: the client stays [DISCONNECTED]. *)
Theorem receive_loop_reruns_disconnect_handling_when_hook_raises
    (env : nat → Step) (loads : string → result json)
    (rest : list WSMsg) (c : Cfg) (e1 e2 : exn) :
  _state (client (sys c)) ≠ CLOSED →
  hook_raises (env (S (clock c))) = Some e1 →
  hook_raises (env (S (S (clock c)))) = Some e2 →
  let r := exec0 env (_receive_loop loads (MsgClosed :: rest)) c in
  r.2 = Raise e2
  ∧ new_events c r.1
    = [EvLog WARNING "websocket closed";
       EvState DISCONNECTED; EvOnDisconnect;
       EvLog ERROR "receive loop exception";
       EvState DISCONNECTED; EvOnDisconnect]
  ∧ _state (client (sys r.1)) = DISCONNECTED
  ∧ _reconnect_count (client (sys r.1)) = _reconnect_count (client (sys c)).
Proof.
  intros Hst H1 H2. cbv zeta. unfold exec0, _receive_loop.
  rewrite run_try_except. cbn [receive_frames].
  rewrite run_bind, run_await. cbn [issue complete]. cbv beta iota.
  rewrite run_bind, run_log. cbv beta iota.
  unfold _handle_disconnect.
  rewrite run_bind, run_get_self. cbv beta iota. norm_cfg.
  rewrite bool_decide_false by done.
  rewrite run_bind, run_set_state. cbv beta iota. norm_cfg.
  rewrite run_bind, run_await. cbn [issue complete]. norm_cfg.
  rewrite H1. cbn [outcome]. cbv beta iota.
  rewrite run_bind, run_log. cbv beta iota. norm_cfg.
  rewrite run_bind, run_get_self. cbv beta iota. norm_cfg.
  rewrite bool_decide_false by done.
  rewrite run_bind, run_set_state. cbv beta iota. norm_cfg.
  rewrite run_bind, run_await. cbn [issue complete]. norm_cfg.
  rewrite H2. cbn [outcome]. cbv beta iota. norm_cfg.
  split_and!; try done.
  unfold new_events. simpl. rewrite <- !app_assoc.
  by rewrite drop_app_length.
Qed.

Lemma receive_loop_reruns_disconnect_handling_when_hook_raises_witness :
  (exec0 ScenarioMore.hook_fails (_receive_loop Scenario.not_json [MsgClosed])
     (Scenario.connected 0 PyNone)).2 = Raise OtherException.
Proof.
  apply (receive_loop_reruns_disconnect_handling_when_hook_raises
           ScenarioMore.hook_fails Scenario.not_json [] (Scenario.connected 0 PyNone)
           OtherException OtherException); done.
Defined.

(** *** [start] and the scheduler *)

Lemma start_heartbeat env c :
  1 ≤ _check_conn_interval (client (sys c)) →
  1 ≤ _send_hb_interval (client (sys c)) →
  heartbeat (sys (exec env start c).1)
  = HeartBeat.with_tasks
      (PyDict.set_item (uuid_of (uuids (sys c)) (S (uuid_next (uuids (sys c)))))
         (HeartBeat.mkTask (mkCallback "_send_heartbeat" false)
            (_send_hb_interval (client (sys c))) [] [])
         (PyDict.set_item (uuid_of (uuids (sys c)) (uuid_next (uuids (sys c))))
            (HeartBeat.mkTask (mkCallback "_check_connection" false)
               (_check_conn_interval (client (sys c))) [] [])
            (HeartBeat._tasks (heartbeat (sys c)))))
      (heartbeat (sys c)).
Proof.
  intros Hci Hsi. unfold exec. rewrite start_run. cbv zeta.
  destruct c as [[cl subs h g] tr k].
  destruct cl as [url ci si ar mx sess ws st cnt msg t1 t2]. norm_cfg.
  rewrite (register_pos _ ci) by done. norm_cfg.
  rewrite (register_pos _ si) by done. norm_cfg.
  by destruct h.
Qed.

(** X23. After [start()] on a running scheduler, the two periodic tasks of
    the client are launched at the pace of their intervals: over the
    next [n] activations, with the counter at [k] before,
    [_check_connection] is launched [(k+n)/ci - k/ci] times and
    [_send_heartbeat] [(k+n)/si - k/si] times (integer divisions by the
    check and heartbeat intervals), whatever else is registered. *)
Theorem started_client_tasks_fire_at_their_intervals
    (env : nat → Step) (c : Cfg) (n : nat) :
  let h := heartbeat (sys c) in
  let g := uuids (sys c) in
  let check_id := uuid_of g (uuid_next g) in
  let hb_id := uuid_of g (S (uuid_next g)) in
  let ci := _check_conn_interval (client (sys c)) in
  let si := _send_hb_interval (client (sys c)) in
  1 ≤ ci → 1 ≤ si →
  HeartBeat.wf h → HeartBeat._is_running h = true → 0 ≤ HeartBeat._count h →
  check_id ≠ hb_id →
  let ticks := (HeartBeat.run_ticks n (heartbeat (sys (exec env start c).1))).2 in
  length ticks = n
  ∧ Z.of_nat (HeartBeat.total_launches check_id ticks)
    = (HeartBeat._count h + Z.of_nat n) `div` ci - HeartBeat._count h `div` ci
  ∧ Z.of_nat (HeartBeat.total_launches hb_id ticks)
    = (HeartBeat._count h + Z.of_nat n) `div` si - HeartBeat._count h `div` si.
Proof.
  cbv zeta. intros Hci Hsi [Hnd Hpos] Hrun Hcnt Hne.
  rewrite start_heartbeat by done.
  set (a := uuid_of (uuids (sys c)) (uuid_next (uuids (sys c)))) in *.
  set (b := uuid_of (uuids (sys c)) (S (uuid_next (uuids (sys c))))) in *.
  set (ta := HeartBeat.mkTask (mkCallback "_check_connection" false)
               (_check_conn_interval (client (sys c))) [] []).
  set (tb := HeartBeat.mkTask (mkCallback "_send_heartbeat" false)
               (_send_hb_interval (client (sys c))) [] []).
  set (h' := HeartBeat.with_tasks _ _).
  assert (Hwf : HeartBeat.wf h').
  { apply HeartBeatFacts.wf_with_tasks.
    - by do 2 apply HeartBeatFacts.NoDup_keys_set_item.
    - apply HeartBeatFacts.Forall_set_item; [|simpl; lia].
      apply HeartBeatFacts.Forall_set_item; [done | simpl; lia]. }
  assert (Hga : PyDict.get a (HeartBeat._tasks h') = Some ta).
  { subst h'. cbn [HeartBeat._tasks HeartBeat.with_tasks].
    rewrite get_set_item_ne by done. apply get_set_item_eq. }
  assert (Hgb : PyDict.get b (HeartBeat._tasks h') = Some tb).
  { subst h'. cbn [HeartBeat._tasks HeartBeat.with_tasks].
    apply get_set_item_eq. }
  assert (Hrun' : HeartBeat._is_running h' = true) by done.
  assert (Hcnt' : HeartBeat._count h' = HeartBeat._count (heartbeat (sys c)))
    by done.
  destruct (HeartBeatFacts.run_ticks_spec n h' a ta Hwf Hrun' ltac:(by rewrite Hcnt') Hga)
    as (ticks & Hticks & Hlen & Hper & Htot).
  destruct (HeartBeatFacts.run_ticks_spec n h' b tb Hwf Hrun' ltac:(by rewrite Hcnt') Hgb)
    as (ticks' & Hticks' & _ & Hper' & Htot').
  rewrite Hticks in Hticks'. injection Hticks' as <-.
  rewrite Hticks. cbn [snd]. rewrite Hcnt' in Htot, Htot'.
  split; [done|]. split.
  - rewrite (HeartBeatFacts.total_launches_calls a ticks); [exact Htot|].
    intros k evs Hk. by destruct (Hper k evs Hk) as [_ ->].
  - rewrite (HeartBeatFacts.total_launches_calls b ticks); [exact Htot'|].
    intros k evs Hk. by destruct (Hper' k evs Hk) as [_ ->].
Qed.

Lemma started_client_tasks_fire_at_their_intervals_witness :
  let c := mkCfg (mkSys (WebSocketClient__init__ "wss://example" 2 3 true 0)
                    ∅ Sample.hb_A3 (mkUuidGen (uuid_of Sample.gen) 1)) [] 0 in
  let ticks := (HeartBeat.run_ticks 6
                  (heartbeat (sys (exec Scenario.all_quiet start c).1))).2 in
  Z.of_nat (HeartBeat.total_launches "task-1" ticks) = 3
  ∧ Z.of_nat (HeartBeat.total_launches "task-2" ticks) = 2.
Proof.
  cbv zeta.
  destruct (started_client_tasks_fire_at_their_intervals Scenario.all_quiet
              (mkCfg (mkSys (WebSocketClient__init__ "wss://example" 2 3 true 0)
                        ∅ Sample.hb_A3 (mkUuidGen (uuid_of Sample.gen) 1)) [] 0)
              6) as (_ & Ha & Hb).
  - simpl; lia.
  - simpl; lia.
  - split; simpl; [repeat constructor; set_solver | repeat constructor; simpl; lia].
  - reflexivity.
  - simpl; lia.
  - done.
  - split; [exact Ha | exact Hb].
Defined.

End WebSocketClientMore.

(** ** The Binance adapter: construction, requests and subscriptions *)

Module BinanceMore.
Import WebSocketClient WebSocketClientFacts WebSocketObs WebSocketClientMore.
Import BinanceSpotWebSocketBase BinanceSpotWebSocket BinanceSpotPublicWebSocket.
Import BinanceObs.

(** X24. A client built by [BinanceSpotWebSocketBase.__init__] cannot be
    started: the constructor fixes [send_hb_interval=0], which the
    scheduler rejects, so [WebSocketClient.start()] (the first thing the
    adapter's [start()] does) raises [ValueError] before the [connect]
    task is created.  With a positive check interval the
    connection-check task is left behind on the scheduler. *)
Theorem binance_client_start_raises_value_error
    (env : nat → Step) (stream_names : option (list string)) (combined : bool)
    (check_conn_interval : Z) (auto_reconnect : bool)
    (max_reconnect_attempts : Z) (h : HeartBeat.t) (g : UuidGen)
    (tr : list Event) (k : nat) :
  let c := mkCfg (constructed stream_names combined check_conn_interval
                    auto_reconnect max_reconnect_attempts h g) tr k in
  let r := exec env WebSocketClient.start c in
  r.2 = Raise ValueError
  ∧ spawned "connect" (new_events c r.1) = 0%nat
  ∧ _state (client (sys r.1)) = DISCONNECTED
  ∧ _heartbeat_task_id (client (sys r.1)) = None
  ∧ (check_conn_interval ≤ 0 → heartbeat (sys r.1) = h)
  ∧ (1 ≤ check_conn_interval →
     PyDict.get (uuid_of g (uuid_next g))
       (HeartBeat._tasks (heartbeat (sys r.1)))
     = Some (HeartBeat.mkTask (mkCallback "_check_connection" false)
               check_conn_interval [] [])).
Proof.
  cbv zeta. unfold exec. rewrite start_run. cbv zeta.
  unfold constructed, __init__, WebSocketClient__init__. norm_cfg.
  destruct (decide (check_conn_interval ≤ 0)) as [Hci|Hci].
  - rewrite register_nonpos by done. norm_cfg. rewrite app_nil_r.
    split_and!; try done; [|lia].
    unfold new_events. simpl. by rewrite drop_all.
  - rewrite (register_pos _ check_conn_interval) by lia. norm_cfg.
    rewrite register_nonpos by done. norm_cfg.
    split_and!; try done.
    + unfold new_events. simpl. rewrite app_nil_r, <- !app_assoc.
      by rewrite drop_app_length.
    + intros _. apply get_set_item_eq.
Qed.

Lemma binance_client_start_raises_value_error_witness :
  let c := mkCfg (constructed None true 10 true 0 (HeartBeat.__init__ [])
                    Sample.gen) [] 0 in
  (exec Scenario.all_quiet WebSocketClient.start c).2 = Raise ValueError
  ∧ PyDict.keys (HeartBeat._tasks
                   (heartbeat (sys (exec Scenario.all_quiet
                                      WebSocketClient.start c).1)))
    = ["task-0"].
Proof.
  cbv zeta. split; [|reflexivity].
  apply (binance_client_start_raises_value_error Scenario.all_quiet None true
           10 true 0 (HeartBeat.__init__ []) Sample.gen [] 0).
Defined.

(** *** Requests *)

Lemma send_json_run env others dumps data c :
  run env others (BinanceSpotWebSocket.send_json dumps data) c
  = (if socket_open (client (sys c))
     then
       let st := env (clock c) in
       let c1 := others st (tick (issue (AwWsSendStr (dumps data)) st c)) in
       match send_raises st with
       | None => c1
       | Some _ => emit (EvLog ERROR "send JSON message failed") c1
       end
     else emit (EvLog WARNING "websocket not connected, cannot send") c,
     Ok tt).
Proof.
  unfold BinanceSpotWebSocket.send_json, socket_open.
  rewrite run_try_except, run_bind, run_get_self. cbv beta iota.
  destruct (_ws (client (sys c))) as [[[]]|]; cbn [closed negb];
    rewrite ?run_log; try done.
  rewrite run_await. cbn [complete issue].
  destruct (send_raises _); cbn [outcome]; by rewrite ?run_log.
Qed.

Lemma subscribe_run env others dumps streams n c :
  run env others (subscribe dumps streams n) c
  = (emit (EvLog INFO "subscribe request sent")
       (run env others
          (BinanceSpotWebSocket.send_json dumps (request "SUBSCRIBE" streams (n + 1)))
          c).1,
     Ok (true, n + 1)).
Proof.
  unfold subscribe, _get_next_req_id. cbv zeta beta iota.
  rewrite run_try_except, run_bind, send_json_run. cbv beta iota.
  by rewrite run_bind, run_log.
Qed.

Lemma unsubscribe_run env others dumps streams n c :
  run env others (unsubscribe dumps streams n) c
  = (emit (EvLog INFO "unsubscribe request sent")
       (run env others
          (BinanceSpotWebSocket.send_json dumps (request "UNSUBSCRIBE" streams (n + 1)))
          c).1,
     Ok (true, n + 1)).
Proof.
  unfold unsubscribe, _get_next_req_id. cbv zeta beta iota.
  rewrite run_try_except, run_bind, send_json_run. cbv beta iota.
  by rewrite run_bind, run_log.
Qed.

Lemma send_json_alone env dumps data c :
  let r := exec0 env (BinanceSpotWebSocket.send_json dumps data) c in
  sys r.1 = sys c
  ∧ ∃ evs, trace r.1 = trace c ++ evs
           ∧ sent_texts evs
             = (if socket_open (client (sys c))
                then match send_raises (env (clock c)) with
                     | None => [dumps data]
                     | Some _ => []
                     end
                else []).
Proof.
  cbv zeta. unfold exec0. rewrite send_json_run. cbn [fst snd issue].
  destruct (socket_open _); [|split; [done|by eexists [_]]].
  destruct (send_raises _); cbv zeta; norm_cfg.
  - split; [done|]. by eexists [_].
  - split; [done|]. by eexists [_].
Qed.

(** X25. [subscribe] and [unsubscribe] return [True] and advance the
    request counter by one on every path, whatever else runs
    meanwhile: the return value does not tell whether the request
    left.  Run alone, each writes exactly one text, the serialized
    request carrying the new counter value as its id, when the client
    holds an open socket and the write succeeds, and nothing
    otherwise; neither touches the client or the callback registry. *)
Theorem subscribe_reports_success_whether_or_not_sent
    (env : nat → Step) (dumps : json → string) (streams : list string)
    (n : Z) (c : Cfg) :
  (exec env (subscribe dumps streams n) c).2 = Ok (true, n + 1)
  ∧ (exec env (unsubscribe dumps streams n) c).2 = Ok (true, n + 1)
  ∧ (let r := exec0 env (subscribe dumps streams n) c in
     sys r.1 = sys c
     ∧ sent_texts (new_events c r.1)
       = (if socket_open (client (sys c))
          then match send_raises (env (clock c)) with
               | None => [dumps (request "SUBSCRIBE" streams (n + 1))]
               | Some _ => []
               end
          else []))
  ∧ (let r := exec0 env (unsubscribe dumps streams n) c in
     sys r.1 = sys c
     ∧ sent_texts (new_events c r.1)
       = (if socket_open (client (sys c))
          then match send_raises (env (clock c)) with
               | None => [dumps (request "UNSUBSCRIBE" streams (n + 1))]
               | Some _ => []
               end
          else [])).
Proof.
  unfold exec. rewrite subscribe_run, unsubscribe_run.
  split; [done|]. split; [done|]. cbv zeta. unfold exec0.
  rewrite subscribe_run, unsubscribe_run. cbn [fst snd].
  split.
  - destruct (send_json_alone env dumps (request "SUBSCRIBE" streams (n + 1)) c)
      as (Hs & evs & Htr & Hsent).
    unfold exec0 in *. split; [done|].
    rewrite (new_events_app c _ (evs ++ [EvLog INFO "subscribe request sent"])).
    + unfold sent_texts in *. rewrite omap_app, Hsent. simpl. by rewrite app_nil_r.
    + cbn [emit trace]. by rewrite Htr, app_assoc.
  - destruct (send_json_alone env dumps (request "UNSUBSCRIBE" streams (n + 1)) c)
      as (Hs & evs & Htr & Hsent).
    unfold exec0 in *. split; [done|].
    rewrite (new_events_app c _ (evs ++ [EvLog INFO "unsubscribe request sent"])).
    + unfold sent_texts in *. rewrite omap_app, Hsent. simpl. by rewrite app_nil_r.
    + cbn [emit trace]. by rewrite Htr, app_assoc.
Qed.

(** *** Subscriptions *)

Lemma store_lookup_notin (cb : Callback) streams (subs : gmap string Callback) stream :
  stream ∉ streams →
  foldl (λ subs stream, <[stream := cb]> subs) subs streams !! stream
  = subs !! stream.
Proof.
  revert subs. induction streams as [|s streams IH]; intros subs Hnotin; [done|].
  apply not_elem_of_cons in Hnotin as [Hne Hnotin]. simpl.
  rewrite IH by done. by rewrite lookup_insert_ne.
Qed.

Lemma store_lookup_in (cb : Callback) streams (subs : gmap string Callback) stream :
  stream ∈ streams →
  foldl (λ subs stream, <[stream := cb]> subs) subs streams !! stream = Some cb.
Proof.
  revert subs. induction streams as [|s streams IH]; intros subs Hin.
  - by apply elem_of_nil in Hin.
  - simpl. destruct (decide (stream ∈ streams)) as [Hin'|Hnotin].
    + by apply IH.
    + apply elem_of_cons in Hin as [->|?]; [|done].
      rewrite store_lookup_notin by done. by rewrite lookup_insert_eq.
Qed.

Lemma run_store_callback env others callback streams c :
  run env others (store_callback callback streams) c
  = (match callback with
     | Some cb =>
         with_sys (mkSys (client (sys c))
                     (foldl (λ subs stream, <[stream := cb]> subs)
                            (_subscriptions (sys c)) streams)
                     (heartbeat (sys c)) (uuids (sys c))) c
     | None => c
     end, Ok tt).
Proof. by destruct callback. Qed.

Lemma store_then_subscribe_alone env dumps streams callback n c :
  let r := exec0 env (store_callback callback streams;;
                      subscribe dumps streams n) c in
  r.2 = Ok (true, n + 1)
  ∧ client (sys r.1) = client (sys c)
  ∧ _subscriptions (sys r.1)
    = match callback with
      | Some cb => foldl (λ subs stream, <[stream := cb]> subs)
                     (_subscriptions (sys c)) streams
      | None => _subscriptions (sys c)
      end.
Proof.
  cbv zeta. unfold exec0. rewrite run_bind, run_store_callback.
  cbv beta iota. rewrite subscribe_run. cbn [fst snd emit sys].
  match goal with |- context [run _ _ (BinanceSpotWebSocket.send_json ?d ?x) ?c0] =>
    destruct (send_json_alone env d x c0) as (Hs & _)
  end.
  unfold exec0 in Hs. rewrite Hs. by destruct callback.
Qed.

Lemma process_stream_frame env loads c message fields key data cb :
  decode loads message = Some (JObj fields) →
  routed fields = Some (JStr key, data) →
  _subscriptions (sys c) !! key = Some cb →
  invoked (new_events c (exec0 env (process loads message) c).1) = [(cb, data)].
Proof.
  intros Hdec Hrouted Hsub. unfold routed in Hrouted.
  destruct (PyDict.mem "result" fields && PyDict.mem "id" fields) eqn:Hresp;
    [done|].
  destruct (PyDict.mem "error" fields) eqn:Herr; [done|].
  destruct (PyDict.get "stream" fields) as [k|] eqn:Hk; [|done].
  destruct (PyDict.get "data" fields) as [d|] eqn:Hd; [|done].
  injection Hrouted as -> ->.
  unfold process. rewrite Hdec, Hresp, Herr.
  rewrite (BinanceFacts.mem_of_get _ _ _ Hk), (BinanceFacts.mem_of_get _ _ _ Hd), Hk, Hd.
  simpl andb. cbv iota. unfold exec0. rewrite run_try_except.
  simpl. rewrite Hsub. simpl. rewrite ?bool_decide_true by done. simpl.
  destruct (cb_raises cb); simpl; unfold new_events; simpl;
    rewrite <- ?app_assoc, drop_app_length; done.
Qed.

(** X26. Round trip through the registry: after
    [subscribe_trade(symbols, callback)], a combined-stream frame for
    the aggregated-trade stream of any of the symbols is handed to that
    callback, once, with the frame's [data], whatever was registered
    before and whether or not the request could be sent. *)
Theorem subscribe_trade_then_process_invokes_callback
    (env : nat → Step) (lower : string → string) (dumps : json → string)
    (loads : string → option json) (symbols : list string) (cb : Callback)
    (n : Z) (c : Cfg) (symbol : string) (message : json)
    (fields : list (string * json)) (data : json) :
  symbol ∈ symbols →
  decode loads message = Some (JObj fields) →
  routed fields = Some (JStr (lower symbol +:+ "@aggTrade"), data) →
  let c1 := (exec0 env (subscribe_trade lower dumps symbols (Some cb) n) c).1 in
  invoked (new_events c1 (exec0 env (process loads message) c1).1)
  = [(cb, data)].
Proof.
  intros Hin Hdec Hrouted. cbv zeta.
  apply (process_stream_frame _ _ _ _ _ _ _ _ Hdec Hrouted).
  unfold subscribe_trade. cbv zeta.
  destruct (store_then_subscribe_alone env dumps
              ((λ symbol, lower symbol +:+ "@aggTrade") <$> symbols)
              (Some cb) n c) as (_ & _ & ->).
  apply store_lookup_in.
  by apply (list_elem_of_fmap_2 (λ symbol, lower symbol +:+ "@aggTrade")).
Qed.

Lemma subscribe_trade_then_process_invokes_callback_witness :
  let c1 := (exec0 Scenario.all_quiet
               (subscribe_trade (λ s, s) (λ _, "request") ["btcusdt"; "ethusdt"]
                  (Some Scenario.on_trade) 0)
               (Scenario.connected 0 PyNone)).1 in
  invoked
    (new_events c1
       (exec0 Scenario.all_quiet
          (process Scenario.no_json
             (JObj [("stream", JStr "ethusdt@aggTrade"); ("data", JInt 7)]))
          c1).1)
  = [(Scenario.on_trade, JInt 7)].
Proof.
  cbv zeta.
  apply (subscribe_trade_then_process_invokes_callback Scenario.all_quiet
           (λ s, s) (λ _, "request") Scenario.no_json ["btcusdt"; "ethusdt"]
           Scenario.on_trade 0 (Scenario.connected 0 PyNone) "ethusdt"
           (JObj [("stream", JStr "ethusdt@aggTrade"); ("data", JInt 7)])
           [("stream", JStr "ethusdt@aggTrade"); ("data", JInt 7)] (JInt 7)).
  - set_solver.
  - reflexivity.
  - reflexivity.
Defined.

Lemma unsubscribe_alone env dumps streams n c :
  sys (exec0 env (unsubscribe dumps streams n) c).1 = sys c.
Proof.
  unfold exec0. rewrite unsubscribe_run. cbn [fst emit sys].
  match goal with |- context [run _ _ (BinanceSpotWebSocket.send_json ?d ?x) ?c0] =>
    destruct (send_json_alone env d x c0) as (Hs & _)
  end.
  by unfold exec0 in Hs.
Qed.

(** X27. [unsubscribe] only sends the request: the callbacks stay in the
    registry.  After [subscribe_kline(symbols, interval, callback)]
    and a later [unsubscribe] of the same streams, a frame of one of
    these streams is still handed to the callback. *)
Theorem unsubscribe_does_not_stop_delivery
    (env : nat → Step) (lower : string → string) (dumps : json → string)
    (loads : string → option json) (symbols : list string)
    (interval : string) (cb : Callback)
    (n : Z) (c : Cfg) (symbol : string) (message : json)
    (fields : list (string * json)) (data : json) :
  symbol ∈ symbols →
  decode loads message = Some (JObj fields) →
  routed fields
  = Some (JStr (lower symbol +:+ "@kline_" +:+ interval), data) →
  let streams := (λ symbol, lower symbol +:+ "@kline_" +:+ interval) <$> symbols in
  let c1 := (exec0 env (subscribe_kline lower dumps symbols interval (Some cb) n)
               c).1 in
  let c2 := (exec0 env (unsubscribe dumps streams (n + 1)) c1).1 in
  _subscriptions (sys c2) = _subscriptions (sys c1)
  ∧ invoked (new_events c2 (exec0 env (process loads message) c2).1)
    = [(cb, data)].
Proof.
  intros Hin Hdec Hrouted. cbv zeta.
  rewrite unsubscribe_alone. split; [done|].
  apply (process_stream_frame _ _ _ _ _ _ _ _ Hdec Hrouted).
  rewrite unsubscribe_alone.
  unfold subscribe_kline. cbv zeta.
  destruct (store_then_subscribe_alone env dumps
              ((λ symbol, lower symbol +:+ "@kline_" +:+ interval) <$> symbols)
              (Some cb) n c) as (_ & _ & ->).
  apply store_lookup_in.
  by apply (list_elem_of_fmap_2 (λ symbol, lower symbol +:+ "@kline_" +:+ interval)).
Qed.

Lemma unsubscribe_does_not_stop_delivery_witness :
  let c1 := (exec0 Scenario.all_quiet
               (subscribe_kline (λ s, s) (λ _, "request") ["btcusdt"] "1m"
                  (Some Scenario.on_trade) 0)
               (Scenario.connected 0 PyNone)).1 in
  let c2 := (exec0 Scenario.all_quiet
               (unsubscribe (λ _, "request") ["btcusdt@kline_1m"] 1) c1).1 in
  invoked
    (new_events c2
       (exec0 Scenario.all_quiet
          (process Scenario.no_json
             (JObj [("stream", JStr "btcusdt@kline_1m"); ("data", JInt 7)]))
          c2).1)
  = [(Scenario.on_trade, JInt 7)].
Proof.
  cbv zeta.
  apply (unsubscribe_does_not_stop_delivery Scenario.all_quiet
           (λ s, s) (λ _, "request") Scenario.no_json ["btcusdt"] "1m"
           Scenario.on_trade 0 (Scenario.connected 0 PyNone) "btcusdt"
           (JObj [("stream", JStr "btcusdt@kline_1m"); ("data", JInt 7)])
           [("stream", JStr "btcusdt@kline_1m"); ("data", JInt 7)] (JInt 7)).
  - set_solver.
  - reflexivity.
  - reflexivity.
Defined.

(** X28. [subscribe_ticker] writes the registry only under the streams it
    names, and only when a callback is given: every other stream keeps
    its callback, and without a callback the registry is unchanged
    although the request is still issued and counted. *)
Theorem subscribe_ticker_touches_only_named_streams
    (env : nat → Step) (lower : string → string) (dumps : json → string)
    (symbols : list string) (callback : option Callback) (n : Z) (c : Cfg) :
  let streams := (λ symbol, lower symbol +:+ "@ticker") <$> symbols in
  let r := exec0 env (subscribe_ticker lower dumps symbols callback n) c in
  r.2 = Ok (true, n + 1)
  ∧ (∀ stream, stream ∉ streams →
               _subscriptions (sys r.1) !! stream
               = _subscriptions (sys c) !! stream)
  ∧ (∀ stream, stream ∈ streams →
               _subscriptions (sys r.1) !! stream
               = match callback with
                 | Some cb => Some cb
                 | None => _subscriptions (sys c) !! stream
                 end).
Proof.
  cbv zeta. unfold subscribe_ticker. cbv zeta.
  destruct (store_then_subscribe_alone env dumps
              ((λ symbol, lower symbol +:+ "@ticker") <$> symbols)
              callback n c) as (-> & _ & ->).
  split; [done|]. destruct callback as [cb|]; [|done].
  split; intros stream Hs.
  - by apply store_lookup_notin.
  - by apply store_lookup_in.
Qed.

Lemma subscribe_ticker_touches_only_named_streams_witness :
  _subscriptions
    (sys (exec0 Scenario.all_quiet
            (subscribe_ticker (λ s, s) (λ _, "request") ["ethusdt"]
               (Some Sample.cb_A) 0)
            Scenario.subscribed).1) !! "btcusdt@trade"
  = Some Scenario.on_trade.
Proof.
  destruct (subscribe_ticker_touches_only_named_streams Scenario.all_quiet
              (λ s, s) (λ _, "request") ["ethusdt"] (Some Sample.cb_A) 0
              Scenario.subscribed) as (_ & Hother & _).
  rewrite Hother; [reflexivity|].
  intros [=]%list_elem_of_singleton.
Defined.

(** *** The user-data stream *)

Import BinanceSpotUserDataWebSocket.

Lemma call_if_set_run env cb message c :
  exec0 env (call_if_set cb message) c
  = match cb with
    | Some cb =>
        (tick (emit (EvInvoke cb message) c),
         if cb_raises cb then Raise OtherException else Ok tt)
    | None => (c, Ok tt)
    end.
Proof.
  destruct cb as [cb|]; [|done]. unfold exec0, call_if_set.
  rewrite run_await. cbn [issue complete]. done.
Qed.

(** X29. The user-data [process] never raises and dispatches on the event
    type alone: an account-position, balance or execution-report event
    goes to the callback set for it, once, with the whole message, and
    to no other; when that callback is not set, or for any other event
    type (or none), nothing is invoked.  A callback that raises is
    caught. *)
Theorem user_data_process_dispatches_by_event_type
    (env : nat → Step) (loads : string → option json) (cbs : Callbacks)
    (message : json) (fields : list (string * json)) (c : Cfg) :
  decode loads message = Some (JObj fields) →
  let r := exec0 env (BinanceSpotUserDataWebSocket.process loads cbs message) c in
  let target :=
    match PyDict.get "e" fields with
    | Some (JStr "outboundAccountPosition") => _account_callback cbs
    | Some (JStr "balanceUpdate") => _balance_callback cbs
    | Some (JStr "executionReport") => _order_callback cbs
    | _ => None
    end in
  r.2 = Ok tt
  ∧ sys r.1 = sys c
  ∧ invoked (new_events c r.1)
    = match target with
      | Some cb => [(cb, JObj fields)]
      | None => []
      end.
Proof.
  intros Hdec. cbv zeta. unfold BinanceSpotUserDataWebSocket.process.
  rewrite Hdec. unfold exec0. rewrite run_try_except.
  assert (Hcall : ∀ cb,
    let out := run env (λ _ c, c) (call_if_set cb (JObj fields)) c in
    let r := match out with
             | (c', Ok a) => (c', Ok a)
             | (c', Raise e) =>
                 run env (λ _ c, c) (log ERROR "user data processing failed") c'
             end in
    r.2 = Ok tt ∧ sys r.1 = sys c
    ∧ invoked (new_events c r.1)
      = match cb with Some cb => [(cb, JObj fields)] | None => [] end).
  { intros cb. cbv zeta.
    pose proof (call_if_set_run env cb (JObj fields) c) as Hrun.
    unfold exec0 in Hrun. rewrite Hrun.
    destruct cb as [cb|].
    - destruct (cb_raises cb); simpl; (split; [done|]); (split; [done|]);
        unfold new_events; simpl; rewrite <- ?app_assoc, drop_app_length; done.
    - simpl. split; [done|]. split; [done|].
      unfold new_events. by rewrite drop_all. }
  assert (Hlog :
    let r := run env (λ _ c, c) (log DEBUG "unhandled event type") c in
    r.2 = Ok tt ∧ sys r.1 = sys c ∧ invoked (new_events c r.1) = []).
  { simpl. split; [done|]. split; [done|].
    unfold new_events. simpl. by rewrite drop_app_length. }
  cbv zeta in Hcall, Hlog.
  destruct (PyDict.get "e" fields) as [[| | | |s| |]|]; cbn [is_event];
    try exact Hlog.
  destruct (decide (s = "outboundAccountPosition")) as [->|H1].
  { rewrite bool_decide_true by done. apply Hcall. }
  rewrite (bool_decide_false (s = "outboundAccountPosition")) by done.
  destruct (decide (s = "balanceUpdate")) as [->|H2].
  { rewrite bool_decide_true by done. apply Hcall. }
  rewrite (bool_decide_false (s = "balanceUpdate")) by done.
  destruct (decide (s = "executionReport")) as [->|H3].
  { rewrite bool_decide_true by done. apply Hcall. }
  rewrite (bool_decide_false (s = "executionReport")) by done.
  assert (Hnone : match s with
                  | "outboundAccountPosition" => _account_callback cbs
                  | "balanceUpdate" => _balance_callback cbs
                  | "executionReport" => _order_callback cbs
                  | _ => None
                  end = None).
  { clear -H1 H2 H3.
    repeat (match goal with
            | |- context [match ?x with _ => _ end] =>
                is_var x; destruct x; try done
            end). }
  rewrite Hnone. exact Hlog.
Qed.

Lemma user_data_process_dispatches_by_event_type_witness :
  invoked
    (new_events (Scenario.connected 0 PyNone)
       (exec0 Scenario.all_quiet
          (BinanceSpotUserDataWebSocket.process Scenario.no_json
             (set_order_callback Sample.cb_A
                (set_account_callback Sample.cb_B no_callbacks))
             (JObj [("e", JStr "executionReport")]))
          (Scenario.connected 0 PyNone)).1)
  = [(Sample.cb_A, JObj [("e", JStr "executionReport")])].
Proof.
  apply (user_data_process_dispatches_by_event_type Scenario.all_quiet
           Scenario.no_json
           (set_order_callback Sample.cb_A
              (set_account_callback Sample.cb_B no_callbacks))
           (JObj [("e", JStr "executionReport")])
           [("e", JStr "executionReport")] (Scenario.connected 0 PyNone)).
  reflexivity.
Defined.

End BinanceMore.
